(** * Slash-command interpretation engine: chat and workflow command servers

    A shallow embedding of [mcp-servers/workflow-command-server.py] and
    [mcp-servers/chat-command-server.py]: the pattern registries, the
    first-match dispatch, the per-command parameter extraction, the
    validator, the fuzzy suggestion, the list-filter parser and the
    note-worthiness score, followed by the properties established about them.

    Conventions of the embedding.
    - A Python [str] is a [string]; one [ascii] stands for one code point
      below 256, and the character predicates ([str.isspace], [str.lower],
      the classes of [re]) are those of Unicode on that range.
    - A [dict] is an association list in insertion order; [None], [bool],
      [int], [str], [list], [tuple] and [dict] values are the constructors
      of [value].
    - A [float] is a binary64 [PrimFloat.float]; the two places that compute
      with floats (the similarity score and the note-worthiness score) keep
      the order of the operations of the source.
    - Code in a [try] block runs in the [result] monad; the [except] clause
      is the function applied to its outcome.
    - A compiled pattern is a [Re.regex]; [Re.exec] is a backtracking
      matcher that explores alternatives in the order of [re]: greedy
      repetition first, the left branch of [|] first. *)

From Stdlib Require Import String Ascii List ZArith NArith Lia Bool Arith.
From Stdlib Require Import Floats Uint63 DecimalString.
Import ListNotations.

Set Warnings "-inexact-float,-register-all".

Local Open Scope list_scope.
Local Open Scope string_scope.

(** ** Python strings *)

Module Py.

Definition code (c : ascii) : N := N_of_ascii c.

Definition between (lo hi : N) (c : ascii) : bool :=
  ((lo <=? code c) && (code c <=? hi))%N.

Definition is_code (n : N) (c : ascii) : bool := (code c =? n)%N.

(** [str.isspace] and the class [\s]: TAB..CR, FS..US, SPACE, NEL, NBSP. *)
Definition isspace (c : ascii) : bool :=
  between 9 13 c || between 28 32 c || is_code 133 c || is_code 160 c.

(** [str.isdecimal] and the class [\d]. *)
Definition isdecimal (c : ascii) : bool := between 48 57 c.

Definition isalpha (c : ascii) : bool :=
  between 65 90 c || between 97 122 c
  || is_code 170 c || is_code 181 c || is_code 186 c
  || between 192 214 c || between 216 246 c || between 248 255 c.

(** [str.isalnum]: letters, decimal digits, the superscripts and fractions. *)
Definition isalnum (c : ascii) : bool :=
  isalpha c || isdecimal c
  || is_code 178 c || is_code 179 c || is_code 185 c || between 188 190 c.

(** The class [\w]. *)
Definition isword (c : ascii) : bool := isalnum c || is_code 95 c.

Definition lower_char (c : ascii) : ascii :=
  if between 65 90 c || between 192 214 c || between 216 222 c
  then ascii_of_N (code c + 32)
  else c.

(** [s.lower()] *)
Fixpoint lower (s : string) : string :=
  match s with
  | EmptyString => EmptyString
  | String c s' => String (lower_char c) (lower s')
  end.

Definition is_empty (s : string) : bool :=
  match s with EmptyString => true | String _ _ => false end.

(** [len(s)] *)
Definition len (s : string) : nat := String.length s.

Fixpoint all (p : ascii -> bool) (s : string) : bool :=
  match s with
  | EmptyString => true
  | String c s' => p c && all p s'
  end.

Fixpoint mem (c : ascii) (s : string) : bool :=
  match s with
  | EmptyString => false
  | String x s' => Ascii.eqb x c || mem c s'
  end.

Fixpoint take (n : nat) (s : string) : string :=
  match n, s with
  | S n', String c s' => String c (take n' s')
  | _, _ => EmptyString
  end.

Fixpoint drop (n : nat) (s : string) : string :=
  match n, s with
  | S n', String _ s' => drop n' s'
  | _, _ => s
  end.

Fixpoint lstrip_by (p : ascii -> bool) (s : string) : string :=
  match s with
  | String c s' => if p c then lstrip_by p s' else s
  | EmptyString => EmptyString
  end.

Fixpoint rstrip_by (p : ascii -> bool) (s : string) : string :=
  match s with
  | String c s' =>
      let r := rstrip_by p s' in
      if is_empty r && p c then EmptyString else String c r
  | EmptyString => EmptyString
  end.

(** [s.strip()] *)
Definition strip (s : string) : string := rstrip_by isspace (lstrip_by isspace s).

(** [s.lstrip(chars)] *)
Definition lstrip (chars : string) (s : string) : string :=
  lstrip_by (fun c => mem c chars) s.

(** [s.strip(chars)] *)
Definition strip_chars (chars : string) (s : string) : string :=
  rstrip_by (fun c => mem c chars) (lstrip_by (fun c => mem c chars) s).

(** [s.startswith(p)] *)
Fixpoint startswith (p s : string) : bool :=
  match p with
  | EmptyString => true
  | String a p' =>
      match s with
      | String b s' => Ascii.eqb a b && startswith p' s'
      | EmptyString => false
      end
  end.

(** [sub in s] *)
Fixpoint contains (sub s : string) : bool :=
  startswith sub s
  || match s with
     | EmptyString => false
     | String _ s' => contains sub s'
     end.

Definition snoc (s : string) (c : ascii) : string := s ++ String c EmptyString.

Fixpoint split_acc (cur s : string) : list string :=
  match s with
  | EmptyString => if is_empty cur then [] else [cur]
  | String c s' =>
      if isspace c
      then (if is_empty cur then split_acc EmptyString s'
            else cur :: split_acc EmptyString s')
      else split_acc (snoc cur c) s'
  end.

(** [s.split()]: the maximal runs of non-whitespace characters. *)
Definition split (s : string) : list string := split_acc EmptyString s.

Fixpoint split_on_acc (sep : ascii) (cur s : string) : list string :=
  match s with
  | EmptyString => [cur]
  | String c s' =>
      if Ascii.eqb c sep then cur :: split_on_acc sep EmptyString s'
      else split_on_acc sep (snoc cur c) s'
  end.

(** [s.split(sep)] for a one-character separator. *)
Definition split_on (sep : ascii) (s : string) : list string :=
  split_on_acc sep EmptyString s.

(** The first occurrence of [sep] in [s]: what precedes and what follows it. *)
Fixpoint partition (sep s : string) : option (string * string) :=
  if startswith sep s then Some (EmptyString, drop (len sep) s)
  else match s with
       | EmptyString => None
       | String c s' =>
           match partition sep s' with
           | Some (a, b) => Some (String c a, b)
           | None => None
           end
       end.

(** [s.split(sep, 1)] for a non-empty separator. *)
Definition split_once (sep s : string) : list string :=
  match partition sep s with
  | Some (a, b) => [a; b]
  | None => [s]
  end.

(** [sep.join(l)] *)
Fixpoint join (sep : string) (l : list string) : string :=
  match l with
  | [] => EmptyString
  | [x] => x
  | x :: l' => x ++ sep ++ join sep l'
  end.

(** [s.replace(a, b)] for single characters. *)
Fixpoint replace (a b : ascii) (s : string) : string :=
  match s with
  | EmptyString => EmptyString
  | String c s' => String (if Ascii.eqb c a then b else c) (replace a b s')
  end.

(** [s.count(c)] for a character. *)
Fixpoint count (c : ascii) (s : string) : nat :=
  match s with
  | EmptyString => 0
  | String x s' => (if Ascii.eqb x c then 1 else 0) + count c s'
  end.

(** [set(s)], as the list of the distinct characters of [s]. *)
Fixpoint charset (s : string) : list ascii :=
  match s with
  | EmptyString => []
  | String c s' => if mem c s' then charset s' else c :: charset s'
  end.

(** [len(set(a) & set(b))] *)
Definition common_chars (a b : string) : nat :=
  List.length (filter (fun c => mem c b) (charset a)).

Definition digit_value (c : ascii) : Z := Z.of_N (code c - 48).

Fixpoint int_digits (acc : Z) (s : string) : Z :=
  match s with
  | EmptyString => acc
  | String c s' => int_digits (10 * acc + digit_value c) s'
  end.

(** What [int] makes of a [str]: a value, the [ValueError] for an invalid
    literal, or the [ValueError] for a literal of more digits than the
    interpreter converts. *)
Inductive int_literal : Type :=
| IntValue (z : Z)
| IntInvalid
| IntTooLong (digits : N).

(** [sys.int_info.default_max_str_digits], the limit of CPython on the
    digits of a decimal literal; neither server changes it. *)
Definition max_str_digits : N := 4300.

(** The digits at the head of an [int] literal, single underscores allowed
    between them: their value, their number and what follows them; [None]
    when an underscore does not stand between two digits. *)
Fixpoint int_scan (acc : Z) (digits : N) (after_digit : bool) (s : string)
  : option (Z * N * string) :=
  match s with
  | String c s' =>
      if isdecimal c then int_scan (10 * acc + digit_value c) (digits + 1) true s'
      else if is_code 95 c then
        if after_digit then int_scan acc digits false s' else None
      else if after_digit || (digits =? 0)%N then Some (acc, digits, s) else None
  | EmptyString =>
      if after_digit || (digits =? 0)%N then Some (acc, digits, s) else None
  end.

(** The literal without its sign: the digits are counted before what
    follows them is looked at. *)
Definition int_magnitude (s : string) : int_literal :=
  match int_scan 0 0 false s with
  | Some (z, digits, rest) =>
      if (digits =? 0)%N then IntInvalid
      else if (max_str_digits <? digits)%N then IntTooLong digits
      else if is_empty rest then IntValue z
      else IntInvalid
  | None => IntInvalid
  end.

(** [int(s)]: surrounding whitespace, an optional sign, decimal digits. *)
Definition int_of_str (s : string) : int_literal :=
  match strip s with
  | String c t =>
      if is_code 43 c then int_magnitude t
      else if is_code 45 c
      then match int_magnitude t with
           | IntValue z => IntValue (- z)
           | e => e
           end
      else int_magnitude (String c t)
  | EmptyString => IntInvalid
  end.

Definition hex_digit (n : N) : ascii :=
  ascii_of_N (if (n <? 10)%N then 48 + n else 87 + n).

(** The escape [\xNN] of a character. *)
Definition hex_escape (c : ascii) : string :=
  String "\" (String "x" (String (hex_digit (code c / 16))
                                 (String (hex_digit (code c mod 16)) EmptyString))).

(** [str.isprintable] of a character. *)
Definition isprintable (c : ascii) : bool :=
  between 32 126 c || (between 161 255 c && negb (is_code 173 c)).

Fixpoint repr_body (quote : ascii) (s : string) : string :=
  match s with
  | EmptyString => EmptyString
  | String c s' =>
      (if Ascii.eqb c quote || is_code 92 c then String "\" (String c EmptyString)
       else if is_code 9 c then "\t"
       else if is_code 10 c then "\n"
       else if is_code 13 c then "\r"
       else if isprintable c then String c EmptyString
       else hex_escape c) ++ repr_body quote s'
  end.

(** [repr(s)] of a [str]. *)
Definition repr (s : string) : string :=
  let quote :=
    if mem "'" s && negb (mem (ascii_of_N 34) s) then ascii_of_N 34 else "'"%char in
  String quote (repr_body quote s ++ String quote EmptyString).

(** [str(z)] of an [int]. *)
Definition str_of_int (z : Z) : string :=
  DecimalString.NilZero.string_of_int (Z.to_int z).

(** The text of the [ValueError] for a literal of too many digits. *)
Definition int_limit_message (digits : N) : string :=
  "Exceeds the limit (" ++ str_of_int (Z.of_N max_str_digits)
  ++ " digits) for integer string conversion: value has " ++ str_of_int (Z.of_N digits)
  ++ " digits; use sys.set_int_max_str_digits() to increase the limit".

End Py.

(** ** Regular expressions of the [re] module *)

Module Re.

(** One-character classes. *)
Inductive cset : Type :=
| Lit (c : ascii)        (* a literal character *)
| Any                    (* [.] *)
| Space                  (* [\s] *)
| NonSpace               (* [\S], [[^\s]] *)
| Word                   (* [\w] *)
| Digit                  (* [\d] *)
| OneOf (cs : string)    (* [[cs]] *)
| NoneOf (cs : string).  (* [[^cs]] *)

(** Patterns.  Repetition is needed on one-character classes only; [Grp i]
    is the capturing group whose text is [groups()[i]]. *)
Inductive regex : Type :=
| Eps
| Bol                          (* [^] *)
| Eol                          (* [$] *)
| Chr (c : cset)
| Seq (r1 r2 : regex)
| Alt (r1 r2 : regex)          (* [r1|r2] *)
| Opt (r : regex)              (* [(?:r)?] *)
| Plus (c : cset)              (* [c+] *)
| Star (c : cset)              (* [c*] *)
| Grp (i : nat) (r : regex).   (* [(r)] *)

(** The literal text [s]. *)
Fixpoint Str (s : string) : regex :=
  match s with
  | EmptyString => Eps
  | String c s' => Seq (Chr (Lit c)) (Str s')
  end.

(** Concatenation of a sequence of patterns. *)
Fixpoint Cat (l : list regex) : regex :=
  match l with
  | [] => Eps
  | [r] => r
  | r :: l' => Seq r (Cat l')
  end.

Definition groups : Type := list (option string).

Fixpoint ngroups (r : regex) : nat :=
  match r with
  | Seq r1 r2 | Alt r1 r2 => Nat.max (ngroups r1) (ngroups r2)
  | Opt r1 => ngroups r1
  | Grp i r1 => Nat.max (S i) (ngroups r1)
  | _ => 0
  end.

Fixpoint set_nth {A : Type} (i : nat) (v : A) (l : list A) : list A :=
  match l, i with
  | [], _ => []
  | _ :: l', 0 => v :: l'
  | x :: l', S i' => x :: set_nth i' v l'
  end.

(** The text between two positions of the subject, the later one given by
    what is left of the subject there. *)
Definition consumed (s rest : string) : string :=
  Py.take (Py.len s - Py.len rest) s.

(** A literal against a character.  Under [re.IGNORECASE] two characters
    below U+0100 match when their lower-case forms are equal; the further
    matches of [re], such as U+017F for s and U+212A for k, lie outside the
    characters a [string] holds here. *)
Definition lit_eq (ic : bool) (p c : ascii) : bool :=
  if ic then Ascii.eqb (Py.lower_char c) (Py.lower_char p) else Ascii.eqb c p.

Fixpoint lit_mem (ic : bool) (cs : string) (c : ascii) : bool :=
  match cs with
  | EmptyString => false
  | String p cs' => lit_eq ic p c || lit_mem ic cs' c
  end.

(** Membership of a character in a class; [ic] is [re.IGNORECASE]. *)
Definition cmem (ic : bool) (cl : cset) (c : ascii) : bool :=
  match cl with
  | Lit p => lit_eq ic p c
  | Any => negb (Py.is_code 10 c)
  | Space => Py.isspace c
  | NonSpace => negb (Py.isspace c)
  | Word => Py.isword c
  | Digit => Py.isdecimal c
  | OneOf cs => lit_mem ic cs c
  | NoneOf cs => negb (lit_mem ic cs c)
  end.

(** [$] holds at the end of the subject and before a final newline. *)
Definition at_end (s : string) : bool :=
  match s with
  | EmptyString => true
  | String c EmptyString => Py.is_code 10 c
  | _ => false
  end.

Section Matcher.

Variable ic : bool.   (* re.IGNORECASE *)
Variable n : nat.     (* the length of the subject *)

(** Greedy repetition of a class: the longest run first, then shorter ones. *)
Fixpoint star (p : ascii -> bool) (s : string)
              (k : string -> option groups) : option groups :=
  match s with
  | String c s' =>
      if p c
      then match star p s' k with
           | Some g => Some g
           | None => k s
           end
      else k s
  | EmptyString => k s
  end.

(** [exec r s g k]: match [r] at the front of [s] with the groups [g] set
    so far, then continue with [k] on the rest; the first success in
    backtracking order is the result. *)
Fixpoint exec (r : regex) (s : string) (g : groups)
              (k : string -> groups -> option groups) : option groups :=
  match r with
  | Eps => k s g
  | Bol => if Nat.eqb (Py.len s) n then k s g else None
  | Eol => if at_end s then k s g else None
  | Chr c =>
      match s with
      | String x s' => if cmem ic c x then k s' g else None
      | EmptyString => None
      end
  | Seq r1 r2 => exec r1 s g (fun s' g' => exec r2 s' g' k)
  | Alt r1 r2 =>
      match exec r1 s g k with
      | Some g' => Some g'
      | None => exec r2 s g k
      end
  | Opt r1 =>
      match exec r1 s g k with
      | Some g' => Some g'
      | None => k s g
      end
  | Plus c =>
      match s with
      | String x s' =>
          if cmem ic c x then star (cmem ic c) s' (fun s'' => k s'' g) else None
      | EmptyString => None
      end
  | Star c => star (cmem ic c) s (fun s'' => k s'' g)
  | Grp i r1 =>
      exec r1 s g (fun s' g' => k s' (set_nth i (Some (consumed s s')) g'))
  end.

(** A match attempt at the position where [s] starts. *)
Definition match_here (r : regex) (s : string) : option groups :=
  exec r s (repeat None (ngroups r)) (fun _ g => Some g).

(** The leftmost position from which a match attempt succeeds. *)
Fixpoint search_from (r : regex) (s : string) : option groups :=
  match match_here r s with
  | Some g => Some g
  | None =>
      match s with
      | EmptyString => None
      | String _ s' => search_from r s'
      end
  end.

End Matcher.

(** [re.match(r, s, flags).groups()], [None] when there is no match. *)
Definition re_match (ic : bool) (r : regex) (s : string) : option groups :=
  match_here ic (Py.len s) r s.

(** [re.search(r, s, flags).groups()], [None] when there is no match. *)
Definition re_search (ic : bool) (r : regex) (s : string) : option groups :=
  search_from ic (Py.len s) r s.

(** What a pattern matches, as a relation: [matches ic r w g g'] when [r] can
    match exactly the text [w], turning the groups [g] into [g'].  The
    anchors match the empty text. *)
Inductive matches (ic : bool) : regex -> string -> groups -> groups -> Prop :=
| M_eps g : matches ic Eps EmptyString g g
| M_bol g : matches ic Bol EmptyString g g
| M_eol g : matches ic Eol EmptyString g g
| M_chr c x g :
    cmem ic c x = true -> matches ic (Chr c) (String x EmptyString) g g
| M_seq r1 r2 w1 w2 g g1 g2 :
    matches ic r1 w1 g g1 -> matches ic r2 w2 g1 g2 ->
    matches ic (Seq r1 r2) (w1 ++ w2) g g2
| M_alt_l r1 r2 w g g' : matches ic r1 w g g' -> matches ic (Alt r1 r2) w g g'
| M_alt_r r1 r2 w g g' : matches ic r2 w g g' -> matches ic (Alt r1 r2) w g g'
| M_opt_some r w g g' : matches ic r w g g' -> matches ic (Opt r) w g g'
| M_opt_none r g : matches ic (Opt r) EmptyString g g
| M_plus c w g :
    Py.is_empty w = false -> Py.all (cmem ic c) w = true ->
    matches ic (Plus c) w g g
| M_star c w g : Py.all (cmem ic c) w = true -> matches ic (Star c) w g g
| M_grp i r w g g' :
    matches ic r w g g' -> matches ic (Grp i r) w g (set_nth i (Some w) g').

End Re.


(** ** Python values, dictionaries and exceptions *)

Inductive value : Type :=
| VNone
| VBool (b : bool)
| VInt (z : Z)
| VStr (s : string)
| VList (l : list value)
| VTuple (l : list value)
| VDict (d : list (string * value)).

Definition dict : Type := list (string * value).

(** The exceptions the modelled code can raise. *)
Inductive exn : Type :=
| IndexError (msg : string)
| KeyError (key : string)
| ValueError (msg : string)
| TypeError (msg : string)
| AttributeError (msg : string)
| ZeroDivisionError (msg : string).

(** [str(e)] *)
Definition exn_str (e : exn) : string :=
  match e with
  | IndexError m | ValueError m | TypeError m
  | AttributeError m | ZeroDivisionError m => m
  | KeyError k => "'" ++ k ++ "'"
  end.

(** The outcome of a computation that may raise. *)
Inductive result (A : Type) : Type :=
| Ok (a : A)
| Raise (e : exn).

Arguments Ok {A} a.
Arguments Raise {A} e.

Definition bind {A B : Type} (m : result A) (f : A -> result B) : result B :=
  match m with
  | Ok a => f a
  | Raise e => Raise e
  end.

Notation "x <- m ;; k" := (bind m (fun x => k))
  (at level 61, m at next level, right associativity).

(** [try: body  except Exception as e: handler(e)] *)
Definition try_except {A : Type} (body : result A) (handler : exn -> A) : A :=
  match body with
  | Ok a => a
  | Raise e => handler e
  end.

(** [bool(v)] *)
Definition truthy (v : value) : bool :=
  match v with
  | VNone => false
  | VBool b => b
  | VInt z => negb (Z.eqb z 0)
  | VStr s => negb (Py.is_empty s)
  | VList l | VTuple l => match l with [] => false | _ => true end
  | VDict d => match d with [] => false | _ => true end
  end.

(** [v == s] for a [str] [s]. *)
Definition eq_str (v : value) (s : string) : bool :=
  match v with
  | VStr x => String.eqb x s
  | _ => false
  end.

(** [v in l] for a list [l] of [str]. *)
Definition in_strs (v : value) (l : list string) : bool := existsb (eq_str v) l.

Fixpoint lookup (k : string) (d : dict) : option value :=
  match d with
  | [] => None
  | (k', v) :: d' => if String.eqb k' k then Some v else lookup k d'
  end.

(** [d.get(k)] *)
Definition get (d : dict) (k : string) : value :=
  match lookup k d with
  | Some v => v
  | None => VNone
  end.

(** [d.get(k, default)] *)
Definition get_default (d : dict) (k : string) (default : value) : value :=
  match lookup k d with
  | Some v => v
  | None => default
  end.

(** [d[k] = v]: an existing key keeps its place, a new one goes last. *)
Fixpoint set (d : dict) (k : string) (v : value) : dict :=
  match d with
  | [] => [(k, v)]
  | (k', v') :: d' =>
      if String.eqb k' k then (k', v) :: d' else (k', v') :: set d' k v
  end.

(** [d[k]] *)
Definition item (d : dict) (k : string) : result value :=
  match lookup k d with
  | Some v => Ok v
  | None => Raise (KeyError k)
  end.

(** [t[i]] on a tuple, for [i >= 0]. *)
Definition idx (t : list value) (i : nat) : result value :=
  match nth_error t i with
  | Some v => Ok v
  | None => Raise (IndexError "tuple index out of range")
  end.

(** [l[0]] on a list of [str]. *)
Definition first (l : list string) : result string :=
  match l with
  | x :: _ => Ok x
  | [] => Raise (IndexError "list index out of range")
  end.

(** [match.groups()]: the text of each group, [None] for one that took no part. *)
Definition groups_tuple (g : Re.groups) : list value :=
  map (fun o => match o with Some s => VStr s | None => VNone end) g.

(** [x if x else d] *)
Definition or_else (x d : value) : value := if truthy x then x else d.

(** [append] on the list held by a dictionary entry. *)
Definition append_to (d : dict) (k : string) (s : string) : result dict :=
  l <- item d k ;;
  match l with
  | VList xs => Ok (set d k (VList (xs ++ [VStr s])%list))
  | _ => Raise (AttributeError "object has no attribute 'append'")
  end.

(** [repr(v)] *)
Fixpoint py_repr (v : value) : string :=
  match v with
  | VNone => "None"
  | VBool b => if b then "True" else "False"
  | VInt z => Py.str_of_int z
  | VStr s => Py.repr s
  | VList l => "[" ++ Py.join ", " (map py_repr l) ++ "]"
  | VTuple l =>
      match l with
      | [x] => "(" ++ py_repr x ++ ",)"
      | _ => "(" ++ Py.join ", " (map py_repr l) ++ ")"
      end
  | VDict d =>
      "{" ++ Py.join ", " (map (fun kv => Py.repr (fst kv) ++ ": " ++ py_repr (snd kv)) d)
          ++ "}"
  end.

(** [str(v)], the text an f-string puts for [{v}]. *)
Definition py_str (v : value) : string :=
  match v with
  | VStr s => s
  | _ => py_repr v
  end.

Definition type_name (v : value) : string :=
  match v with
  | VNone => "NoneType"
  | VBool _ => "bool"
  | VInt _ => "int"
  | VStr _ => "str"
  | VList _ => "list"
  | VTuple _ => "tuple"
  | VDict _ => "dict"
  end.

(** [int(v)] *)
Definition py_int (v : value) : result Z :=
  match v with
  | VInt z => Ok z
  | VBool b => Ok (if b then 1 else 0)%Z
  | VStr s =>
      match Py.int_of_str s with
      | Py.IntValue z => Ok z
      | Py.IntInvalid =>
          Raise (ValueError ("invalid literal for int() with base 10: " ++ Py.repr s))
      | Py.IntTooLong digits => Raise (ValueError (Py.int_limit_message digits))
      end
  | _ => Raise (TypeError ("int() argument must be a string, a bytes-like object or a real number, not '" ++ type_name v ++ "'"))
  end.

(** [v.get] needs [v] to be a [dict]. *)
Definition as_dict (v : value) : result dict :=
  match v with
  | VDict d => Ok d
  | _ => Raise (AttributeError ("'" ++ type_name v ++ "' object has no attribute 'get'"))
  end.

Definition strs (l : list string) : value := VList (map VStr l).

(** ** Pattern building blocks shared by the two registries *)

Module Pat.
Import Re.

Definition dquote : ascii := ascii_of_N 34.

(** [\s+] *)
Definition ws : regex := Plus Space.

(** [a[-_]?b] *)
Definition hy (a b : string) : regex :=
  Cat [Str a; Opt (Chr (OneOf "-_")); Str b].

(** [Q([^Q]+)Q] as group [i], where Q is the double quote *)
Definition quoted (i : nat) : regex :=
  Cat [Chr (Lit dquote); Grp i (Plus (NoneOf (String dquote EmptyString))); Chr (Lit dquote)].

(** [(\w+)], [(\d+)], [(\S+)], [(.+)] and [( .* )] as group [i] *)
Definition word (i : nat) : regex := Grp i (Plus Word).
Definition digits (i : nat) : regex := Grp i (Plus Digit).
Definition token (i : nat) : regex := Grp i (Plus NonSpace).
Definition rest (i : nat) : regex := Grp i (Plus Any).
Definition rest0 (i : nat) : regex := Grp i (Star Any).

(** [\w+[-_]\w+] *)
Definition quadrant : regex := Cat [Plus Word; Chr (OneOf "-_"); Plus Word].

(** [for name, pattern in patterns.items(): match = re.match(pattern, text,
    re.IGNORECASE); if match: ...]: the first rule that matches, with its
    groups. *)
Fixpoint first_match (patterns : list (string * regex)) (input_text : string)
  : option (string * groups) :=
  match patterns with
  | [] => None
  | (command_name, pattern) :: patterns' =>
      match re_match true pattern input_text with
      | Some g => Some (command_name, g)
      | None => first_match patterns' input_text
      end
  end.

(** Every rule of the registry that matches, in registry order. *)
Definition all_matches (patterns : list (string * regex)) (input_text : string)
  : list string :=
  map fst (filter (fun rule =>
                     match re_match true (snd rule) input_text with
                     | Some _ => true
                     | None => false
                     end) patterns).

End Pat.

(** ** Fuzzy suggestion, shared by the two servers *)

Module Suggest.

(** An [int] that is a length, as a [float]; the conversion is exact below 2^53. *)
Definition float_of_nat (n : nat) : float := PrimFloat.of_uint63 (Uint63.of_Z (Z.of_nat n)).

(** The candidate as it is compared: [cmd.lower().lstrip('/')]. *)
Definition clean (cmd : string) : string := Py.lstrip "/" (Py.lower cmd).

Definition total (unknown cmd : string) : nat :=
  Nat.max (Py.len unknown) (Py.len (clean cmd)).

(** The quotient [common / max(len(unknown), len(cmd_clean))] as a [float]. *)
Definition similarity (unknown cmd : string) : float :=
  (float_of_nat (Py.common_chars unknown (clean cmd)) / float_of_nat (total unknown cmd))%float.

(** [score = common / max(len(unknown), len(cmd_clean))]; the division of
    two [int] raises when the divisor is 0. *)
Definition score (unknown cmd : string) : result float :=
  if Nat.eqb (total unknown cmd) 0 then Raise (ZeroDivisionError "division by zero")
  else Ok (similarity unknown cmd).

(** The loop over the vocabulary, from the state [(best_match, best_score)]. *)
Fixpoint scan (unknown : string) (cmds : list string)
              (best_match : option string) (best_score : float)
  : result (option string) :=
  match cmds with
  | [] => Ok best_match
  | cmd :: cmds' =>
      s <- score unknown cmd ;;
      if ((best_score <? s) && (0.3 <? s))%float
      then scan unknown cmds' (Some cmd) s
      else scan unknown cmds' best_match best_score
  end.

(** [_suggest_similar_command] and [_suggest_similar_workflow_command], over
    the keys of [command_descriptions]. *)
Definition suggest_similar (vocabulary : list string) (unknown_command : string)
  : result (option string) :=
  let unknown := Py.lstrip "/" (Py.lower unknown_command) in
  scan unknown vocabulary None 0%float.

Definition suggestion_value (o : option string) : value :=
  match o with
  | Some cmd => VStr cmd
  | None => VNone
  end.

End Suggest.

(** ** [WorkflowCommandServer] *)

Module WorkflowCommandServer.
Import Re Pat.

(** The attributes set by the constructor. *)
Record t : Type := {
  command_patterns : list (string * regex);
  command_descriptions : list (string * string);
  valid_values : list (string * list string)
}.

(** [WorkflowCommandServer()] *)
Definition __init__ : t := {|
  command_patterns := [
    (* Node Management Commands *)
    ("node-create",
     Cat [Bol; Str "/"; hy "node" "create"; ws; word 0;
          Opt (Seq ws (Alt (quoted 1) (word 2)));
          Opt (Cat [ws; digits 3; Str ","; digits 4]); Eol]);
    ("node-delete",
     Cat [Bol; Str "/";
          Alt (hy "node" "delete") (Alt (hy "delete" "node") (hy "remove" "node"));
          ws; rest 0; Eol]);
    ("node-rename", Cat [Bol; Str "/"; hy "node" "rename"; ws; quoted 0; ws; quoted 1; Eol]);
    ("node-move",
     Cat [Bol; Str "/"; hy "node" "move"; ws; rest 0; ws; digits 1; Str ","; digits 2; Eol]);
    ("node-type", Cat [Bol; Str "/"; hy "node" "type"; ws; rest 0; ws; word 1; Eol]);
    (* Task Management Commands *)
    ("task-create",
     Cat [Bol; Str "/";
          Alt (hy "task" "create") (Alt (hy "add" "task") (hy "create" "task"));
          ws; quoted 0; Opt (Seq ws (quoted 1)); Opt (Seq ws (word 2)); Eol]);
    ("task-delete", Cat [Bol; Str "/"; hy "task" "delete"; ws; rest 0; Eol]);
    ("task-move", Cat [Bol; Str "/"; hy "task" "move"; ws; rest 0; ws; quoted 1; Eol]);
    ("task-advance", Cat [Bol; Str "/"; hy "task" "advance"; ws; rest 0; ws; quoted 1; Eol]);
    ("task-priority", Cat [Bol; Str "/"; hy "task" "priority"; ws; rest 0; ws; word 1; Eol]);
    (* Flowline Management Commands *)
    ("flowline-create",
     Cat [Bol; Str "/"; Alt (hy "flowline" "create") (Str "connect");
          ws; quoted 0; ws; quoted 1; Opt (Seq ws (word 2)); Eol]);
    ("flowline-delete",
     Cat [Bol; Str "/"; Alt (hy "flowline" "delete") (Str "disconnect");
          ws; quoted 0; ws; quoted 1; Eol]);
    ("flowline-type",
     Cat [Bol; Str "/"; hy "flowline" "type"; ws; quoted 0; ws; quoted 1; ws; word 2; Eol]);
    ("disconnect-all", Cat [Bol; Str "/disconnect"; ws; Str "all"; Eol]);
    (* Tag Management Commands *)
    ("tag-create",
     Cat [Bol; Str "/"; hy "tag" "create"; ws; quoted 0;
          Opt (Seq ws (word 1)); Opt (Seq ws (rest 2)); Eol]);
    ("tag-add", Cat [Bol; Str "/"; hy "tag" "add"; ws; quoted 0; ws; rest 1; Eol]);
    ("tag-remove", Cat [Bol; Str "/"; hy "tag" "remove"; ws; quoted 0; ws; rest 1; Eol]);
    ("tag-list", Cat [Bol; Str "/"; hy "tag" "list"; Opt (Seq ws (rest 0)); Eol]);
    (* Workflow Management Commands *)
    ("workflow-save", Cat [Bol; Str "/"; hy "workflow" "save"; Opt (Seq ws (quoted 0)); Eol]);
    ("workflow-load", Cat [Bol; Str "/"; hy "workflow" "load"; ws; quoted 0; Eol]);
    ("workflow-export", Cat [Bol; Str "/"; hy "workflow" "export"; Opt (Seq ws (word 0)); Eol]);
    ("workflow-clear",
     Cat [Bol; Str "/workflow"; Opt (Chr (OneOf "-_")); Alt (Str "clear") (Str "reset");
          Opt (Seq ws (Grp 0 (Alt (Str "yes") (Str "confirm")))); Eol]);
    ("workflow-status", Cat [Bol; Str "/"; hy "workflow" "status"; Eol]);
    ("workflow-stats", Cat [Bol; Str "/"; hy "workflow" "stats"; Eol]);
    (* Matrix and View Commands *)
    ("matrix-enter", Cat [Bol; Str "/"; hy "matrix" "enter"; Eol]);
    ("matrix-exit", Cat [Bol; Str "/"; hy "matrix" "exit"; Eol]);
    ("matrix-move", Cat [Bol; Str "/"; hy "matrix" "move"; ws; rest 0; ws; Grp 1 quadrant; Eol]);
    ("matrix-show", Cat [Bol; Str "/"; hy "matrix" "show"; Opt (Seq ws (Grp 0 quadrant)); Eol]);
    (* View Operations *)
    ("view-zoom", Cat [Bol; Str "/"; hy "view" "zoom"; ws; rest 0; Eol]);
    ("view-center", Cat [Bol; Str "/"; hy "view" "center"; Opt (Seq ws (quoted 0)); Eol]);
    ("view-focus", Cat [Bol; Str "/"; hy "view" "focus"; ws; rest 0; Eol]);
    (* Selection Commands *)
    ("select", Cat [Bol; Str "/select"; ws; rest 0; Eol]);
    ("select-all", Cat [Bol; Str "/"; hy "select" "all"; Opt (Seq ws (word 0)); Eol]);
    ("select-none", Cat [Bol; Str "/"; hy "select" "none"; Eol]);
    ("select-by", Cat [Bol; Str "/"; hy "select" "by"; ws; rest 0; Eol]);
    (* Navigation Commands *)
    ("goto", Cat [Bol; Str "/goto"; ws; quoted 0; Eol]);
    ("find", Cat [Bol; Str "/find"; ws; quoted 0; Eol]);
    ("next", Cat [Bol; Str "/next"; Opt (Seq ws (word 0)); Eol]);
    ("previous", Cat [Bol; Str "/previous"; Opt (Seq ws (word 0)); Eol]);
    (* Batch Operations *)
    ("batch-create", Cat [Bol; Str "/"; hy "batch" "create"; ws; word 0; ws; rest 1; Eol]);
    ("batch-connect", Cat [Bol; Str "/"; hy "batch" "connect"; ws; quoted 0; ws; quoted 1; Eol]);
    ("batch-tag", Cat [Bol; Str "/"; hy "batch" "tag"; ws; quoted 0; ws; rest 1; Eol])
  ];
  command_descriptions := [
    (* Node Commands *)
    ("/node-create <type> [name] [x,y]", "Create a new node");
    ("/node-delete <identifier>", "Delete a node");
    ("/node-rename <old> <new>", "Rename a node");
    ("/node-move <node> <x,y>", "Move a node to position");
    ("/node-type <node> <type>", "Change node type");
    (* Task Commands *)
    ("/task-create <name> [node] [priority]", "Create a new task");
    ("/task-delete <identifier>", "Delete a task");
    ("/task-move <task> <target-node>", "Move task to node");
    ("/task-advance <task> <target-node>", "Advance task to node");
    ("/task-priority <task> <priority>", "Set task priority");
    (* Flowline Commands *)
    ("/connect <source> <target> [type]", "Create flowline between nodes");
    ("/disconnect <source> <target>", "Remove flowline");
    ("/flowline-type <source> <target> <type>", "Change flowline type");
    ("/disconnect all", "Remove all flowlines");
    (* Tag Commands *)
    ("/tag-create <name> [category] [props]", "Create a new tag");
    ("/tag-add <tag> <element>", "Add tag to element");
    ("/tag-remove <tag> <element>", "Remove tag from element");
    ("/tag-list [filter]", "List tags");
    (* Workflow Commands *)
    ("/workflow-save [filename]", "Save current workflow");
    ("/workflow-load <filename>", "Load workflow file");
    ("/workflow-export [format]", "Export workflow");
    ("/workflow-clear [confirm]", "Clear current workflow");
    ("/workflow-status", "Show workflow status");
    ("/workflow-stats", "Show detailed statistics");
    (* Matrix Commands *)
    ("/matrix-enter", "Enter Eisenhower Matrix mode");
    ("/matrix-exit", "Exit matrix mode");
    ("/matrix-move <task> <quadrant>", "Move task in matrix");
    ("/matrix-show [quadrant]", "Show matrix quadrant");
    (* View Commands *)
    ("/view-zoom <level|in|out|fit>", "Zoom view");
    ("/view-center [node]", "Center view on element");
    ("/view-focus <element>", "Focus on element");
    (* Selection Commands *)
    ("/select <identifier>", "Select element");
    ("/select-all [type]", "Select all elements of type");
    ("/select-none", "Clear selection");
    ("/select-by <criteria>", "Select by criteria");
    (* Navigation Commands *)
    ("/goto <name>", "Navigate to element");
    ("/find <name>", "Find element by name");
    ("/next [type]", "Navigate to next element");
    ("/previous [type]", "Navigate to previous element");
    (* Batch Commands *)
    ("/batch-create <type> <list>", "Create multiple elements");
    ("/batch-connect <sources> <targets>", "Create multiple connections");
    ("/batch-tag <tag> <elements>", "Tag multiple elements")
  ];
  valid_values := [
    ("node_types", ["process"; "decision"; "terminal"; "start"]);
    ("flowline_types", ["sequence"; "conditional"; "error"; "parallel"]);
    ("task_priorities", ["low"; "normal"; "high"; "urgent"]);
    ("matrix_quadrants",
     ["urgent-important"; "urgent-not-important";
      "not-urgent-important"; "not-urgent-not-important"]);
    ("view_zoom", ["in"; "out"; "fit"; "reset"]);
    ("element_types", ["node"; "task"; "flowline"; "tag"]);
    ("export_formats", ["json"; "png"; "svg"; "pdf"])
  ]
|}.

(** [self.valid_values[k]] *)
Fixpoint values_of (vv : list (string * list string)) (k : string) : result (list string) :=
  match vv with
  | [] => Raise (KeyError k)
  | (k', l) :: vv' => if String.eqb k' k then Ok l else values_of vv' k
  end.

(** [list(self.command_descriptions.keys())] *)
Definition vocabulary (self : t) : list string := map fst (command_descriptions self).

(** [result['parameters'] = parameters; result['action'] = action] *)
Definition fill (res : dict) (parameters : dict) (action : string) : dict :=
  set (set res "parameters" (VDict parameters)) "action" (VStr action).

Definition is_cmd (command_name c : string) : bool := String.eqb command_name c.

(** [_parse_workflow_match(command_name, match, original_input)], on
    [groups = match.groups()]. *)
Definition _parse_workflow_match (command_name : string) (groups : list value)
                                 (original_input : string) : result dict :=
  let res : dict :=
    [("is_workflow_command", VBool true);
     ("command_type", VStr command_name);
     ("parameters", VDict []);
     ("raw_params", VTuple groups)] in
  if is_cmd command_name "node-create" then
    (* Handle both quoted and unquoted names *)
    g1 <- idx groups 1 ;;
    name <- (if truthy g1 then Ok g1
             else g2 <- idx groups 2 ;; Ok (or_else g2 VNone)) ;;
    g0 <- idx groups 0 ;;
    g3 <- idx groups 3 ;;
    g4 <- idx groups 4 ;;
    Ok (fill res [("type", or_else g0 (VStr "process"));
                  ("name", name);
                  ("x", or_else g3 VNone);
                  ("y", or_else g4 VNone)] "create_node")
  else if is_cmd command_name "node-delete" then
    g0 <- idx groups 0 ;;
    Ok (fill res [("identifier", g0)] "delete_node")
  else if is_cmd command_name "node-rename" then
    g0 <- idx groups 0 ;; g1 <- idx groups 1 ;;
    Ok (fill res [("old_name", g0); ("new_name", g1)] "rename_node")
  else if is_cmd command_name "node-move" then
    g0 <- idx groups 0 ;; g1 <- idx groups 1 ;; g2 <- idx groups 2 ;;
    Ok (fill res [("identifier", g0); ("x", g1); ("y", g2)] "move_node")
  else if is_cmd command_name "task-create" then
    g0 <- idx groups 0 ;; g1 <- idx groups 1 ;; g2 <- idx groups 2 ;;
    Ok (fill res [("name", g0);
                  ("node", or_else g1 VNone);
                  ("priority", or_else g2 (VStr "normal"))] "create_task")
  else if is_cmd command_name "flowline-create" then
    g0 <- idx groups 0 ;; g1 <- idx groups 1 ;; g2 <- idx groups 2 ;;
    Ok (fill res [("source", g0);
                  ("target", g1);
                  ("type", or_else g2 (VStr "sequence"))] "create_flowline")
  else if is_cmd command_name "workflow-save" then
    g0 <- idx groups 0 ;;
    Ok (fill res [("filename", or_else g0 VNone)] "save_workflow")
  else if is_cmd command_name "workflow-status" then
    Ok (fill res [] "show_workflow_status")
  else if is_cmd command_name "matrix-enter" then
    Ok (fill res [] "enter_matrix_mode")
  else if is_cmd command_name "matrix-exit" then
    Ok (fill res [] "exit_matrix_mode")
  else if is_cmd command_name "matrix-move" then
    g0 <- idx groups 0 ;; g1 <- idx groups 1 ;;
    Ok (fill res [("task", g0); ("quadrant", g1)] "move_task_in_matrix")
  else if is_cmd command_name "task-delete" then
    g0 <- idx groups 0 ;;
    Ok (fill res [("identifier", g0)] "delete_task")
  else if is_cmd command_name "task-move" then
    g0 <- idx groups 0 ;; g1 <- idx groups 1 ;;
    Ok (fill res [("task", g0); ("target_node", g1)] "move_task")
  else if is_cmd command_name "task-advance" then
    g0 <- idx groups 0 ;; g1 <- idx groups 1 ;;
    Ok (fill res [("task", g0); ("target_node", g1)] "advance_task")
  else if is_cmd command_name "task-priority" then
    g0 <- idx groups 0 ;; g1 <- idx groups 1 ;;
    Ok (fill res [("task", g0); ("priority", g1)] "set_task_priority")
  else if is_cmd command_name "flowline-delete" then
    g0 <- idx groups 0 ;; g1 <- idx groups 1 ;;
    Ok (fill res [("source", g0); ("target", g1)] "delete_flowline")
  else if is_cmd command_name "flowline-type" then
    g0 <- idx groups 0 ;; g1 <- idx groups 1 ;; g2 <- idx groups 2 ;;
    Ok (fill res [("source", g0); ("target", g1); ("type", g2)] "change_flowline_type")
  else if is_cmd command_name "disconnect-all" then
    Ok (fill res [] "disconnect_all_flowlines")
  else if is_cmd command_name "tag-create" then
    g0 <- idx groups 0 ;; g1 <- idx groups 1 ;; g2 <- idx groups 2 ;;
    Ok (fill res [("name", g0);
                  ("category", or_else g1 (VStr "general"));
                  ("properties", or_else g2 VNone)] "create_tag")
  else if is_cmd command_name "tag-add" then
    g0 <- idx groups 0 ;; g1 <- idx groups 1 ;;
    Ok (fill res [("tag", g0); ("element", g1)] "add_tag")
  else if is_cmd command_name "tag-remove" then
    g0 <- idx groups 0 ;; g1 <- idx groups 1 ;;
    Ok (fill res [("tag", g0); ("element", g1)] "remove_tag")
  else if is_cmd command_name "tag-list" then
    g0 <- idx groups 0 ;;
    Ok (fill res [("filter", or_else g0 VNone)] "list_tags")
  else if is_cmd command_name "workflow-load" then
    g0 <- idx groups 0 ;;
    Ok (fill res [("filename", g0)] "load_workflow")
  else if is_cmd command_name "workflow-export" then
    g0 <- idx groups 0 ;;
    Ok (fill res [("format", or_else g0 (VStr "json"))] "export_workflow")
  else if is_cmd command_name "workflow-clear" then
    g0 <- idx groups 0 ;;
    Ok (fill res [("confirmed",
                   if truthy g0 then VBool (eq_str g0 "yes" || eq_str g0 "confirm")
                   else VBool false)] "clear_workflow")
  else if is_cmd command_name "workflow-stats" then
    Ok (fill res [] "show_workflow_stats")
  else if is_cmd command_name "view-zoom" then
    g0 <- idx groups 0 ;;
    Ok (fill res [("level", g0)] "zoom_view")
  else if is_cmd command_name "view-center" then
    g0 <- idx groups 0 ;;
    Ok (fill res [("target", or_else g0 VNone)] "center_view")
  else if is_cmd command_name "view-focus" then
    g0 <- idx groups 0 ;;
    Ok (fill res [("element", g0)] "focus_element")
  else if is_cmd command_name "select" then
    g0 <- idx groups 0 ;;
    Ok (fill res [("target", g0)] "select_element")
  else if is_cmd command_name "select-all" then
    g0 <- idx groups 0 ;;
    Ok (fill res [("type", or_else g0 VNone)] "select_all")
  else if is_cmd command_name "select-none" then
    Ok (fill res [] "clear_selection")
  else if is_cmd command_name "select-by" then
    g0 <- idx groups 0 ;;
    Ok (fill res [("criteria", g0)] "select_by_criteria")
  else if is_cmd command_name "goto" then
    g0 <- idx groups 0 ;;
    Ok (fill res [("target", g0)] "navigate_to_element")
  else if is_cmd command_name "find" then
    g0 <- idx groups 0 ;;
    Ok (fill res [("query", g0)] "find_element")
  else if is_cmd command_name "next" then
    g0 <- idx groups 0 ;;
    Ok (fill res [("type", or_else g0 VNone)] "navigate_next")
  else if is_cmd command_name "previous" then
    g0 <- idx groups 0 ;;
    Ok (fill res [("type", or_else g0 VNone)] "navigate_previous")
  else if is_cmd command_name "batch-create" then
    g0 <- idx groups 0 ;; g1 <- idx groups 1 ;;
    Ok (fill res [("type", g0); ("data", g1)] "batch_create_elements")
  else if is_cmd command_name "batch-connect" then
    g0 <- idx groups 0 ;; g1 <- idx groups 1 ;;
    Ok (fill res [("sources", g0); ("targets", g1)] "batch_connect_elements")
  else if is_cmd command_name "batch-tag" then
    g0 <- idx groups 0 ;; g1 <- idx groups 1 ;;
    Ok (fill res [("tag", g0); ("elements", g1)] "batch_tag_elements")
  else
    (* Default case for unhandled commands *)
    Ok (set res "action" (VStr ("handle_" ++ Py.replace "-" "_" command_name))).

(** [_suggest_similar_workflow_command(unknown_command)] *)
Definition _suggest_similar_workflow_command (self : t) (unknown_command : string)
  : result (option string) :=
  Suggest.suggest_similar (vocabulary self) unknown_command.

Definition workflow_keywords : list string :=
  ["node"; "task"; "flow"; "tag"; "workflow"; "matrix"; "select"; "view";
   "create"; "delete"; "move"; "connect"; "save"; "load"].

(** The body of the [try] block of [parse_workflow_command]. *)
Definition parse_workflow_command_body (self : t) (input_text : string) : result dict :=
  let input_text := Py.strip input_text in
  (* Check if input starts with command prefix *)
  if negb (Py.startswith "/" input_text) then
    Ok [("is_workflow_command", VBool false);
        ("type", VStr "text");
        ("should_process_with_llm", VBool true)]
  else
    (* Try to match against workflow command patterns *)
    match first_match (command_patterns self) input_text with
    | Some (command_name, g) =>
        parsed_command <- _parse_workflow_match command_name (groups_tuple g) input_text ;;
        Ok (set parsed_command "original_input" (VStr input_text))
    | None =>
        (* Check if it's a workflow-related command that doesn't match our patterns *)
        if existsb (fun keyword => Py.contains keyword (Py.lower input_text)) workflow_keywords
        then
          command <- first (Py.split input_text) ;;
          suggestion <- _suggest_similar_workflow_command self command ;;
          Ok [("is_workflow_command", VBool true);
              ("type", VStr "unknown_workflow_command");
              ("command", VStr command);
              ("error", VStr ("Unknown workflow command: " ++ command));
              ("suggestion", Suggest.suggestion_value suggestion);
              ("should_process_with_llm", VBool false)]
        else
          (* Not a workflow command *)
          Ok [("is_workflow_command", VBool false);
              ("type", VStr "non_workflow_command");
              ("should_process_with_llm", VBool false)]
    end.

(** The [except] clause of [parse_workflow_command]. *)
Definition parse_error (e : exn) : dict :=
  [("is_workflow_command", VBool false);
   ("type", VStr "error");
   ("error", VStr (exn_str e));
   ("should_process_with_llm", VBool true)].

(** [parse_workflow_command(input_text)] *)
Definition parse_workflow_command (self : t) (input_text : string) : dict :=
  try_except (parse_workflow_command_body self input_text) parse_error.

(** [parameters.get(k)] *)
Definition pget (parameters : value) (k : string) : result value :=
  d <- as_dict parameters ;; Ok (get d k).

Definition is_none (v : value) : bool :=
  match v with VNone => true | _ => false end.

(** [_generate_workflow_suggestions(command_type, parameters)] *)
Definition _generate_workflow_suggestions (command_type parameters : value)
  : result (list string) :=
  if eq_str command_type "node-create" then
    name <- pget parameters "name" ;;
    let s1 := if negb (truthy name)
              then ["Consider adding a descriptive name in quotes"] else [] in
    x <- pget parameters "x" ;;
    missing <- (if negb (truthy x) then Ok true
                else y <- pget parameters "y" ;; Ok (negb (truthy y))) ;;
    Ok (s1 ++ (if missing : bool
               then ["Add x,y coordinates to position the node precisely"]
               else []))%list
  else if eq_str command_type "flowline-create" then
    ty <- pget parameters "type" ;;
    Ok (if eq_str ty "sequence"
        then ["Consider using 'conditional' for decision-based flows"] else [])
  else if eq_str command_type "task-create" then
    node <- pget parameters "node" ;;
    Ok (if negb (truthy node)
        then ["Specify target node to automatically associate the task"] else [])
  else Ok [].

(** One enumerated-value check of the validator:
    [if v and v not in allowed: errors.append(message); valid = False], with
    [require_value] false for the check that has no [v and] guard. *)
Definition check_enum (self : t) (require_value : bool) (v : value)
                      (table what plural : string) (validation_result : dict)
  : result dict :=
  if negb require_value || truthy v then
    allowed <- values_of (valid_values self) table ;;
    if negb (in_strs v allowed) then
      allowed' <- values_of (valid_values self) table ;;
      r <- append_to validation_result "errors"
             ("Invalid " ++ what ++ " '" ++ py_str v ++ "'. Valid " ++ plural ++ ": "
              ++ Py.join ", " allowed') ;;
      Ok (set r "valid" (VBool false))
    else Ok validation_result
  else Ok validation_result.

(** The body of the [try] block of [validate_workflow_command]. *)
Definition validate_workflow_command_body (self : t) (command_data : dict) : result dict :=
  if negb (truthy (get command_data "is_workflow_command")) then
    Ok [("valid", VBool true); ("type", VStr "non_workflow"); ("action", VStr "pass_through")]
  else
    let command_type := get command_data "command_type" in
    let parameters := get_default command_data "parameters" (VDict []) in
    let validation_result : dict :=
      [("valid", VBool true); ("errors", VList []);
       ("warnings", VList []); ("suggestions", VList [])] in
    (* Validate based on command type *)
    validation_result <-
      (if eq_str command_type "node-create" then
         node_type <- pget parameters "type" ;;
         r <- check_enum self true node_type "node_types" "node type" "types"
                validation_result ;;
         (* Validate position if provided *)
         x <- pget parameters "x" ;;
         y <- pget parameters "y" ;;
         if negb (is_none x) && negb (is_none y) then
           ix <- py_int x ;;
           inside <- (if ((0 <=? ix) && (ix <=? 2000))%Z
                      then iy <- py_int y ;; Ok ((0 <=? iy) && (iy <=? 2000))%Z
                      else Ok false) ;;
           if negb inside
           then append_to r "warnings" "Position outside typical canvas bounds"
           else Ok r
         else Ok r
       else if eq_str command_type "flowline-create" then
         d <- as_dict parameters ;;
         let flowline_type := get_default d "type" (VStr "sequence") in
         check_enum self false flowline_type "flowline_types" "flowline type" "types"
           validation_result
       else if eq_str command_type "task-priority" then
         priority <- pget parameters "priority" ;;
         check_enum self true priority "task_priorities" "priority" "priorities"
           validation_result
       else if eq_str command_type "matrix-move" then
         quadrant <- pget parameters "quadrant" ;;
         check_enum self true quadrant "matrix_quadrants" "matrix quadrant" "quadrants"
           validation_result
       else if eq_str command_type "workflow-clear" then
         confirmed <- pget parameters "confirmed" ;;
         if negb (truthy confirmed) then
           r <- append_to validation_result "warnings"
                  "Destructive operation. Add 'yes' or 'confirm' to proceed" ;;
           append_to r "suggestions" "Use: /workflow-clear yes"
         else Ok validation_result
       else Ok validation_result) ;;
    (* Add general suggestions for improvement *)
    valid <- item validation_result "valid" ;;
    if truthy valid then
      suggestions <- _generate_workflow_suggestions command_type parameters ;;
      Ok (set validation_result "suggestions" (strs suggestions))
    else Ok validation_result.

(** The [except] clause of [validate_workflow_command]. *)
Definition validate_error (e : exn) : dict :=
  [("valid", VBool false); ("errors", VList [VStr (exn_str e)])].

(** [validate_workflow_command(command_data)] *)
Definition validate_workflow_command (self : t) (command_data : dict) : dict :=
  try_except (validate_workflow_command_body self command_data) validate_error.

End WorkflowCommandServer.

(** ** [ChatCommandServer] *)

Module ChatCommandServer.
Import Re Pat.

(** The attributes set by the constructor. *)
Record t : Type := {
  command_patterns : list (string * regex);
  command_descriptions : list (string * string)
}.

(** [(?:Q([^Q]+)Q|(.+))], where Q is the double quote *)
Definition query : regex := Alt (quoted 0) (rest 1).

(** [ChatCommandServer()] *)
Definition __init__ : t := {|
  command_patterns := [
    (* Note-taking commands *)
    ("note", Cat [Bol; Str "/note"; Opt (Seq ws (rest 0)); Eol]);
    ("note-create", Cat [Bol; Str "/"; hy "note" "create"; ws; rest 0; Eol]);
    ("note-search", Cat [Bol; Str "/"; hy "note" "search"; ws; rest 0; Eol]);
    ("note-find", Cat [Bol; Str "/"; hy "note" "find"; ws; rest 0; Eol]);
    ("note-tag", Cat [Bol; Str "/"; hy "note" "tag"; ws; token 0; ws; rest 1; Eol]);
    ("note-list", Cat [Bol; Str "/"; hy "note" "list"; Opt (Seq ws (rest0 0)); Eol]);
    ("note-link", Cat [Bol; Str "/"; hy "note" "link"; ws; token 0; ws; token 1; Eol]);
    (* Opportunity commands *)
    ("opp", Cat [Bol; Str "/opp"; Opt (Seq ws (rest 0)); Eol]);
    ("opp-create", Cat [Bol; Str "/"; hy "opp" "create"; ws; rest 0; Eol]);
    ("opp-list", Cat [Bol; Str "/"; hy "opp" "list"; Opt (Seq ws (rest0 0)); Eol]);
    ("opp-link", Cat [Bol; Str "/"; hy "opp" "link"; ws; token 0; ws; token 1; Eol]);
    ("opp-search", Cat [Bol; Str "/"; hy "opp" "search"; ws; rest 0; Eol]);
    (* Task commands *)
    ("task-note", Cat [Bol; Str "/"; hy "task" "note"; ws; token 0; ws; rest 1; Eol]);
    ("task-link", Cat [Bol; Str "/"; hy "task" "link"; ws; token 0; ws; token 1; Eol]);
    (* Analysis commands *)
    ("analyze", Cat [Bol; Str "/analyze"; ws; rest 0; Eol]);
    ("suggest", Cat [Bol; Str "/suggest"; Opt (Seq ws (rest 0)); Eol]);
    ("associate", Cat [Bol; Str "/associate"; ws; token 0; ws; token 1; Eol]);
    (* Database commands *)
    ("sql", Cat [Bol; Str "/sql"; ws; query; Eol]);
    ("db-query", Cat [Bol; Str "/"; hy "db" "query"; ws; query; Eol]);
    (* Help and info commands *)
    ("help", Cat [Bol; Str "/help"; Opt (Seq ws (rest0 0)); Eol]);
    ("commands", Cat [Bol; Str "/commands"; Eol]);
    ("status", Cat [Bol; Str "/status"; Eol])
  ];
  command_descriptions := [
    ("/note", "General note operations");
    ("/note-create &lt;content&gt;", "Create a new note");
    ("/note-search &lt;query&gt;", "Search notes by content");
    ("/note-find &lt;query&gt;", "Find notes (alias for search)");
    ("/note-tag &lt;note_id&gt; &lt;tags&gt;", "Add tags to a note");
    ("/note-list [filters]", "List notes with optional filters");
    ("/note-link &lt;note_id&gt; &lt;target_id&gt;", "Link note to opportunity/task");
    ("/opp", "General opportunity operations");
    ("/opp-create &lt;title&gt;", "Create a new opportunity");
    ("/opp-list [filters]", "List opportunities");
    ("/opp-link &lt;opp_id&gt; &lt;target_id&gt;", "Link opportunity to task/workflow");
    ("/opp-search &lt;query&gt;", "Search opportunities");
    ("/task-note &lt;task_id&gt; &lt;content&gt;", "Create note for specific task");
    ("/task-link &lt;task_id&gt; &lt;note_id&gt;", "Link task to note");
    ("/analyze &lt;text&gt;", "Analyze text for potential associations");
    ("/suggest [context]", "Get suggestions for current context");
    ("/associate &lt;id1&gt; &lt;id2&gt;", "Create association between items");
    ("/sql &lt;query&gt;", "Execute PostgreSQL query directly");
    ("/db-query &lt;query&gt;", "Execute PostgreSQL query (alias for /sql)");
    ("/help [command]", "Show help information");
    ("/commands", "List all available commands");
    ("/status", "Show system status");
    (* Workflow Commands (Node Management) *)
    ("/node-create &lt;type&gt; [name] [x,y]", "Create a new node (process, decision, terminal)");
    ("/node-delete &lt;identifier&gt;", "Delete a node by name or ID");
    ("/node-rename &lt;old&gt; &lt;new&gt;", "Rename a node");
    ("/node-move &lt;node&gt; &lt;x,y&gt;", "Move a node to position");
    ("/node-type &lt;node&gt; &lt;type&gt;", "Change node type");
    (* Workflow Commands (Task Management) *)
    ("/task-create &lt;name&gt; [node] [priority]", "Create a new task");
    ("/task-delete &lt;identifier&gt;", "Delete a task");
    ("/task-move &lt;task&gt; &lt;target-node&gt;", "Move task to node");
    ("/task-advance &lt;task&gt; &lt;target-node&gt;", "Advance task to node");
    ("/task-priority &lt;task&gt; &lt;priority&gt;", "Set task priority (low, normal, high, urgent)");
    (* Workflow Commands (Flowlines) *)
    ("/connect &lt;source&gt; &lt;target&gt; [type]", "Create flowline between nodes");
    ("/disconnect &lt;source&gt; &lt;target&gt;", "Remove flowline");
    ("/flowline-type &lt;source&gt; &lt;target&gt; &lt;type&gt;", "Change flowline type");
    ("/disconnect all", "Remove all flowlines");
    (* Workflow Commands (Tags) *)
    ("/tag-create &lt;name&gt; [category] [props]", "Create a new tag");
    ("/tag-add &lt;tag&gt; &lt;element&gt;", "Add tag to element");
    ("/tag-remove &lt;tag&gt; &lt;element&gt;", "Remove tag from element");
    ("/tag-list [filter]", "List tags");
    (* Workflow Commands (Workflow Management) *)
    ("/workflow-save [filename]", "Save current workflow");
    ("/workflow-load &lt;filename&gt;", "Load workflow file");
    ("/workflow-export [format]", "Export workflow (json, png, svg, pdf)");
    ("/workflow-clear [confirm]", "Clear/reset workflow");
    ("/workflow-status", "Show workflow statistics");
    ("/workflow-stats", "Show detailed workflow stats");
    (* Workflow Commands (Matrix & Views) *)
    ("/matrix-enter", "Enter Eisenhower Matrix mode");
    ("/matrix-exit", "Exit Eisenhower Matrix mode");
    ("/matrix-move &lt;task&gt; &lt;quadrant&gt;", "Move task in matrix");
    ("/matrix-show [quadrant]", "Show matrix quadrant");
    (* Workflow Commands (View & Navigation) *)
    ("/view-zoom &lt;level&gt;", "Zoom view (in, out, fit, reset)");
    ("/view-center [node]", "Center view on node");
    ("/view-focus &lt;element&gt;", "Focus on element");
    ("/select &lt;element&gt;", "Select element");
    ("/select-all [type]", "Select all elements of type");
    ("/select-none", "Clear selection");
    ("/goto &lt;node&gt;", "Navigate to node");
    ("/find &lt;name&gt;", "Find element by name")
  ]
|}.

(** [list(self.command_descriptions.keys())] *)
Definition vocabulary (self : t) : list string := map fst (command_descriptions self).

(** [match.group(1)] of a pattern with one group that takes part in every match. *)
Definition group1 (g : groups) : result string :=
  match g with
  | Some s :: _ => Ok s
  | None :: _ => Raise (AttributeError "'NoneType' object has no attribute 'split'")
  | [] => Raise (IndexError "no such group")
  end.

(** [tag:([^\s]+)], [opp:([^\s]+)], [task:([^\s]+)] and [limit:(\d+)] *)
Definition key_value (key : string) (c : cset) : regex :=
  Seq (Str key) (Grp 0 (Plus c)).

(** [_parse_list_filters(filter_string)] *)
Definition _parse_list_filters (filter_string : string) : result dict :=
  let filters : dict := [] in
  if Py.is_empty filter_string then Ok filters
  else
    (* Parse tag filters: tag:tag1,tag2 *)
    filters <-
      match re_search false (key_value "tag:" NonSpace) filter_string with
      | Some tag_match =>
          v <- group1 tag_match ;; Ok (set filters "tags" (strs (Py.split_on "," v)))
      | None => Ok filters
      end ;;
    (* Parse opportunity filter: opp:opp-123 *)
    filters <-
      match re_search false (key_value "opp:" NonSpace) filter_string with
      | Some opp_match =>
          v <- group1 opp_match ;; Ok (set filters "opportunity_id" (VStr v))
      | None => Ok filters
      end ;;
    (* Parse task filter: task:task-456 *)
    filters <-
      match re_search false (key_value "task:" NonSpace) filter_string with
      | Some task_match =>
          v <- group1 task_match ;; Ok (set filters "task_id" (VStr v))
      | None => Ok filters
      end ;;
    (* Parse limit: limit:10 *)
    match re_search false (key_value "limit:" Digit) filter_string with
    | Some limit_match =>
        v <- group1 limit_match ;;
        n <- py_int (VStr v) ;;
        Ok (set filters "limit" (VInt n))
    | None => Ok filters
    end.

(** A [str] argument of a string method or of [re.search]. *)
Definition as_str (v : value) : result string :=
  match v with
  | VStr s => Ok s
  | _ => Raise (TypeError ("expected string or bytes-like object, got '" ++ type_name v ++ "'"))
  end.

(** [result['parameters'][k] = v] *)
Definition set_param (res : dict) (k : string) (v : value) : result dict :=
  parameters <- item res "parameters" ;;
  match parameters with
  | VDict d => Ok (set res "parameters" (VDict (set d k v)))
  | _ => Raise (TypeError "object does not support item assignment")
  end.

(** [groups[i] if len(groups) > i else default] *)
Definition idx_or (groups : list value) (i : nat) (default : value) : result value :=
  if Nat.ltb i (List.length groups) then idx groups i else Ok default.

(** [_parse_command_match(command_name, match, original_input)], on
    [groups = match.groups()]. *)
Definition _parse_command_match (command_name : string) (groups : list value)
                                (original_input : string) : result dict :=
  let res : dict :=
    [("is_command", VBool true);
     ("command_type", VStr command_name);
     ("parameters", VDict []);
     ("raw_params", VTuple groups)] in
  if existsb (String.eqb command_name) ["note"; "note-create"] then
    g0 <- idx groups 0 ;;
    r <- set_param res "content" (or_else g0 (VStr "")) ;;
    Ok (set r "action" (VStr "create_note"))
  else if existsb (String.eqb command_name) ["note-search"; "note-find"; "opp-search"] then
    g0 <- idx groups 0 ;;
    r <- set_param res "query" (or_else g0 (VStr "")) ;;
    Ok (set r "action"
          (VStr (if Py.contains "note" command_name
                 then "search_notes" else "search_opportunities")))
  else if String.eqb command_name "note-tag" then
    note_id <- idx_or groups 0 (VStr "") ;;
    r <- set_param res "note_id" note_id ;;
    tags <- (if Nat.ltb 1 (List.length groups)
             then g1 <- idx groups 1 ;;
                  match g1 with
                  | VStr s => Ok (strs (Py.split s))
                  | _ => Raise (AttributeError
                                  ("'" ++ type_name g1 ++ "' object has no attribute 'split'"))
                  end
             else Ok (VList [])) ;;
    r <- set_param r "tags" tags ;;
    Ok (set r "action" (VStr "add_tags_to_note"))
  else if String.eqb command_name "note-list" then
    g0 <- idx groups 0 ;;
    filters <- as_str (or_else g0 (VStr "")) ;;
    parsed <- _parse_list_filters filters ;;
    r <- set_param res "filters" (VDict parsed) ;;
    Ok (set r "action" (VStr "list_notes"))
  else if String.eqb command_name "note-link" then
    note_id <- idx_or groups 0 (VStr "") ;;
    r <- set_param res "note_id" note_id ;;
    target_id <- idx_or groups 1 (VStr "") ;;
    r <- set_param r "target_id" target_id ;;
    Ok (set r "action" (VStr "link_note"))
  else if String.eqb command_name "opp-create" then
    (* Parse title and optional description *)
    g0 <- idx groups 0 ;;
    content <- as_str (or_else g0 (VStr "")) ;;
    let parts := Py.split_once " - " content in   (* Split on ' - ' for title - description *)
    title <- first parts ;;
    r <- set_param res "title" (VStr (Py.strip_chars (String dquote "'") title)) ;;
    r <- set_param r "description" (VStr (nth 1 parts "")) ;;
    Ok (set r "action" (VStr "create_opportunity"))
  else if String.eqb command_name "opp-list" then
    g0 <- idx groups 0 ;;
    filters <- as_str (or_else g0 (VStr "")) ;;
    parsed <- _parse_list_filters filters ;;
    r <- set_param res "filters" (VDict parsed) ;;
    Ok (set r "action" (VStr "list_opportunities"))
  else if String.eqb command_name "task-note" then
    task_id <- idx_or groups 0 (VStr "") ;;
    r <- set_param res "task_id" task_id ;;
    content <- idx_or groups 1 (VStr "") ;;
    r <- set_param r "content" content ;;
    Ok (set r "action" (VStr "create_task_note"))
  else if String.eqb command_name "analyze" then
    g0 <- idx groups 0 ;;
    r <- set_param res "text" (or_else g0 (VStr "")) ;;
    Ok (set r "action" (VStr "analyze_text"))
  else if String.eqb command_name "help" then
    g0 <- idx groups 0 ;;
    r <- set_param res "topic" (or_else g0 VNone) ;;
    Ok (set r "action" (VStr "show_help"))
  else if String.eqb command_name "commands" then
    Ok (set res "action" (VStr "list_commands"))
  else if String.eqb command_name "status" then
    Ok (set res "action" (VStr "show_status"))
  else Ok res.

(** [_suggest_similar_command(unknown_command)] *)
Definition _suggest_similar_command (self : t) (unknown_command : string)
  : result (option string) :=
  Suggest.suggest_similar (vocabulary self) unknown_command.

(** The body of the [try] block of [parse_chat_input]. *)
Definition parse_chat_input_body (self : t) (input_text : string) : result dict :=
  let input_text := Py.strip input_text in
  (* Check if input starts with command prefix *)
  if negb (Py.startswith "/" input_text) then
    Ok [("is_command", VBool false);
        ("type", VStr "text");
        ("content", VStr input_text);
        ("should_process_with_llm", VBool true)]
  else
    (* Try to match against known command patterns *)
    match first_match (command_patterns self) input_text with
    | Some (command_name, g) =>
        parsed_command <- _parse_command_match command_name (groups_tuple g) input_text ;;
        Ok (set parsed_command "original_input" (VStr input_text))
    | None =>
        (* Unknown command *)
        command <- first (Py.split input_text) ;;
        suggestion <- _suggest_similar_command self command ;;
        Ok [("is_command", VBool true);
            ("type", VStr "unknown_command");
            ("command", VStr command);
            ("error", VStr ("Unknown command: " ++ command));
            ("suggestion", Suggest.suggestion_value suggestion);
            ("should_process_with_llm", VBool false)]
    end.

(** The [except] clause of [parse_chat_input]. *)
Definition parse_error (e : exn) : dict :=
  [("is_command", VBool false);
   ("type", VStr "error");
   ("error", VStr (exn_str e));
   ("should_process_with_llm", VBool true)].

(** [parse_chat_input(input_text)] *)
Definition parse_chat_input (self : t) (input_text : string) : dict :=
  try_except (parse_chat_input_body self input_text) parse_error.

(** The dictionary returned by [_assess_note_worthiness]. *)
Record note_worthiness : Type := {
  score : float;
  worthy : bool;
  reasons : list string
}.

(** [x in v] for a [str] [x]. *)
Definition str_in (x : string) (v : value) : result bool :=
  match v with
  | VList l | VTuple l => Ok (existsb (fun e => eq_str e x) l)
  | VStr s => Ok (Py.contains x s)
  | VDict d => Ok (existsb (fun kv => String.eqb (fst kv) x) d)
  | _ => Raise (TypeError ("argument of type '" ++ type_name v ++ "' is not iterable"))
  end.

Definition action_words : list string :=
  ["todo"; "need to"; "should"; "must"; "action"; "task"].

Definition decision_words : list string :=
  ["decided"; "agreed"; "concluded"; "result"].

(** [_assess_note_worthiness(text, context)].  The running [score] starts as
    the [int] 0, here the [float] of the same value. *)
Definition _assess_note_worthiness (text : string) (context : dict)
  : result note_worthiness :=
  let score := 0%float in
  let reasons : list string := [] in
  (* Length indicates substance *)
  let '(score, reasons) :=
    if Nat.ltb 50 (Py.len text)
    then ((score + 0.3)%float, (reasons ++ ["substantial_content"])%list)
    else (score, reasons) in
  (* Contains actionable items *)
  let '(score, reasons) :=
    if existsb (fun word => Py.contains word (Py.lower text)) action_words
    then ((score + 0.4)%float, (reasons ++ ["actionable_content"])%list)
    else (score, reasons) in
  (* Contains specific details *)
  let '(score, reasons) :=
    if truthy (get context "entities")
    then ((score + 0.2)%float, (reasons ++ ["contains_entities"])%list)
    else (score, reasons) in
  (* Mentions dates or deadlines *)
  deadline <- str_in "deadline" (get_default context "topics" (VList [])) ;;
  let '(score, reasons) :=
    if deadline : bool
    then ((score + 0.3)%float, (reasons ++ ["time_sensitive"])%list)
    else (score, reasons) in
  (* Contains decisions or outcomes *)
  let '(score, reasons) :=
    if existsb (fun word => Py.contains word (Py.lower text)) decision_words
    then ((score + 0.3)%float, (reasons ++ ["contains_decisions"])%list)
    else (score, reasons) in
  Ok {| score := if (1.0 <? score)%float then 1.0%float else score;   (* min(score, 1.0) *)
        worthy := (0.5 <? score)%float;
        reasons := reasons |}.

End ChatCommandServer.

(** ** Reference definitions used to state the properties *)

(** The filter grammar as the specification words it: a space-separated
    sequence of [key:value] tokens; [tag] comma-splits its value, [opp] and
    [task] take it as an identifier, [limit] reads it as a non-negative
    integer; other keys are ignored and the first occurrence of a key wins. *)
Module FilterSpec.



Definition entry (k : string) (v : option value) : dict :=
  match v with
  | Some x => [(k, x)]
  | None => []
  end.



End FilterSpec.

(** What [re.search] finds for a pattern [key(c+)], computed by a direct
    scan: the longest run of characters of the class after the leftmost
    occurrence of [key] that has one. *)
Module Scan.

Fixpoint run (p : ascii -> bool) (s : string) : string :=
  match s with
  | String c s' => if p c then String c (run p s') else EmptyString
  | EmptyString => EmptyString
  end.

(** What follows the run. *)
Fixpoint after (p : ascii -> bool) (s : string) : string :=
  match s with
  | String c s' => if p c then after p s' else s
  | EmptyString => EmptyString
  end.

Definition value_here (key : string) (p : ascii -> bool) (s : string) : option string :=
  if Py.startswith key s && negb (Py.is_empty (run p (Py.drop (Py.len key) s)))
  then Some (run p (Py.drop (Py.len key) s))
  else None.

Fixpoint leftmost_value (key : string) (p : ascii -> bool) (s : string) : option string :=
  match value_here key p s with
  | Some v => Some v
  | None =>
      match s with
      | EmptyString => None
      | String _ s' => leftmost_value key p s'
      end
  end.

Definition nonspace (c : ascii) : bool := negb (Py.isspace c).

(** The dictionary built from the four scans, in the order of the code. *)
Definition filters (s : string) : dict :=
  (FilterSpec.entry "tags"
     (option_map (fun v => strs (Py.split_on "," v)) (leftmost_value "tag:" nonspace s))
   ++ FilterSpec.entry "opportunity_id" (option_map VStr (leftmost_value "opp:" nonspace s))
   ++ FilterSpec.entry "task_id" (option_map VStr (leftmost_value "task:" nonspace s))
   ++ FilterSpec.entry "limit"
        (option_map (fun v => VInt (Py.int_digits 0 v))
                    (leftmost_value "limit:" Py.isdecimal s)))%list.

(** The number of digits after the leftmost [limit:] when they are more
    than [int] converts. *)
Definition limit_overflow (s : string) : option N :=
  match leftmost_value "limit:" Py.isdecimal s with
  | Some v =>
      if (Py.max_str_digits <? N.of_nat (Py.len v))%N then Some (N.of_nat (Py.len v))
      else None
  | None => None
  end.

End Scan.

(** The rules a parse result reports: the one named by [command_type]. *)
Definition reported_rules (d : dict) : list string :=
  match get d "command_type" with
  | VStr name => [name]
  | _ => []
  end.

(** A registry with an overly permissive rule [^/(.+)$] added last. *)
Module Permissive.
Import Re Pat.

Definition catch_all : string * regex := ("catch-all", Cat [Bol; Str "/"; rest 0; Eol]).

Definition workflow : WorkflowCommandServer.t := {|
  WorkflowCommandServer.command_patterns :=
    (WorkflowCommandServer.command_patterns WorkflowCommandServer.__init__ ++ [catch_all])%list;
  WorkflowCommandServer.command_descriptions :=
    WorkflowCommandServer.command_descriptions WorkflowCommandServer.__init__;
  WorkflowCommandServer.valid_values :=
    WorkflowCommandServer.valid_values WorkflowCommandServer.__init__
|}.

Definition chat : ChatCommandServer.t := {|
  ChatCommandServer.command_patterns :=
    (ChatCommandServer.command_patterns ChatCommandServer.__init__ ++ [catch_all])%list;
  ChatCommandServer.command_descriptions :=
    ChatCommandServer.command_descriptions ChatCommandServer.__init__
|}.

End Permissive.

(** Servers whose vocabulary also holds the bare command prefix. *)
Module BareVocabulary.

Definition chat : ChatCommandServer.t := {|
  ChatCommandServer.command_patterns :=
    ChatCommandServer.command_patterns ChatCommandServer.__init__;
  ChatCommandServer.command_descriptions :=
    ("/", "Root") :: ChatCommandServer.command_descriptions ChatCommandServer.__init__
|}.

Definition workflow : WorkflowCommandServer.t := {|
  WorkflowCommandServer.command_patterns :=
    WorkflowCommandServer.command_patterns WorkflowCommandServer.__init__;
  WorkflowCommandServer.command_descriptions :=
    ("/", "Root")
      :: WorkflowCommandServer.command_descriptions WorkflowCommandServer.__init__;
  WorkflowCommandServer.valid_values :=
    WorkflowCommandServer.valid_values WorkflowCommandServer.__init__
|}.

End BareVocabulary.

(** [n] copies of the character [c]. *)
Fixpoint copies (n : nat) (c : ascii) : string :=
  match n with
  | O => EmptyString
  | S n' => String c (copies n' c)
  end.

(** [s] between double quotes. *)
Definition dq (s : string) : string := String Pat.dquote (s ++ String Pat.dquote EmptyString).

(** The rule [matrix-move] of the workflow registry. *)
Definition matrix_move_pattern : Re.regex :=
  Re.Cat [Re.Bol; Re.Str "/"; Pat.hy "matrix" "move"; Pat.ws; Pat.rest 0; Pat.ws;
          Re.Grp 1 Pat.quadrant; Re.Eol].

(** The [validation_result] the validator starts from. *)
Definition fresh_result : dict :=
  [("valid", VBool true); ("errors", VList []);
   ("warnings", VList []); ("suggestions", VList [])].

(** The selection made by the suggestion loop. *)
Module SuggestSpec.
Import Suggest.
Local Open Scope float_scope.

(** [r] is the first candidate of the highest score among those strictly
    above 0.3, [None] when no candidate is above 0.3. *)
Definition selected (unknown : string) (vocabulary : list string) (r : option string)
  : Prop :=
  match r with
  | None => forall c, In c vocabulary -> (0.3 <? similarity unknown c) = false
  | Some c =>
      (0.3 <? similarity unknown c) = true
      /\ exists earlier later,
           vocabulary = (earlier ++ c :: later)%list
           /\ (forall c', In c' earlier ->
                 (similarity unknown c <=? similarity unknown c') = false)
           /\ (forall c', In c' later ->
                 (similarity unknown c <? similarity unknown c') = false)
  end.

(** The state of the loop after the candidates [seen]. *)
Definition loop_state (unknown : string) (seen : list string)
                      (best_match : option string) (best_score : float) : Prop :=
  selected unknown seen best_match
  /\ best_score = match best_match with
                  | Some c => similarity unknown c
                  | None => 0
                  end.

End SuggestSpec.

(** The note-worthiness score in exact arithmetic. *)
Module NoteSpec.
Import ChatCommandServer.

Definition long (text : string) : bool := Nat.ltb 50 (Py.len text).

(** The keywords that indicate an action, and those that indicate a
    decision. *)
Definition action_keywords : list string :=
  ["todo"; "need to"; "should"; "must"; "action"; "task"].

Definition decision_keywords : list string :=
  ["decided"; "agreed"; "concluded"; "result"].

Definition actionable (text : string) : bool :=
  existsb (fun word => Py.contains word (Py.lower text)) action_keywords.

Definition has_entities (context : dict) : bool := truthy (get context "entities").

Definition has_deadline (topics : list value) : bool :=
  existsb (fun e => eq_str e "deadline") topics.

Definition decisive (text : string) : bool :=
  existsb (fun word => Py.contains word (Py.lower text)) decision_keywords.

(** The sum of the increments, in tenths. *)
Definition tenths (text : string) (context : dict) (topics : list value) : nat :=
  (if long text then 3 else 0) + (if actionable text then 4 else 0)
  + (if has_entities context then 2 else 0) + (if has_deadline topics then 3 else 0)
  + (if decisive text then 3 else 0).

(** The reasons of the increments, in the order of the five checks. *)
Definition labels (text : string) (context : dict) (topics : list value) : list string :=
  ((if long text then ["substantial_content"] else [])
   ++ (if actionable text then ["actionable_content"] else [])
   ++ (if has_entities context then ["contains_entities"] else [])
   ++ (if has_deadline topics then ["time_sensitive"] else [])
   ++ (if decisive text then ["contains_decisions"] else []))%list.

(** [x] is [n] tenths up to the rounding of the additions. *)
Definition is_tenths (x : float) (n : nat) : bool :=
  (abs (x - Suggest.float_of_nat n / 10) <? 1e-15)%float.

End NoteSpec.

(** The fourteen keywords by which an unmatched input counts as a workflow
    command. *)
Definition fixed_keywords : list string :=
  ["node"; "task"; "flow"; "tag"; "workflow"; "matrix"; "select"; "view";
   "create"; "delete"; "move"; "connect"; "save"; "load"].

(** * The other tools of the two servers *)

(** ** Operations on values used by the other tools *)

(** [len(v)] *)
Definition py_len (v : value) : result nat :=
  match v with
  | VStr s => Ok (Py.len s)
  | VList l | VTuple l => Ok (List.length l)
  | VDict d => Ok (List.length d)
  | _ => Raise (TypeError ("object of type '" ++ type_name v ++ "' has no len()"))
  end.

(** [v.strip()] *)
Definition str_strip (v : value) : result string :=
  match v with
  | VStr s => Ok (Py.strip s)
  | _ => Raise (AttributeError ("'" ++ type_name v ++ "' object has no attribute 'strip'"))
  end.

(** [v.split()] *)
Definition str_split (v : value) : result (list string) :=
  match v with
  | VStr s => Ok (Py.split s)
  | _ => Raise (AttributeError ("'" ++ type_name v ++ "' object has no attribute 'split'"))
  end.

(** [for key, example_list in examples.items(): if key in command.lower():
    return example_list], then [return []]. *)
Fixpoint first_examples (examples : list (string * list string)) (command : string)
  : list string :=
  match examples with
  | [] => []
  | (key, example_list) :: examples' =>
      if Py.contains key (Py.lower command) then example_list
      else first_examples examples' command
  end.

(** The entries of [command_descriptions] as a dictionary value. *)
Definition descriptions_value (descriptions : list (string * string)) : value :=
  VDict (map (fun cd => (fst cd, VStr (snd cd))) descriptions).

(** The dictionary [categories] as a value. *)
Definition categories_value (categories : list (string * list string)) : value :=
  VDict (map (fun c => (fst c, strs (snd c))) categories).

(** [{'command': cmd, 'description': desc}] *)
Definition help_match (cd : string * string) : value :=
  VDict [("command", VStr (fst cd)); ("description", VStr (snd cd))].

(** ** The other tools of [WorkflowCommandServer] *)

Module WorkflowTools.
Import WorkflowCommandServer.

(** The table [examples] of [_get_workflow_command_examples]. *)
Definition examples : list (string * list string) := [
  ("node",
   ["/node-create process " ++ dq "User Registration";
    "/node-create decision " ++ dq "Age Check" ++ " 300,200";
    "/node-delete " ++ dq "User Registration";
    "/node-rename " ++ dq "Old Name" ++ " " ++ dq "New Name"]);
  ("task",
   ["/task-create " ++ dq "Validate email" ++ " " ++ dq "User Registration";
    "/task-move " ++ dq "Validate email" ++ " " ++ dq "Email Processing";
    "/task-priority " ++ dq "Urgent Task" ++ " high"]);
  ("flowline",
   ["/connect " ++ dq "Registration" ++ " " ++ dq "Validation" ++ " sequence";
    "/connect " ++ dq "Age Check" ++ " " ++ dq "Adult Process" ++ " conditional";
    "/disconnect " ++ dq "Old Connection" ++ " " ++ dq "Target"]);
  ("workflow",
   ["/workflow-save " ++ dq "user-registration-v1";
    "/workflow-status";
    "/workflow-clear yes"]);
  ("matrix",
   ["/matrix-enter";
    "/matrix-move " ++ dq "Important Task" ++ " urgent-important";
    "/matrix-show urgent-not-important"])
].

(** [_get_workflow_command_examples(command)] *)
Definition _get_workflow_command_examples (command : string) : list string :=
  (* Find examples for command or similar commands *)
  first_examples examples command.

(** [[cmd for cmd in self.command_descriptions.keys() if any(x in cmd for x in xs)]] *)
Definition commands_with (self : t) (xs : list string) : list string :=
  filter (fun cmd => existsb (fun x => Py.contains x cmd) xs) (vocabulary self).

(** The dictionary [categories] of the general help. *)
Definition categories (self : t) : list (string * list string) := [
  ("Node Commands", commands_with self ["node"]);
  ("Task Commands", commands_with self ["task"]);
  ("Flowline Commands", commands_with self ["flowline"; "connect"; "disconnect"]);
  ("Tag Commands", commands_with self ["tag"]);
  ("Workflow Commands", commands_with self ["workflow"]);
  ("Matrix Commands", commands_with self ["matrix"]);
  ("View Commands", commands_with self ["view"]);
  ("Selection Commands", commands_with self ["select"]);
  ("Navigation Commands", commands_with self ["goto"; "find"; "next"; "previous"]);
  ("Batch Commands", commands_with self ["batch"])
].

(** The matches of the help for a specific command:
    [for cmd, desc in self.command_descriptions.items():
       if command.lower() in cmd.lower(): matches.append(...)]. *)
Definition help_matches (self : t) (command : string) : list (string * string) :=
  filter (fun cd => Py.contains (Py.lower command) (Py.lower (fst cd)))
         (command_descriptions self).

(** The body of the [try] block of [generate_workflow_help]; [command] is
    [None] when the argument is left out. *)
Definition generate_workflow_help_body (self : t) (command : option string)
  : result dict :=
  match command with
  | Some (String c command') =>
      (* Help for specific workflow command *)
      let command := Py.lstrip "/" (String c command') in
      (* Find matching commands *)
      let matches := help_matches self command in
      match matches with
      | _ :: _ =>
          Ok [("type", VStr "specific_workflow_help");
              ("query", VStr command);
              ("matches", VList (map help_match matches));
              ("examples", strs (_get_workflow_command_examples command))]
      | [] =>
          suggestion <- _suggest_similar_workflow_command self ("/" ++ command) ;;
          Ok [("type", VStr "workflow_command_not_found");
              ("query", VStr command);
              ("suggestion", Suggest.suggestion_value suggestion);
              ("all_commands", strs (vocabulary self))]
      end
  | _ =>
      (* General workflow help *)
      Ok [("type", VStr "general_workflow_help");
          ("categories", categories_value (categories self));
          ("descriptions", descriptions_value (command_descriptions self));
          ("getting_started",
           strs ["/node-create process " ++ dq "My Process";
                 "/task-create " ++ dq "My Task" ++ " " ++ dq "My Process";
                 "/workflow-save " ++ dq "my-workflow";
                 "/workflow-status"])]
  end.

(** The [except] clause of [generate_workflow_help]. *)
Definition help_error (e : exn) : dict :=
  [("type", VStr "error"); ("error", VStr (exn_str e))].

(** [generate_workflow_help(command)] *)
Definition generate_workflow_help (self : t) (command : option string) : dict :=
  try_except (generate_workflow_help_body self command) help_error.

(** [execute_workflow_command(command_data)].  On a dictionary no statement
    of its [try] block raises: the validator returns a dictionary whatever
    happens in it, and the other statements are [get] calls. *)
Definition execute_workflow_command (self : t) (command_data : dict) : dict :=
  if negb (truthy (get command_data "is_workflow_command")) then
    [("status", VStr "error"); ("error", VStr "Not a workflow command")]
  else
    (* Validate the command first *)
    let validation_result := validate_workflow_command self command_data in
    if negb (truthy (get_default validation_result "valid" (VBool false))) then
      [("status", VStr "error");
       ("error", VStr "Command validation failed");
       ("errors", get_default validation_result "errors" (VList []));
       ("suggestions", get_default validation_result "suggestions" (VList []))]
    else
      (* Prepare command data for WorkflowBridge execution *)
      let action := get command_data "action" in
      let parameters := get_default command_data "parameters" (VDict []) in
      (* Structure the command data for the browser WorkflowBridge *)
      let workflow_command : dict :=
        [("action", action);
         ("parameters", parameters);
         ("command_type", get command_data "command_type");
         ("original_input", get_default command_data "original_input" (VStr ""))] in
      [("status", VStr "ready_for_execution");
       ("command_data", VDict workflow_command);
       ("validation", VDict validation_result);
       ("message",
        VStr ("Executing "
              ++ py_str (get_default command_data "command_type" (VStr "workflow command"))
              ++ "..."))].

End WorkflowTools.

(** ** The other tools of [ChatCommandServer] *)

Module ChatTools.
Import ChatCommandServer.

(** [any(char in content for char in chars)] *)
Fixpoint any_in (chars : list string) (content : value) : result bool :=
  match chars with
  | [] => Ok false
  | char :: chars' =>
      found <- str_in char content ;;
      if found : bool then Ok true else any_in chars' content
  end.

(** [_generate_command_suggestions(command_type, parameters)] *)
Definition _generate_command_suggestions (command_type parameters : value)
  : result (list string) :=
  if in_strs command_type ["note-create"; "note"] then
    d <- as_dict parameters ;;
    let content := get_default d "content" (VStr "") in
    brief <- (if truthy content
              then n <- py_len content ;; Ok (Nat.ltb n 20)
              else Ok false) ;;
    let s1 := if brief : bool
              then ["Consider adding more detail to your note"] else [] in
    punctuated <- any_in ["."; "!"; "?"] content ;;
    Ok (s1 ++ (if negb punctuated
               then ["Consider ending with proper punctuation"] else []))%list
  else if eq_str command_type "opp-create" then
    d <- as_dict parameters ;;
    let title := get_default d "title" (VStr "") in
    let s1 := if negb (truthy (get d "description"))
              then ["Consider adding a description with ' - description'"] else [] in
    one_word <- (if truthy title
                 then words <- str_split title ;; Ok (Nat.ltb (List.length words) 2)
                 else Ok false) ;;
    Ok (s1 ++ (if one_word : bool
               then ["Consider using a more descriptive title"] else []))%list
  else Ok [].

(** [not v or len(v.strip()) < n] *)
Definition too_short (v : value) (n : nat) : result bool :=
  if negb (truthy v) then Ok true
  else s <- str_strip v ;; Ok (Nat.ltb (Py.len s) n).

(** [validation_result['errors'].append(message); validation_result['valid'] = False] *)
Definition reject (validation_result : dict) (message : string) : result dict :=
  r <- append_to validation_result "errors" message ;;
  Ok (set r "valid" (VBool false)).

(** [a or b] on two lookups in [parameters]. *)
Definition get_or (parameters : value) (k1 k2 : string) : result value :=
  a <- WorkflowCommandServer.pget parameters k1 ;;
  if truthy a then Ok a else WorkflowCommandServer.pget parameters k2.

(** The body of the [try] block of [validate_command]. *)
Definition validate_command_body (command_data : dict) : result dict :=
  if negb (truthy (get command_data "is_command")) then
    Ok [("valid", VBool true); ("type", VStr "text"); ("action", VStr "process_with_llm")]
  else
    let command_type := get command_data "command_type" in
    let parameters := get_default command_data "parameters" (VDict []) in
    let validation_result : dict :=
      [("valid", VBool true); ("errors", VList []);
       ("warnings", VList []); ("suggestions", VList [])] in
    (* Validate based on command type *)
    validation_result <-
      (if in_strs command_type ["note-create"; "note"] then
         content <- WorkflowCommandServer.pget parameters "content" ;;
         short <- too_short content 3 ;;
         r <- (if short : bool
               then reject validation_result
                      "Note content too short (minimum 3 characters)"
               else Ok validation_result) ;;
         n <- py_len content ;;
         if (10000 <? N.of_nat n)%N
         then append_to r "warnings" "Note content is very long (>10k chars)"
         else Ok r
       else if in_strs command_type ["note-search"; "note-find"; "opp-search"] then
         query <- WorkflowCommandServer.pget parameters "query" ;;
         short <- too_short query 2 ;;
         if short : bool
         then reject validation_result "Search query too short (minimum 2 characters)"
         else Ok validation_result
       else if eq_str command_type "opp-create" then
         title <- WorkflowCommandServer.pget parameters "title" ;;
         short <- too_short title 3 ;;
         if short : bool
         then reject validation_result
                "Opportunity title too short (minimum 3 characters)"
         else Ok validation_result
       else if in_strs command_type ["note-link"; "opp-link"; "task-link"; "associate"] then
         id1 <- get_or parameters "id1" "source_id" ;;
         id2 <- get_or parameters "id2" "target_id" ;;
         if negb (truthy id1) || negb (truthy id2)
         then reject validation_result "Both IDs required for linking"
         else Ok validation_result
       else Ok validation_result) ;;
    (* Add suggestions for improvement *)
    valid <- item validation_result "valid" ;;
    if truthy valid then
      suggestions <- _generate_command_suggestions command_type parameters ;;
      Ok (set validation_result "suggestions" (strs suggestions))
    else Ok validation_result.

(** The [except] clause of [validate_command]. *)
Definition validate_error (e : exn) : dict :=
  [("valid", VBool false); ("errors", VList [VStr (exn_str e)])].

(** [validate_command(command_data)] *)
Definition validate_command (command_data : dict) : dict :=
  try_except (validate_command_body command_data) validate_error.

(** The table [examples] of [_get_command_examples]. *)
Definition examples : list (string * list string) := [
  ("note",
   ["/note " ++ dq "Meeting with client about website redesign";
    "/note-create " ++ dq "Remember to follow up on the proposal"]);
  ("note-search",
   ["/note-search " ++ dq "website redesign";
    "/note-find " ++ dq "client meeting"]);
  ("opp",
   ["/opp-create " ++ dq "Website Redesign Project - Complete overhaul of company site";
    "/opp-list tag:web,design"]);
  ("help",
   ["/help note";
    "/help opp-create";
    "/commands"]);
  ("sql",
   ["/sql " ++ dq "SELECT * FROM workflows LIMIT 5";
    "/sql " ++ dq ("SELECT COUNT(" ++ "*" ++ ") FROM tasks WHERE status = 'completed'");
    "/sql " ++ dq "SELECT table_name FROM information_schema.tables WHERE table_schema = 'public'"]);
  ("db",
   ["/db-query " ++ dq "SELECT * FROM opportunities ORDER BY created_at DESC LIMIT 10";
    "/db-query " ++ dq "SELECT column_name, data_type FROM information_schema.columns WHERE table_name = 'workflows'";
    "/db-query "
    ++ dq ("SELECT status, COUNT(" ++ "*" ++ ") as count FROM tasks GROUP BY status")])
].

(** [_get_command_examples(command)] *)
Definition _get_command_examples (command : string) : list string :=
  (* Find examples for command or similar commands *)
  first_examples examples command.

(** [[cmd for cmd in self.command_descriptions.keys() if cmd.startswith(prefixes)]] *)
Definition commands_from (self : t) (prefixes : list string) : list string :=
  filter (fun cmd => existsb (fun p => Py.startswith p cmd) prefixes) (vocabulary self).

(** The headings of the general help, each with the prefixes of its commands. *)
Definition headings : list (string * list string) := [
  ("Note Commands", ["/note"]);
  ("Opportunity Commands", ["/opp"]);
  ("Node Commands", ["/node"]);
  ("Task Commands", ["/task"]);
  ("Flowline Commands", ["/connect"; "/disconnect"; "/flowline"]);
  ("Tag Commands", ["/tag"]);
  ("Workflow Commands", ["/workflow"]);
  ("Matrix Commands", ["/matrix"]);
  ("View & Navigation", ["/view"; "/select"; "/goto"; "/find"]);
  ("Analysis Commands", ["/analyze"; "/suggest"; "/associate"]);
  ("Database Commands", ["/sql"; "/db"]);
  ("General Commands", ["/help"; "/commands"; "/status"])
].

(** The dictionary [categories] of the general help. *)
Definition categories (self : t) : list (string * list string) :=
  map (fun h => (fst h, commands_from self (snd h))) headings.

(** The matches of the help for a specific command. *)
Definition help_matches (self : t) (command : string) : list (string * string) :=
  filter (fun cd => Py.contains (Py.lower command) (Py.lower (fst cd)))
         (command_descriptions self).

(** The body of the [try] block of [generate_command_help]; [command] is
    [None] when the argument is left out. *)
Definition generate_command_help_body (self : t) (command : option string)
  : result dict :=
  match command with
  | Some (String c command') =>
      (* Help for specific command *)
      let command := Py.lstrip "/" (String c command') in
      (* Find matching commands *)
      let matches := help_matches self command in
      match matches with
      | _ :: _ =>
          Ok [("type", VStr "specific_help");
              ("query", VStr command);
              ("matches", VList (map help_match matches));
              ("examples", strs (_get_command_examples command))]
      | [] =>
          suggestion <- _suggest_similar_command self ("/" ++ command) ;;
          Ok [("type", VStr "command_not_found");
              ("query", VStr command);
              ("suggestion", Suggest.suggestion_value suggestion);
              ("all_commands", strs (vocabulary self))]
      end
  | _ =>
      (* General help *)
      Ok [("type", VStr "general_help");
          ("categories", categories_value (categories self));
          ("descriptions", descriptions_value (command_descriptions self));
          ("getting_started",
           strs ["/node-create process " ++ dq "Start Process";
                 "/task-create " ++ dq "My Task" ++ " " ++ dq "Start Process";
                 "/note-create " ++ dq "Meeting notes";
                 "/sql " ++ dq "SELECT * FROM workflows LIMIT 5";
                 "/workflow-status";
                 "/help sql"])]
  end.

(** The [except] clause of [generate_command_help]. *)
Definition help_error (e : exn) : dict :=
  [("type", VStr "error"); ("error", VStr (exn_str e))].

(** [generate_command_help(command)] *)
Definition generate_command_help (self : t) (command : option string) : dict :=
  try_except (generate_command_help_body self command) help_error.

(** One entry of [suggestions] in [suggest_command_completion]. *)
Record suggestion : Type := {
  command : string;
  description : string;
  completion : string
}.

(** What [suggest_command_completion] returns. *)
Inductive completions : Type :=
| NotCommand   (* {'suggestions': [], 'type': 'not_command'} *)
| Completions (suggestions : list suggestion) (partial_input : string)
              (has_suggestions : bool).

(** The key of the sort,
    [(not x['command'].lower().startswith(partial_command), x['command'])]. *)
Definition sort_key (partial_command : string) (x : suggestion) : bool * string :=
  (negb (Py.startswith partial_command (Py.lower (command x))), command x).

(** [a < b] on two keys: [False] before [True], then the order of [str]. *)
Definition key_lt (a b : bool * string) : bool :=
  match fst a, fst b with
  | false, true => true
  | true, false => false
  | _, _ => String.ltb (snd a) (snd b)
  end.

(** [list.sort(key=key)]: the sort is stable, an entry stays before the
    later entries whose key is not smaller. *)
Fixpoint insert_by {A : Type} (key : A -> bool * string) (x : A) (l : list A) : list A :=
  match l with
  | [] => [x]
  | y :: l' => if key_lt (key y) (key x) then y :: insert_by key x l' else x :: l
  end.

Definition sort_by {A : Type} (key : A -> bool * string) (l : list A) : list A :=
  fold_right (insert_by key) [] l.

(** The entry appended for a command [cmd] that starts with the input. *)
Definition complete (partial_input : string) (cd : string * string) : suggestion :=
  let cmd := fst cd in
  {| command := cmd;
     description := snd cd;
     completion := if Nat.ltb (Py.len partial_input) (Py.len cmd)
                   then Py.drop (Py.len partial_input) cmd else "" |}.

(** [suggest_command_completion(partial_input)].  No statement of its [try]
    block raises on a [str]. *)
Definition suggest_command_completion (self : t) (partial_input : string) : completions :=
  if negb (Py.startswith "/" partial_input) then NotCommand
  else
    let partial_command := Py.lower partial_input in
    (* Find matching commands *)
    let suggestions :=
      map (complete partial_input)
          (filter (fun cd => Py.startswith partial_command (Py.lower (fst cd)))
                  (command_descriptions self)) in
    (* Sort by relevance (exact matches first, then alphabetical) *)
    let sorted := sort_by (sort_key partial_command) suggestions in
    Completions (firstn 10 sorted)   (* Limit to top 10 *)
                partial_input
                (Nat.ltb 0 (List.length sorted)).

(** The table [intent_keywords] of [_classify_intent]. *)
Definition intent_keywords : list (string * list string) := [
  ("create", ["create"; "add"; "new"; "make"]);
  ("search", ["find"; "search"; "look for"; "locate"]);
  ("update", ["update"; "modify"; "change"; "edit"]);
  ("delete", ["delete"; "remove"; "drop"]);
  ("list", ["list"; "show all"; "display"]);
  ("link", ["link"; "connect"; "associate"; "relate"]);
  ("question", ["what"; "how"; "why"; "when"; "where"; "?"])
].

(** [for intent, keywords in table: if any(keyword in text_lower ...): return intent] *)
Fixpoint first_intent (table : list (string * list string)) (text_lower : string)
  : string :=
  match table with
  | [] => "unknown"
  | (intent, keywords) :: table' =>
      if existsb (fun keyword => Py.contains keyword text_lower) keywords then intent
      else first_intent table' text_lower
  end.

(** [_classify_intent(text)] *)
Definition _classify_intent (text : string) : string :=
  let text_lower := Py.lower text in
  first_intent intent_keywords text_lower.

Definition positive_words : list string :=
  ["good"; "great"; "excellent"; "success"; "complete"; "finished"].

Definition negative_words : list string :=
  ["problem"; "issue"; "error"; "failed"; "urgent"; "blocked"].

(** [sum(1 for word in words if word in text_lower)] *)
Definition count_in (words : list string) (text_lower : string) : nat :=
  List.length (filter (fun word => Py.contains word text_lower) words).

(** [_analyze_sentiment(text)] *)
Definition _analyze_sentiment (text : string) : string :=
  let text_lower := Py.lower text in
  let positive_count := count_in positive_words text_lower in
  let negative_count := count_in negative_words text_lower in
  if Nat.ltb negative_count positive_count then "positive"
  else if Nat.ltb positive_count negative_count then "negative"
  else "neutral".

(** [_suggest_commands_for_input(text, context)]; an entry is the pair of
    its [command] and its [reason]. *)
Definition _suggest_commands_for_input (text : string) (context : dict)
  : result (list (string * string)) :=
  let suggestions : list (string * string) := [] in
  let intent := get context "intent" in
  let topics := get_default context "topics" (VList []) in
  let note_worthy := get_default context "note_worthy" (VDict []) in
  (* Suggest note creation for substantial content *)
  worthy <- WorkflowCommandServer.pget note_worthy "worthy" ;;
  let suggestions :=
    if truthy worthy
    then (suggestions ++ [("/note-create", "Content appears worth saving as a note")])%list
    else suggestions in
  (* Suggest opportunity creation for project-related content *)
  in_topics <- str_in "project" topics ;;
  let suggestions :=
    if (in_topics : bool)
       || existsb (fun word => Py.contains word (Py.lower text)) ["project"; "initiative"]
    then (suggestions ++ [("/opp-create", "Content mentions projects or initiatives")])%list
    else suggestions in
  (* Suggest search if asking questions *)
  let suggestions :=
    if eq_str intent "question" || Py.contains "?" text
    then (suggestions ++ [("/note-search", "Appears to be asking a question")])%list
    else suggestions in
  (* Suggest analysis for complex content *)
  let suggestions :=
    if Nat.ltb 100 (Py.len text) && truthy (get context "entities")
    then (suggestions ++ [("/analyze", "Complex content could benefit from analysis")])%list
    else suggestions in
  Ok (firstn 3 suggestions).   (* Limit to top 3 suggestions *)

End ChatTools.

(** ** [re.findall] *)

Module Find.
Import Re.

Definition head (s : string) : option ascii :=
  match s with
  | String c _ => Some c
  | EmptyString => None
  end.

(** The last character of [w], [prev] when [w] is empty. *)
Fixpoint last (prev : option ascii) (w : string) : option ascii :=
  match w with
  | EmptyString => prev
  | String c w' => last (Some c) w'
  end.

Definition is_word (c : option ascii) : bool :=
  match c with
  | Some x => Py.isword x
  | None => false
  end.

(** [\b] at a position: exactly one of the character before it ([prev],
    [None] at the start of the text) and the character after it is a word
    character. *)
Definition boundary (prev : option ascii) (s : string) : bool :=
  xorb (is_word prev) (is_word (head s)).

Section Findall.

Variable ic : bool.        (* re.IGNORECASE *)
Variable n : nat.          (* the length of the text *)
Variable bounded : bool.   (* the pattern is [\b r \b] *)
Variable r : regex.

(** One match attempt at the position where [s] starts, after the character
    [prev]: the text of the match and its groups. *)
Definition attempt (prev : option ascii) (s : string) : option (string * groups) :=
  if negb bounded || boundary prev s then
    match exec ic n r s (repeat None (ngroups r))
            (fun s' g =>
               if negb bounded || boundary (last prev (consumed s s')) s'
               then Some (Some (consumed s s') :: g) else None) with
    | Some (Some w :: g) => Some (w, g)
    | _ => None
    end
  else None.

(** The matches from left to right, none overlapping another: [skip] is the
    number of characters still covered by the last match.  The patterns
    searched take at least one character. *)
Fixpoint matches_from (prev : option ascii) (s : string) (skip : nat) {struct s}
  : list (string * groups) :=
  match skip with
  | S skip' =>
      match s with
      | String c s' => matches_from (Some c) s' skip'
      | EmptyString => []
      end
  | O =>
      match attempt prev s with
      | Some (w, g) =>
          (w, g) :: match s with
                    | String c s' => matches_from (Some c) s' (Py.len w - 1)
                    | EmptyString => []
                    end
      | None =>
          match s with
          | String c s' => matches_from (Some c) s' 0
          | EmptyString => []
          end
      end
  end.

End Findall.

(** [re.findall] for a pattern without group: the texts of the matches. *)
Definition findall (ic bounded : bool) (r : regex) (text : string) : list string :=
  map fst (matches_from ic (Py.len text) bounded r None text 0).

(** [re.findall] for a pattern with one group: the texts of the group. *)
Definition findall_group (ic bounded : bool) (r : regex) (text : string) : list string :=
  map (fun m => match snd m with
                | Some v :: _ => v
                | _ => EmptyString
                end)
      (matches_from ic (Py.len text) bounded r None text 0).

End Find.

(** ** The context extraction of [ChatCommandServer] *)

Module ChatContext.
Import Re Pat.

(** [[a-zA-Z]] *)
Definition letter : cset :=
  OneOf "abcdefghijklmnopqrstuvwxyzABCDEFGHIJKLMNOPQRSTUVWXYZ".

(** [[a-zA-Z]{3,}], between two [\b] in the pattern of [_extract_topics] *)
Definition long_word : regex := Cat [Chr letter; Chr letter; Plus letter].

(** The table [topic_keywords] of [_extract_topics]. *)
Definition topic_keywords : list (string * list string) := [
  ("meeting", ["meeting"; "call"; "discussion"]);
  ("deadline", ["deadline"; "due"; "urgent"]);
  ("project", ["project"; "initiative"; "campaign"]);
  ("client", ["client"; "customer"; "stakeholder"]);
  ("design", ["design"; "ui"; "ux"; "layout"]);
  ("development", ["development"; "coding"; "programming"]);
  ("testing", ["test"; "testing"; "qa"; "quality"]);
  ("deployment", ["deploy"; "deployment"; "release"])
].

(** [words = re.findall(r'\b[a-zA-Z]{3,}\b', text.lower())] *)
Definition topic_words (text : string) : list string :=
  Find.findall false true long_word (Py.lower text).

(** [keyword in words] *)
Definition is_in (words : list string) (keyword : string) : bool :=
  existsb (String.eqb keyword) words.

(** [_extract_topics(text)] *)
Definition _extract_topics (text : string) : list string :=
  (* Simple keyword extraction *)
  let words := topic_words text in
  map fst (filter (fun tk => existsb (is_in words) (snd tk)) topic_keywords).

(** [@(\w+)] and [#(\w+)] *)
Definition marked (mark : string) : regex := Seq (Str mark) (word 0).

(** [_extract_references(text)] *)
Definition _extract_references (text : string) : list string :=
  (* Extract @ mentions *)
  let mentions := Find.findall_group false false (marked "@") text in
  (* Extract hashtags *)
  let hashtags := Find.findall_group false false (marked "#") text in
  (mentions ++ hashtags)%list.

End ChatContext.

(** ** Reference definitions for the other tools *)

(** A list of [str] in non-decreasing order. *)
Fixpoint ascending (l : list string) : bool :=
  match l with
  | a :: l' =>
      match l' with
      | b :: _ => String.leb a b && ascending l'
      | [] => true
      end
  | [] => true
  end.

(** The number of digits on which [int] fails in the position check of
    [node-create]: those of the x coordinate, or those of the y coordinate
    when x is on the canvas, [int(y)] being evaluated in that case only. *)
Definition position_overflow (xs ys : string) : option N :=
  if (Py.max_str_digits <? N.of_nat (Py.len xs))%N then Some (N.of_nat (Py.len xs))
  else if (Py.int_digits 0 xs <=? 2000)%Z && (Py.max_str_digits <? N.of_nat (Py.len ys))%N
  then Some (N.of_nat (Py.len ys))
  else None.

(** * Properties *)

(** ** Facts about strings *)

Module PyFacts.
Import Py.

Lemma app_nil_r (s : string) : s ++ EmptyString = s.
Proof. induction s; simpl; congruence. Qed.

Lemma app_assoc (a b c : string) : (a ++ b) ++ c = a ++ (b ++ c).
Proof. induction a; simpl; congruence. Qed.

Lemma len_app (a b : string) : len (a ++ b) = len a + len b.
Proof. unfold len. induction a; simpl; congruence. Qed.

Lemma take_app (w s : string) : take (len w) (w ++ s) = w.
Proof. unfold len. induction w; simpl; [destruct s | ]; congruence. Qed.

Lemma drop_app (a b : string) : drop (len a) (a ++ b) = b.
Proof. unfold len. induction a; simpl; [ destruct b | ]; auto. Qed.

Lemma consumed_app (w s : string) : Re.consumed (w ++ s) s = w.
Proof.
  unfold Re.consumed. rewrite len_app.
  replace (len w + len s - len s) with (len w) by lia.
  apply take_app.
Qed.

Lemma is_empty_true (s : string) : is_empty s = true -> s = EmptyString.
Proof. destruct s; simpl; congruence. Qed.

Lemma startswith_app (a b : string) : startswith a (a ++ b) = true.
Proof.
  induction a as [ | c a IH]; simpl; [ reflexivity | ].
  rewrite Ascii.eqb_refl. exact IH.
Qed.

Lemma startswith_inv (a s : string) : startswith a s = true -> exists b, s = a ++ b.
Proof.
  revert s. induction a as [ | c a IH]; intros s H.
  - exists s. reflexivity.
  - destruct s as [ | x s]; simpl in H; [ discriminate | ].
    apply andb_true_iff in H. destruct H as [E H].
    apply Ascii.eqb_eq in E. subst x.
    destruct (IH _ H) as [b ->]. exists b. reflexivity.
Qed.

Lemma startswith_slash s :
  startswith "/" s = true -> exists s', s = String "/" s'.
Proof.
  intros H. apply startswith_inv in H. destruct H as [b ->]. exists b. reflexivity.
Qed.

(** *** Tokens and stripping *)

Lemma split_acc_nonempty cur s :
  is_empty cur = false -> exists tok toks, split_acc cur s = tok :: toks.
Proof.
  revert cur. induction s as [ | c s IH]; intros cur Hcur; simpl.
  - rewrite Hcur. eauto.
  - destruct (isspace c).
    + rewrite Hcur. eauto.
    + apply IH. destruct cur; reflexivity.
Qed.

(** [s.split()[0]] exists for a text that starts with the command prefix. *)
Lemma split_first s :
  startswith "/" s = true -> exists tok toks, split s = tok :: toks.
Proof.
  intros H. apply startswith_slash in H. destruct H as [s' ->].
  unfold split. simpl. apply split_acc_nonempty. reflexivity.
Qed.

Lemma strip_startswith s :
  startswith "/" s = true -> startswith "/" (strip s) = true.
Proof.
  intros H. apply startswith_slash in H. destruct H as [s' ->].
  unfold strip. simpl. rewrite andb_false_r. reflexivity.
Qed.

Lemma startswith_rstrip p kw s :
  all (fun c => negb (p c)) kw = true ->
  startswith kw (rstrip_by p s) = startswith kw s.
Proof.
  revert kw. induction s as [ | c s IH]; intros kw Hkw; [ reflexivity | ].
  destruct kw as [ | k kw]; [ reflexivity | ].
  simpl in Hkw. apply andb_true_iff in Hkw. destruct Hkw as [Hk Hkw].
  simpl. destruct (is_empty (rstrip_by p s) && p c) eqn:E; simpl.
  - apply andb_true_iff in E. destruct E as [_ Hc].
    destruct (Ascii.eqb k c) eqn:Ekc; [ | reflexivity ].
    apply Ascii.eqb_eq in Ekc. subst k. rewrite Hc in Hk. discriminate.
  - rewrite IH by assumption. reflexivity.
Qed.

Lemma contains_rstrip p kw s :
  is_empty kw = false -> all (fun c => negb (p c)) kw = true ->
  contains kw (rstrip_by p s) = contains kw s.
Proof.
  intros Hne Hkw. induction s as [ | c s IH]; [ reflexivity | ].
  change (contains kw (String c s))
    with (startswith kw (String c s) || contains kw s).
  rewrite <- IH, <- (startswith_rstrip p kw (String c s)) by assumption.
  simpl rstrip_by.
  destruct (is_empty (rstrip_by p s) && p c) eqn:E.
  - apply andb_true_iff in E. destruct E as [Hr _].
    apply is_empty_true in Hr. rewrite Hr.
    destruct kw; [ discriminate | reflexivity ].
  - reflexivity.
Qed.

Lemma contains_lstrip p kw s :
  is_empty kw = false -> all (fun c => negb (p c)) kw = true ->
  contains kw (lstrip_by p s) = contains kw s.
Proof.
  intros Hne Hkw. induction s as [ | c s IH]; [ reflexivity | ].
  simpl lstrip_by. destruct (p c) eqn:Hc; [ | reflexivity ].
  rewrite IH.
  change (contains kw (String c s))
    with (startswith kw (String c s) || contains kw s).
  destruct kw as [ | k kw]; [ discriminate | ].
  simpl in Hkw. apply andb_true_iff in Hkw. destruct Hkw as [Hk _].
  simpl. destruct (Ascii.eqb k c) eqn:Ekc; [ | reflexivity ].
  apply Ascii.eqb_eq in Ekc. subst k. rewrite Hc in Hk. discriminate.
Qed.

(** A text without whitespace occurs in [s.strip()] exactly when it occurs in [s]. *)
Lemma contains_strip kw s :
  is_empty kw = false -> all (fun c => negb (isspace c)) kw = true ->
  contains kw (strip s) = contains kw s.
Proof.
  intros Hne Hkw. unfold strip.
  rewrite contains_rstrip, contains_lstrip by assumption. reflexivity.
Qed.

Lemma rstrip_none p s : all (fun c => negb (p c)) s = true -> rstrip_by p s = s.
Proof.
  induction s as [ | c s IH]; simpl; [ reflexivity | ].
  intros H. apply andb_true_iff in H. destruct H as [Hc Hs].
  rewrite (IH Hs). apply negb_true_iff in Hc. rewrite Hc, andb_false_r. reflexivity.
Qed.

(** *** Lower case *)

Lemma isspace_lower_char c : isspace (lower_char c) = isspace c.
Proof. destruct c as [[] [] [] [] [] [] [] []]; reflexivity. Qed.

Lemma lower_lstrip s : lower (lstrip_by isspace s) = lstrip_by isspace (lower s).
Proof.
  induction s as [ | c s IH]; [ reflexivity | ].
  simpl. rewrite isspace_lower_char. destruct (isspace c); [ exact IH | reflexivity ].
Qed.

Lemma lower_rstrip s : lower (rstrip_by isspace s) = rstrip_by isspace (lower s).
Proof.
  induction s as [ | c s IH]; [ reflexivity | ].
  simpl. rewrite isspace_lower_char, <- IH.
  replace (is_empty (lower (rstrip_by isspace s))) with (is_empty (rstrip_by isspace s))
    by (destruct (rstrip_by isspace s); reflexivity).
  destruct (is_empty (rstrip_by isspace s) && isspace c); reflexivity.
Qed.

Lemma lower_strip s : lower (strip s) = strip (lower s).
Proof. unfold strip. rewrite lower_rstrip, lower_lstrip. reflexivity. Qed.

Lemma startswith_lower p s :
  startswith p s = true -> startswith (lower p) (lower s) = true.
Proof.
  revert s. induction p as [ | a p IH]; intros s H; [ reflexivity | ].
  destruct s as [ | b s]; simpl in *; [ discriminate | ].
  apply andb_true_iff in H. destruct H as [E H].
  apply Ascii.eqb_eq in E. subst b.
  rewrite Ascii.eqb_refl. apply IH. exact H.
Qed.

Lemma contains_lower sub s :
  contains sub s = true -> contains (lower sub) (lower s) = true.
Proof.
  induction s as [ | c s IH]; simpl; intros H.
  - rewrite orb_false_r in *. apply (startswith_lower sub EmptyString). exact H.
  - apply orb_true_iff in H. destruct H as [H | H].
    + apply (startswith_lower sub (String c s)) in H. simpl in H. rewrite H. reflexivity.
    + rewrite (IH H). apply orb_true_r.
Qed.

(** *** Counting and decimal digits *)

Lemma count_app c a b : count c (a ++ b) = count c a + count c b.
Proof. induction a; simpl; lia. Qed.

Lemma count_all_not p c w : p c = false -> all p w = true -> count c w = 0.
Proof.
  intros Hc. induction w as [ | x w IH]; simpl; [ reflexivity | ].
  intros H. apply andb_true_iff in H. destruct H as [Hx Hw].
  destruct (Ascii.eqb x c) eqn:E.
  - apply Ascii.eqb_eq in E. congruence.
  - auto.
Qed.

Lemma decimal_is_plain c :
  isdecimal c = true -> isspace c = false /\ is_code 43 c = false /\ is_code 45 c = false.
Proof.
  destruct c as [[] [] [] [] [] [] [] []]; vm_compute; intros H;
    try discriminate H; auto.
Qed.

Lemma all_decimal_nonspace s :
  all isdecimal s = true -> all (fun c => negb (isspace c)) s = true.
Proof.
  induction s as [ | c s IH]; simpl; [ reflexivity | ].
  intros H. apply andb_true_iff in H. destruct H as [Hc Hs].
  destruct (decimal_is_plain c Hc) as (-> & _). simpl. auto.
Qed.

Lemma int_scan_digits s : forall acc digits after_digit,
  all isdecimal s = true -> (after_digit = true \/ is_empty s = false) ->
  int_scan acc digits after_digit s
  = Some (int_digits acc s, (digits + N.of_nat (len s))%N, EmptyString).
Proof.
  induction s as [ | c s IH]; cbn [int_scan int_digits len String.length all];
    intros acc digits after_digit Hs Hne.
  - destruct Hne as [-> | H]; [ | discriminate ].
    rewrite N.add_0_r. reflexivity.
  - apply andb_true_iff in Hs. destruct Hs as [Hc Hs]. rewrite Hc.
    rewrite IH by auto. unfold len. do 3 f_equal. lia.
Qed.

(** [int] reads a non-empty string of decimal digits as its value when the
    digits are no more than the limit, and refuses it otherwise. *)
Lemma int_of_str_digits s :
  is_empty s = false -> all isdecimal s = true ->
  int_of_str s
  = if (max_str_digits <? N.of_nat (len s))%N
    then IntTooLong (N.of_nat (len s))
    else IntValue (int_digits 0 s).
Proof.
  intros Hne Hs. unfold int_of_str, strip.
  destruct s as [ | c s]; [ discriminate | ].
  pose proof Hs as Hs'. simpl in Hs'. apply andb_true_iff in Hs'. destruct Hs' as [Hc _].
  destruct (decimal_is_plain c Hc) as (Hsp & Hplus & Hminus).
  cbn [lstrip_by]. rewrite Hsp.
  rewrite rstrip_none by (apply all_decimal_nonspace; exact Hs).
  rewrite Hplus, Hminus. unfold int_magnitude.
  rewrite int_scan_digits by auto. rewrite N.add_0_l.
  destruct (N.of_nat (len (String c s)) =? 0)%N eqn:E; [ | reflexivity ].
  apply N.eqb_eq in E. unfold len in E. cbn [String.length] in E. lia.
Qed.

End PyFacts.

(** ** Soundness of the matcher *)

Module ReFacts.
Import Py Re PyFacts.

Lemma set_nth_length {A : Type} (i : nat) (v : A) (l : list A) :
  List.length (set_nth i v l) = List.length l.
Proof.
  revert i. induction l as [ | x l IH]; intros [ | i]; simpl; auto.
Qed.

Lemma matches_length ic r w g g' :
  matches ic r w g g' -> List.length g' = List.length g.
Proof.
  induction 1; try reflexivity; try assumption.
  - congruence.
  - rewrite set_nth_length. assumption.
Qed.

(** A successful greedy repetition took a run of the class and succeeded on
    what follows it. *)
Lemma star_sound (p : ascii -> bool) (s : string) k res :
  star p s k = Some res ->
  exists w s', s = w ++ s' /\ all p w = true /\ k s' = Some res.
Proof.
  induction s as [ | c s IH]; simpl; intros H.
  - exists EmptyString, EmptyString. auto.
  - destruct (p c) eqn:Hc.
    + destruct (star p s k) as [g | ] eqn:Hs.
      * destruct (IH H) as (w & s' & -> & Hw & Hk).
        exists (String c w), s'. simpl. rewrite Hc, Hw.
        repeat split; congruence.
      * exists EmptyString, (String c s). auto.
    + exists EmptyString, (String c s). auto.
Qed.

Create HintDb re.
#[local] Hint Constructors matches : re.

(** A successful run of the matcher took a text that the pattern matches,
    with the groups the relation gives, and succeeded on what follows. *)
Lemma exec_sound ic n r :
  forall s g k res,
    exec ic n r s g k = Some res ->
    exists w s' g', s = w ++ s' /\ matches ic r w g g' /\ k s' g' = Some res.
Proof.
  induction r as [ | | | c | r1 IH1 r2 IH2 | r1 IH1 r2 IH2 | r1 IH1 | c | c | i r1 IH1];
    simpl; intros s g k res H.
  - exists EmptyString, s, g. repeat split; auto with re.
  - destruct (Nat.eqb (len s) n); [ | discriminate ].
    exists EmptyString, s, g. repeat split; auto with re.
  - destruct (at_end s); [ | discriminate ].
    exists EmptyString, s, g. repeat split; auto with re.
  - destruct s as [ | x s]; [ discriminate | ].
    destruct (cmem ic c x) eqn:Hx; [ | discriminate ].
    exists (String x EmptyString), s, g. repeat split; auto with re.
  - apply IH1 in H. destruct H as (w1 & s1 & g1 & -> & M1 & H).
    apply IH2 in H. destruct H as (w2 & s2 & g2 & -> & M2 & H).
    exists (w1 ++ w2), s2, g2. rewrite app_assoc. repeat split; eauto with re.
  - destruct (exec ic n r1 s g k) as [g' | ] eqn:H1.
    + apply IH1 in H1. destruct H1 as (w & s' & g1 & -> & M & Hk).
      exists w, s', g1. repeat split; eauto with re; congruence.
    + apply IH2 in H. destruct H as (w & s' & g1 & -> & M & Hk).
      exists w, s', g1. repeat split; eauto with re.
  - destruct (exec ic n r1 s g k) as [g' | ] eqn:H1.
    + apply IH1 in H1. destruct H1 as (w & s' & g1 & -> & M & Hk).
      exists w, s', g1. repeat split; eauto with re; congruence.
    + exists EmptyString, s, g. repeat split; auto with re.
  - destruct s as [ | x s]; [ discriminate | ].
    destruct (cmem ic c x) eqn:Hx; [ | discriminate ].
    apply star_sound in H. destruct H as (w & s' & -> & Hw & Hk).
    exists (String x w), s', g. repeat split; auto.
    apply M_plus; simpl; [ reflexivity | rewrite Hx, Hw; reflexivity ].
  - apply star_sound in H. destruct H as (w & s' & -> & Hw & Hk).
    exists w, s', g. repeat split; auto with re.
  - apply IH1 in H. destruct H as (w & s' & g' & -> & M & Hk).
    rewrite consumed_app in Hk.
    exists w, s', (set_nth i (Some w) g'). repeat split; auto with re.
Qed.

Lemma re_match_sound ic r s g :
  re_match ic r s = Some g ->
  exists w s', s = w ++ s' /\ matches ic r w (repeat None (ngroups r)) g.
Proof.
  unfold re_match, match_here. intros H. apply exec_sound in H.
  destruct H as (w & s' & g' & -> & M & Hk). inversion Hk; subst. eauto.
Qed.

(** [groups()] has one entry per group of the pattern. *)
Lemma re_match_length ic r s g :
  re_match ic r s = Some g -> List.length g = ngroups r.
Proof.
  intros H. apply re_match_sound in H. destruct H as (w & s' & _ & M).
  apply matches_length in M. rewrite M. apply repeat_length.
Qed.

(** Reading a derivation of [matches] along the pattern. *)
Ltac inv_matches :=
  repeat match goal with
         | H : matches _ (Seq _ _) _ _ _ |- _ => inversion H; subst; clear H
         | H : matches _ (Opt _) _ _ _ |- _ => inversion H; subst; clear H
         | H : matches _ (Alt _ _) _ _ _ |- _ => inversion H; subst; clear H
         | H : matches _ (Grp _ _) _ _ _ |- _ => inversion H; subst; clear H
         | H : matches _ (Chr _) _ _ _ |- _ => inversion H; subst; clear H
         | H : matches _ (Plus _) _ _ _ |- _ => inversion H; subst; clear H
         | H : matches _ (Star _) _ _ _ |- _ => inversion H; subst; clear H
         | H : matches _ Eps _ _ _ |- _ => inversion H; subst; clear H
         | H : matches _ Bol _ _ _ |- _ => inversion H; subst; clear H
         | H : matches _ Eol _ _ _ |- _ => inversion H; subst; clear H
         end.

(** With a continuation that always succeeds, greedy repetition takes the
    longest run. *)
Lemma star_longest p s (k : string -> option groups) :
  (forall t, k t <> None) -> star p s k = k (Scan.after p s).
Proof.
  intros Hk. induction s as [ | c s IH]; simpl; [ reflexivity | ].
  destruct (p c); [ | reflexivity ].
  rewrite IH. destruct (k (Scan.after p s)) eqn:E; [ reflexivity | ].
  exfalso. exact (Hk _ E).
Qed.

Lemma ngroups_Str key : ngroups (Str key) = 0.
Proof. induction key as [ | a key IH]; simpl; [ reflexivity | exact IH ]. Qed.

Lemma exec_Str n key : forall s g k,
  exec false n (Str key) s g k
  = if startswith key s then k (drop (len key) s) g else None.
Proof.
  induction key as [ | a key IH]; intros s g k; simpl.
  - destruct s; reflexivity.
  - destruct s as [ | b s]; [ reflexivity | ].
    simpl. rewrite (Ascii.eqb_sym b a).
    destruct (Ascii.eqb a b); simpl; [ apply IH | reflexivity ].
Qed.

End ReFacts.

(** ** Dictionaries and the dispatch loop *)

Module DictFacts.

Lemma lookup_set_other (d : dict) (k k' : string) (v : value) :
  String.eqb k k' = false -> lookup k' (set d k v) = lookup k' d.
Proof.
  intros Hk. induction d as [ | [k0 v0] d IH]; simpl.
  - rewrite Hk. reflexivity.
  - destruct (String.eqb k0 k) eqn:E0; simpl.
    + apply String.eqb_eq in E0. subst k0. rewrite Hk. reflexivity.
    + rewrite IH. reflexivity.
Qed.

Lemma get_set_other (d : dict) (k k' : string) (v : value) :
  String.eqb k k' = false -> get (set d k v) k' = get d k'.
Proof. intros Hk. unfold get. rewrite lookup_set_other by exact Hk. reflexivity. Qed.

Lemma groups_tuple_length g : List.length (groups_tuple g) = List.length g.
Proof. apply length_map. Qed.

(** [int] on a non-empty string of decimal digits. *)
Lemma py_int_digits v :
  Py.is_empty v = false -> Py.all Py.isdecimal v = true ->
  py_int (VStr v)
  = if (Py.max_str_digits <? N.of_nat (Py.len v))%N
    then Raise (ValueError (Py.int_limit_message (N.of_nat (Py.len v))))
    else Ok (Py.int_digits 0 v).
Proof.
  intros Hne Hd. unfold py_int. rewrite (PyFacts.int_of_str_digits v Hne Hd).
  destruct (Py.max_str_digits <? N.of_nat (Py.len v))%N; reflexivity.
Qed.

End DictFacts.

Module PatFacts.
Import Re Pat.

Lemma first_match_some pats s name g :
  first_match pats s = Some (name, g) ->
  exists pat, In (name, pat) pats /\ re_match true pat s = Some g.
Proof.
  induction pats as [ | [n p] pats IH]; simpl; [ discriminate | ].
  destruct (re_match true p s) as [g' | ] eqn:Hm.
  - intros H. inversion H; subst. exists p. auto.
  - intros H. destruct (IH H) as (pat & Hin & Hp). exists pat. auto.
Qed.

(** The dispatch loop stops at the head of the list of matching rules. *)
Lemma first_match_head pats s :
  match all_matches pats s with
  | [] => first_match pats s = None
  | name :: _ => exists g, first_match pats s = Some (name, g)
  end.
Proof.
  unfold all_matches.
  induction pats as [ | [n p] pats IH]; simpl; [ reflexivity | ].
  destruct (re_match true p s) as [g | ]; simpl.
  - exists g. reflexivity.
  - exact IH.
Qed.

(** Going through the rules of a registry one by one. *)
Ltac pick_rule H :=
  simpl in H;
  repeat (destruct H as [H | H];
          [ try discriminate H; inversion H; subst; clear H | ]);
  try contradiction.

End PatFacts.

(** ** The order of binary64 comparisons *)

Module FloatOrder.

Ltac cases_compare :=
  repeat match goal with
         | H : context [(?a ?= ?b)%Z] |- _ => destruct (Z.compare_spec a b); subst
         | |- context [(?a ?= ?b)%Z] => destruct (Z.compare_spec a b); subst
         | H : context [Pos.compare_cont Eq ?a ?b] |- _ =>
             change (Pos.compare_cont Eq a b) with (Pos.compare a b) in *;
             destruct (Pos.compare_spec a b); subst
         | |- context [Pos.compare_cont Eq ?a ?b] =>
             change (Pos.compare_cont Eq a b) with (Pos.compare a b) in *;
             destruct (Pos.compare_spec a b); subst
         end;
  simpl in *; try discriminate; try reflexivity; try lia.

Ltac order_cases x y z :=
  unfold SFltb, SFleb, SFcompare in *;
  destruct x as [[] | [] | | [] ? ?]; try discriminate;
  destruct y as [[] | [] | | [] ? ?]; try discriminate;
  destruct z as [[] | [] | | [] ? ?]; try discriminate; try reflexivity;
  cases_compare.

Lemma SFltb_trans x y z : SFltb x y = true -> SFltb y z = true -> SFltb x z = true.
Proof. intros H1 H2. order_cases x y z. Qed.

Lemma SFltb_leb_trans x y z : SFltb x y = true -> SFleb y z = true -> SFltb x z = true.
Proof. intros H1 H2. order_cases x y z. Qed.

Lemma SFltb_leb x y : SFltb x y = true -> SFleb x y = true.
Proof. intros H1. pose (z := x). order_cases x y z. Qed.

Lemma SFltb_not_leb x y : SFltb x y = true -> SFleb y x = false.
Proof. intros H1. pose (z := x). order_cases x y z. Qed.

Local Open Scope float_scope.

Lemma ltb_trans x y z : (x <? y) = true -> (y <? z) = true -> (x <? z) = true.
Proof. rewrite !FloatAxioms.ltb_spec. apply SFltb_trans. Qed.

Lemma ltb_leb_trans x y z : (x <? y) = true -> (y <=? z) = true -> (x <? z) = true.
Proof. rewrite !FloatAxioms.ltb_spec, FloatAxioms.leb_spec. apply SFltb_leb_trans. Qed.

Lemma ltb_leb x y : (x <? y) = true -> (x <=? y) = true.
Proof. rewrite FloatAxioms.ltb_spec, FloatAxioms.leb_spec. apply SFltb_leb. Qed.

Lemma ltb_not_leb x y : (x <? y) = true -> (y <=? x) = false.
Proof. rewrite FloatAxioms.ltb_spec, FloatAxioms.leb_spec. apply SFltb_not_leb. Qed.

End FloatOrder.

(** ** The suggestion loop *)

Module SuggestFacts.
Import Suggest SuggestSpec FloatOrder.
Local Open Scope float_scope.

Lemma score_ok unknown cmd :
  Py.is_empty (clean cmd) = false -> score unknown cmd = Ok (similarity unknown cmd).
Proof.
  intros H. unfold score, total.
  destruct (clean cmd) as [ | c s]; [ discriminate | ].
  replace (Nat.eqb _ 0) with false; [ reflexivity | ].
  symmetry. apply Nat.eqb_neq. unfold Py.len. simpl. lia.
Qed.

Lemma score_inv unknown cmd s : score unknown cmd = Ok s -> s = similarity unknown cmd.
Proof.
  unfold score. destruct (Nat.eqb (total unknown cmd) 0); [ discriminate | ].
  intros H. inversion H. reflexivity.
Qed.

(** The loop raises nothing on a vocabulary without an empty candidate. *)
Lemma scan_total unknown cmds :
  Forall (fun cmd => Py.is_empty (clean cmd) = false) cmds ->
  forall best_match best_score, exists r, scan unknown cmds best_match best_score = Ok r.
Proof.
  induction 1 as [ | cmd cmds Hcmd _ IH]; intros best_match best_score; simpl.
  - eauto.
  - rewrite score_ok by assumption. simpl.
    destruct ((best_score <? similarity unknown cmd)
              && (0.3 <? similarity unknown cmd)); apply IH.
Qed.

Lemma workflow_vocabulary_clean :
  Forall (fun cmd => Py.is_empty (clean cmd) = false)
         (WorkflowCommandServer.vocabulary WorkflowCommandServer.__init__).
Proof. repeat constructor. Qed.

Lemma chat_vocabulary_clean :
  Forall (fun cmd => Py.is_empty (clean cmd) = false)
         (ChatCommandServer.vocabulary ChatCommandServer.__init__).
Proof. repeat constructor. Qed.

Lemma workflow_suggest_total unknown_command :
  exists r,
    WorkflowCommandServer._suggest_similar_workflow_command
      WorkflowCommandServer.__init__ unknown_command = Ok r.
Proof. apply scan_total, workflow_vocabulary_clean. Qed.

Lemma chat_suggest_total unknown_command :
  exists r,
    ChatCommandServer._suggest_similar_command ChatCommandServer.__init__ unknown_command
    = Ok r.
Proof. apply scan_total, chat_vocabulary_clean. Qed.

Lemma not_true_false (b : bool) : (b = true -> False) -> b = false.
Proof. destruct b; [ intros H; exfalso; apply H; reflexivity | reflexivity ]. Qed.

(** One turn of the loop keeps the state. *)
Lemma loop_step unknown seen best_match best_score cmd :
  loop_state unknown seen best_match best_score ->
  if (best_score <? similarity unknown cmd) && (0.3 <? similarity unknown cmd)
  then loop_state unknown (seen ++ [cmd]) (Some cmd) (similarity unknown cmd)
  else loop_state unknown (seen ++ [cmd]) best_match best_score.
Proof.
  intros [Hsel Hbs]. remember (similarity unknown cmd) as s eqn:Es.
  destruct (best_score <? s) eqn:Hlt; destruct (0.3 <? s) eqn:Hth; simpl.
  - (* the candidate becomes the best one *)
    split; [ | exact Es ]. simpl. rewrite <- Es. split; [ exact Hth | ].
    exists seen, []. split; [ reflexivity | ]. split; [ | intros c' [] ].
    intros c' Hin. apply not_true_false. intros Hle.
    destruct best_match as [c0 | ]; simpl in Hsel, Hbs; subst best_score.
    + destruct Hsel as (_ & earlier & later & -> & Hearlier & Hlater).
      apply in_app_or in Hin. destruct Hin as [Hin | [<- | Hin]].
      * pose proof (ltb_leb _ _ (ltb_leb_trans _ _ _ Hlt Hle)) as H.
        rewrite (Hearlier _ Hin) in H. discriminate.
      * rewrite (ltb_not_leb _ _ Hlt) in Hle. discriminate.
      * pose proof (ltb_leb_trans _ _ _ Hlt Hle) as H.
        rewrite (Hlater _ Hin) in H. discriminate.
    + pose proof (ltb_leb_trans _ _ _ Hth Hle) as H.
      rewrite (Hsel _ Hin) in H. discriminate.
  - (* above the best score, not above the threshold *)
    destruct best_match as [c0 | ]; simpl in Hsel, Hbs; subst best_score.
    + destruct Hsel as (H0 & _). rewrite (ltb_trans _ _ _ H0 Hlt) in Hth. discriminate.
    + split; [ | reflexivity ]. intros c Hin.
      apply in_app_or in Hin. destruct Hin as [Hin | [<- | []]]; [ auto | ].
      rewrite <- Es. exact Hth.
  - (* above the threshold, not above the best score *)
    destruct best_match as [c0 | ]; simpl in Hsel, Hbs; subst best_score.
    + destruct Hsel as (H0 & earlier & later & -> & Hearlier & Hlater).
      split; [ | reflexivity ]. split; [ exact H0 | ].
      exists earlier, (later ++ [cmd])%list. rewrite <- List.app_assoc. simpl.
      split; [ reflexivity | ]. split; [ exact Hearlier | ].
      intros c' Hin. apply in_app_or in Hin. destruct Hin as [Hin | [<- | []]]; [ auto | ].
      rewrite <- Es. exact Hlt.
    + rewrite (ltb_trans 0 0.3 s eq_refl Hth) in Hlt. discriminate.
  - destruct best_match as [c0 | ]; simpl in Hsel, Hbs; subst best_score.
    + destruct Hsel as (H0 & earlier & later & -> & Hearlier & Hlater).
      split; [ | reflexivity ]. split; [ exact H0 | ].
      exists earlier, (later ++ [cmd])%list. rewrite <- List.app_assoc. simpl.
      split; [ reflexivity | ]. split; [ exact Hearlier | ].
      intros c' Hin. apply in_app_or in Hin. destruct Hin as [Hin | [<- | []]]; [ auto | ].
      rewrite <- Es. exact Hlt.
    + split; [ | reflexivity ]. intros c Hin.
      apply in_app_or in Hin. destruct Hin as [Hin | [<- | []]]; [ auto | ].
      rewrite <- Es. exact Hth.
Qed.

(** The loop ends on the selection over all the candidates it went through. *)
Lemma scan_selected unknown cmds :
  forall seen best_match best_score r,
    loop_state unknown seen best_match best_score ->
    scan unknown cmds best_match best_score = Ok r ->
    selected unknown (seen ++ cmds) r.
Proof.
  induction cmds as [ | cmd cmds IH]; intros seen best_match best_score r Hst; simpl.
  - intros H. inversion H; subst. rewrite List.app_nil_r. apply Hst.
  - destruct (score unknown cmd) as [s | e] eqn:Hs; simpl; [ | discriminate ].
    apply score_inv in Hs. subst s.
    pose proof (loop_step unknown seen best_match best_score cmd Hst) as Hstep.
    replace (seen ++ cmd :: cmds)%list with ((seen ++ [cmd]) ++ cmds)%list
      by (rewrite <- List.app_assoc; reflexivity).
    destruct ((best_score <? similarity unknown cmd) && (0.3 <? similarity unknown cmd));
      intros H; eapply IH; eassumption.
Qed.

End SuggestFacts.

(** ** The filter parser *)

Module FilterFacts.
Import Py PyFacts Re ReFacts Pat ChatCommandServer Scan.

Lemma run_after p s : run p s ++ after p s = s.
Proof.
  induction s as [ | c s IH]; simpl; [ reflexivity | ].
  destruct (p c); simpl; congruence.
Qed.

Lemma run_all p s : all p (run p s) = true.
Proof.
  induction s as [ | c s IH]; simpl; [ reflexivity | ].
  destruct (p c) eqn:E; simpl; [ rewrite E; exact IH | reflexivity ].
Qed.


Lemma exec_group_plus n c s :
  exec false n (Grp 0 (Plus c)) s [None] (fun _ g => Some g)
  = if is_empty (run (cmem false c) s) then None else Some [Some (run (cmem false c) s)].
Proof.
  destruct s as [ | x s]; simpl; [ reflexivity | ].
  destruct (cmem false c x) eqn:Hx; simpl; [ | reflexivity ].
  rewrite star_longest by discriminate.
  replace (String x s) with (String x (run (cmem false c) s) ++ after (cmem false c) s)
    by (simpl; rewrite run_after; reflexivity).
  rewrite consumed_app. reflexivity.
Qed.

Lemma match_key_value n key c s :
  match_here false n (key_value key c) s
  = option_map (fun v => [Some v]) (value_here key (cmem false c) s).
Proof.
  unfold match_here, key_value, value_here. simpl ngroups. rewrite ngroups_Str. simpl repeat.
  change (exec false n (Seq (Str key) (Grp 0 (Plus c))) s [None] (fun _ g => Some g))
    with (exec false n (Str key) s [None]
            (fun s' g' => exec false n (Grp 0 (Plus c)) s' g' (fun _ g => Some g))).
  rewrite exec_Str. destruct (startswith key s); [ | reflexivity ].
  cbv beta. rewrite exec_group_plus. simpl andb.
  destruct (is_empty (run (cmem false c) (drop (len key) s))); reflexivity.
Qed.

(** [re.search] for a pattern [key(c+)] is the direct scan. *)
Lemma search_key_value key c s :
  re_search false (key_value key c) s
  = option_map (fun v => [Some v]) (leftmost_value key (cmem false c) s).
Proof.
  unfold re_search. generalize (len s) as n. intros n.
  induction s as [ | x s IH]; simpl; rewrite match_key_value.
  - destruct (value_here key (cmem false c) EmptyString); reflexivity.
  - destruct (value_here key (cmem false c) (String x s)); simpl; [ reflexivity | ].
    apply IH.
Qed.

Lemma value_here_shape key p s v :
  value_here key p s = Some v -> is_empty v = false /\ all p v = true.
Proof.
  unfold value_here.
  destruct (startswith key s); simpl; [ | discriminate ].
  destruct (is_empty (run p (drop (len key) s))) eqn:E; simpl; [ discriminate | ].
  intros H. inversion H; subst. split; [ exact E | apply run_all ].
Qed.

Lemma leftmost_value_shape key p s v :
  leftmost_value key p s = Some v -> is_empty v = false /\ all p v = true.
Proof.
  induction s as [ | x s IH]; simpl.
  - destruct (value_here key p EmptyString) eqn:E; [ | discriminate ].
    intros H. inversion H; subst. eapply value_here_shape; eassumption.
  - destruct (value_here key p (String x s)) eqn:E.
    + intros H. inversion H; subst. eapply value_here_shape; eassumption.
    + exact IH.
Qed.



(** The filter parser returns what the four scans find, unless the digits
    of the limit are more than [int] converts: then it raises. *)
Lemma parse_list_filters_cases s :
  _parse_list_filters s
  = match limit_overflow s with
    | Some digits => Raise (ValueError (int_limit_message digits))
    | None => Ok (Scan.filters s)
    end.
Proof.
  unfold _parse_list_filters, Scan.filters, limit_overflow.
  destruct s as [ | x s]; [ reflexivity | ].
  cbv [is_empty]. rewrite !search_key_value.
  change (cmem false NonSpace) with nonspace.
  change (cmem false Digit) with isdecimal.
  destruct (leftmost_value "limit:" isdecimal (String x s)) as [n | ] eqn:El.
  - apply leftmost_value_shape in El. destruct El as [Hne Hd].
    destruct (leftmost_value "tag:" nonspace (String x s)),
      (leftmost_value "opp:" nonspace (String x s)),
      (leftmost_value "task:" nonspace (String x s));
      cbn [option_map bind group1 FilterSpec.entry app];
      rewrite (DictFacts.py_int_digits n Hne Hd);
      destruct (max_str_digits <? N.of_nat (len n))%N; reflexivity.
  - destruct (leftmost_value "tag:" nonspace (String x s)),
      (leftmost_value "opp:" nonspace (String x s)),
      (leftmost_value "task:" nonspace (String x s)); reflexivity.
Qed.


(** What the parser raises is the error of [int] on too many digits. *)
Lemma parse_list_filters_raises s e :
  _parse_list_filters s = Raise e ->
  exists digits, (max_str_digits < digits)%N /\ e = ValueError (int_limit_message digits).
Proof.
  rewrite parse_list_filters_cases. unfold limit_overflow.
  destruct (leftmost_value "limit:" isdecimal s) as [v | ]; [ | discriminate ].
  destruct (max_str_digits <? N.of_nat (len v))%N eqn:E; [ | discriminate ].
  intros H. inversion H; subst. apply N.ltb_lt in E. eauto.
Qed.

End FilterFacts.

(** ** The workflow server *)

Module WorkflowFacts.
Import Py PyFacts Re ReFacts Pat PatFacts DictFacts SuggestFacts WorkflowCommandServer.

Ltac step_match :=
  match goal with
  | |- context [idx ?g ?i] => destruct (idx g i) eqn:?; simpl
  | |- context [truthy ?v] => destruct (truthy v) eqn:?; simpl
  end.

(** The extractor keeps the rule name and the raw groups it was given. *)
Lemma workflow_match_keeps command_name groups original_input res :
  _parse_workflow_match command_name groups original_input = Ok res ->
  get res "command_type" = VStr command_name /\ get res "raw_params" = VTuple groups.
Proof.
  unfold _parse_workflow_match.
  repeat match goal with
         | |- context [is_cmd command_name ?c] =>
             destruct (is_cmd command_name c);
             [ unfold or_else; simpl; repeat step_match;
               intros H; inversion H; subst; split; reflexivity | ]
         end.
  intros H; inversion H; subst; split; reflexivity.
Qed.

(** A result that names a rule comes from the dispatch loop stopping at
    that rule and from its extractor. *)
Lemma parse_workflow_command_inv self input name :
  get (parse_workflow_command self input) "command_type" = VStr name ->
  exists g res,
    first_match (command_patterns self) (strip input) = Some (name, g)
    /\ _parse_workflow_match name (groups_tuple g) (strip input) = Ok res
    /\ parse_workflow_command self input = set res "original_input" (VStr (strip input)).
Proof.
  unfold parse_workflow_command, parse_workflow_command_body.
  destruct (negb (startswith "/" (strip input))); [ discriminate | ].
  destruct (first_match (command_patterns self) (strip input)) as [[n g] | ].
  - destruct (_parse_workflow_match n (groups_tuple g) (strip input)) as [res | e] eqn:Hp;
      simpl; [ | discriminate ].
    rewrite get_set_other by reflexivity.
    destruct (workflow_match_keeps _ _ _ _ Hp) as [Hc _]. rewrite Hc.
    intros H. inversion H; subst. eauto.
  - destruct (existsb _ workflow_keywords); [ | discriminate ].
    destruct (first (split (strip input))); simpl; [ | discriminate ].
    destruct (_suggest_similar_workflow_command self a); simpl; discriminate.
Qed.

Lemma matrix_move_rule pat :
  In ("matrix-move", pat) (command_patterns __init__) -> pat = matrix_move_pattern.
Proof. intros H. pick_rule H. reflexivity. Qed.

(** The two groups of a match of the rule [matrix-move]. *)
Lemma matrix_move_groups s g :
  re_match true matrix_move_pattern s = Some g ->
  exists task a sep b,
    g = [Some task; Some (a ++ String sep b)]
    /\ is_empty a = false /\ is_empty b = false
    /\ all isword a = true /\ all isword b = true
    /\ cmem true (OneOf "-_") sep = true.
Proof.
  intros H. apply re_match_sound in H. destruct H as (w & s' & _ & M).
  cbv [matrix_move_pattern Cat Str hy ws rest quadrant] in M.
  inv_matches; simpl; eauto 10.
Qed.

Lemma separator_cases sep :
  cmem true (OneOf "-_") sep = true -> sep = "-"%char \/ sep = "_"%char.
Proof.
  destruct sep as [[] [] [] [] [] [] [] []]; vm_compute; intros H;
    try discriminate H; auto.
Qed.

(** A text made of two runs of word characters around one separator holds
    at most one hyphen. *)
Lemma quadrant_hyphens a sep b :
  all isword a = true -> all isword b = true ->
  count "-" (a ++ String sep b) <= 1.
Proof.
  intros Ha Hb. rewrite count_app. simpl.
  rewrite (count_all_not isword "-" a) by (reflexivity || assumption).
  rewrite (count_all_not isword "-" b) by (reflexivity || assumption).
  destruct (Ascii.eqb sep "-"); simpl; lia.
Qed.

(** The keyword test gives the same answer on the input and on the stripped input. *)
Lemma keyword_test_strip input :
  existsb (fun keyword => contains keyword (lower (strip input))) workflow_keywords
  = existsb (fun keyword => contains keyword (lower input)) workflow_keywords.
Proof.
  rewrite lower_strip. unfold workflow_keywords. simpl.
  repeat rewrite contains_strip by reflexivity. reflexivity.
Qed.

(** *** The validator *)

Lemma in_strs_false v allowed :
  ~ In v allowed -> in_strs (VStr v) allowed = false.
Proof.
  intros H. unfold in_strs. induction allowed as [ | a l IH]; [ reflexivity | ].
  simpl. destruct (String.eqb v a) eqn:E.
  - apply String.eqb_eq in E. subst. exfalso. apply H. left. reflexivity.
  - apply IH. intros Hin. apply H. right. exact Hin.
Qed.

Lemma truthy_str v : v <> EmptyString -> truthy (VStr v) = true.
Proof. destruct v; [ congruence | reflexivity ]. Qed.

(** A value outside the allowed set of a table puts one error in a fresh
    result and clears [valid]. *)
Lemma check_enum_invalid require_value v table what plural allowed :
  values_of (valid_values __init__) table = Ok allowed ->
  v <> EmptyString -> ~ In v allowed ->
  check_enum __init__ require_value (VStr v) table what plural fresh_result
  = Ok [("valid", VBool false);
        ("errors", VList [VStr ("Invalid " ++ what ++ " '" ++ v ++ "'. Valid " ++ plural
                                ++ ": " ++ join ", " allowed)]);
        ("warnings", VList []); ("suggestions", VList [])].
Proof.
  intros Ht Hv Hin. unfold check_enum.
  rewrite (truthy_str v Hv), orb_true_r, Ht. simpl.
  rewrite (in_strs_false v allowed Hin). reflexivity.
Qed.

Ltac enter_validator Hw Hp Hc :=
  unfold validate_workflow_command, validate_workflow_command_body, get_default, pget;
  rewrite Hw, Hp, Hc; simpl;
  try change [("valid", VBool true); ("errors", VList []);
              ("warnings", VList []); ("suggestions", VList [])] with fresh_result.

(** *** No exception in the parser *)

Ltac sized_groups H :=
  repeat match type of H with
         | List.length ?g = _ =>
             destruct g as [ | ? g]; simpl in H; try discriminate H;
             try apply Nat.succ_inj in H
         end.

(** On as many groups as its rule has, the extractor raises nothing. *)
Lemma workflow_extract_total command_name pat s (groups : list value) :
  In (command_name, pat) (command_patterns __init__) ->
  List.length groups = ngroups pat ->
  exists res, _parse_workflow_match command_name groups s = Ok res.
Proof.
  intros Hin Hlen.
  pick_rule Hin;
    match type of Hlen with
    | _ = ?n => let m := eval vm_compute in n in change n with m in Hlen
    end;
    sized_groups Hlen;
    unfold _parse_workflow_match, is_cmd; simpl;
    repeat match goal with
           | |- context [truthy ?v] => destruct (truthy v); simpl
           end;
    eexists; reflexivity.
Qed.

Lemma workflow_body_total input : exists d, parse_workflow_command_body __init__ input = Ok d.
Proof.
  unfold parse_workflow_command_body.
  destruct (startswith "/" (strip input)) eqn:Hs; cbn [negb]; [ | eauto ].
  destruct (first_match (command_patterns __init__) (strip input)) as [[name g] | ] eqn:Hf.
  - apply first_match_some in Hf. destruct Hf as (pat & Hin & Hm).
    apply re_match_length in Hm. rewrite <- groups_tuple_length in Hm.
    destruct (workflow_extract_total name pat (strip input) _ Hin Hm) as [res ->].
    simpl. eauto.
  - destruct (existsb _ workflow_keywords); [ | eauto ].
    destruct (split_first _ Hs) as (command & toks & ->). simpl.
    destruct (workflow_suggest_total command) as [r ->]. simpl. eauto.
Qed.

End WorkflowFacts.

(** ** The chat server *)

Module ChatFacts.
Import Py PyFacts Re ReFacts Pat PatFacts DictFacts SuggestFacts FilterFacts
       ChatCommandServer.

Ltac step_chat :=
  match goal with
  | |- context [idx ?g ?i] => destruct (idx g i) eqn:?; simpl
  | |- context [idx_or ?g ?i ?d] => destruct (idx_or g i d) eqn:?; simpl
  | |- context [truthy ?v] => destruct (truthy v) eqn:?; simpl
  | |- context [as_str ?v] => destruct (as_str v) eqn:?; simpl
  | |- context [_parse_list_filters ?s] => destruct (_parse_list_filters s) eqn:?; simpl
  | |- context [first ?l] => destruct (first l) eqn:?; simpl
  | |- context [Nat.ltb 1 ?n] => destruct (Nat.ltb 1 n) eqn:?; simpl
  | |- context [match ?v with VStr _ => _ | _ => _ end] => destruct v; simpl
  end.

(** The extractor keeps the rule name it was given. *)
Lemma chat_match_keeps command_name groups original_input res :
  _parse_command_match command_name groups original_input = Ok res ->
  get res "command_type" = VStr command_name.
Proof.
  unfold _parse_command_match.
  repeat match goal with
         | |- context [if ?c then _ else _] =>
             match c with
             | context [command_name] =>
                 destruct c;
                 [ unfold or_else; simpl; repeat step_chat;
                   intros H; inversion H; subst; reflexivity | ]
             end
         end.
  intros H; inversion H; subst; reflexivity.
Qed.

Ltac solve_extract :=
  unfold _parse_command_match, or_else, idx_or; simpl;
  repeat match goal with
         | |- context [truthy (VStr ?w)] => destruct (truthy (VStr w)); simpl
         | |- context [is_empty ?w] => destruct (is_empty w); simpl
         | |- context [split_once ?a ?b] =>
             unfold split_once; destruct (partition a b) as [[? ?] | ]; simpl
         end;
  first
    [ left; eexists; reflexivity
    | match goal with
      | |- context [_parse_list_filters ?s] =>
          let E := fresh "E" in
          destruct (_parse_list_filters s) as [? | ?] eqn:E; simpl;
          [ left; eexists; reflexivity
          | right; split; [ simpl; auto | ];
            apply parse_list_filters_raises in E;
            destruct E as (digits & Hd & ->);
            exists digits; split; [ exact Hd | reflexivity ] ]
      end ].

(** On the groups of a match of its rule, the extractor raises nothing but
    the error of [int] on a limit of too many digits, in the two rules that
    take filters. *)
Lemma chat_extract_cases command_name pat s g :
  In (command_name, pat) (command_patterns __init__) ->
  re_match true pat s = Some g ->
  (exists res, _parse_command_match command_name (groups_tuple g) s = Ok res)
  \/ (In command_name ["note-list"; "opp-list"]
      /\ exists digits,
           (max_str_digits < digits)%N
           /\ _parse_command_match command_name (groups_tuple g) s
              = Raise (ValueError (int_limit_message digits))).
Proof.
  intros Hin Hm. apply re_match_sound in Hm. destruct Hm as (w & s' & _ & M).
  pick_rule Hin;
    cbv [Cat Str hy ws rest rest0 token quoted query word digits ngroups Nat.max repeat] in M;
    inv_matches; solve_extract.
Qed.

Lemma chat_body_cases input :
  (exists d, parse_chat_input_body __init__ input = Ok d)
  \/ (exists name g digits,
        first_match (command_patterns __init__) (strip input) = Some (name, g)
        /\ In name ["note-list"; "opp-list"]
        /\ (max_str_digits < digits)%N
        /\ parse_chat_input_body __init__ input
           = Raise (ValueError (int_limit_message digits))).
Proof.
  unfold parse_chat_input_body.
  destruct (startswith "/" (strip input)) eqn:Hs; cbn [negb]; [ | eauto ].
  destruct (first_match (command_patterns __init__) (strip input)) as [[name g] | ] eqn:Hf.
  - apply first_match_some in Hf. destruct Hf as (pat & Hin & Hm).
    destruct (chat_extract_cases name pat (strip input) g Hin Hm)
      as [[res ->] | (Hname & digits & Hd & ->)].
    + left. simpl. eauto.
    + right. exists name, g, digits. auto.
  - destruct (split_first _ Hs) as (command & toks & ->). simpl.
    destruct (chat_suggest_total command) as [r ->]. simpl. eauto.
Qed.

Lemma need_to_is_actionable text :
  contains "need to" text = true -> NoteSpec.actionable text = true.
Proof.
  intros H. apply contains_lower in H.
  unfold NoteSpec.actionable, NoteSpec.action_keywords. simpl existsb.
  change (lower "need to") with "need to" in H. rewrite H.
  rewrite orb_true_r. reflexivity.
Qed.

End ChatFacts.

(** ** The claims *)

Import Py PyFacts Re ReFacts Pat PatFacts DictFacts.

(** C1, as the code has it.  The dispatch loop returns at the first rule of
    the registry that matches: when the rules matching the stripped input
    are [name :: others], both parsers run the extractor of [name] on its
    groups, and a returned result reports [name] alone, whatever [others]
    holds. *)
Theorem parse_returns_first_matching_rule :
  (forall (self : WorkflowCommandServer.t) input name others,
      startswith "/" (strip input) = true ->
      all_matches (WorkflowCommandServer.command_patterns self) (strip input)
      = name :: others ->
      exists g,
        first_match (WorkflowCommandServer.command_patterns self) (strip input)
        = Some (name, g)
        /\ WorkflowCommandServer.parse_workflow_command_body self input
           = (parsed_command <-
                WorkflowCommandServer._parse_workflow_match name (groups_tuple g)
                  (strip input) ;;
              Ok (set parsed_command "original_input" (VStr (strip input))))
        /\ forall d,
             WorkflowCommandServer.parse_workflow_command_body self input = Ok d ->
             reported_rules d = [name])
  /\ (forall (self : ChatCommandServer.t) input name others,
        startswith "/" (strip input) = true ->
        all_matches (ChatCommandServer.command_patterns self) (strip input)
        = name :: others ->
        exists g,
          first_match (ChatCommandServer.command_patterns self) (strip input)
          = Some (name, g)
          /\ ChatCommandServer.parse_chat_input_body self input
             = (parsed_command <-
                  ChatCommandServer._parse_command_match name (groups_tuple g)
                    (strip input) ;;
                Ok (set parsed_command "original_input" (VStr (strip input))))
          /\ forall d,
               ChatCommandServer.parse_chat_input_body self input = Ok d ->
               reported_rules d = [name]).
Proof.
  split; intros self input name others Hs Hall.
  - pose proof (first_match_head (WorkflowCommandServer.command_patterns self)
                  (strip input)) as Hf.
    rewrite Hall in Hf. destruct Hf as [g Hf]. exists g.
    split; [ exact Hf | ].
    unfold WorkflowCommandServer.parse_workflow_command_body. rewrite Hs, Hf. cbn [negb].
    split; [ reflexivity | ].
    intros d.
    destruct (WorkflowCommandServer._parse_workflow_match name (groups_tuple g)
                (strip input)) as [res | e] eqn:Hp; simpl; [ | discriminate ].
    intros H. inversion H; subst d. unfold reported_rules.
    rewrite get_set_other by reflexivity.
    destruct (WorkflowFacts.workflow_match_keeps _ _ _ _ Hp) as [-> _]. reflexivity.
  - pose proof (first_match_head (ChatCommandServer.command_patterns self)
                  (strip input)) as Hf.
    rewrite Hall in Hf. destruct Hf as [g Hf]. exists g.
    split; [ exact Hf | ].
    unfold ChatCommandServer.parse_chat_input_body. rewrite Hs, Hf. cbn [negb].
    split; [ reflexivity | ].
    intros d.
    destruct (ChatCommandServer._parse_command_match name (groups_tuple g)
                (strip input)) as [res | e] eqn:Hp; simpl; [ | discriminate ].
    intros H. inversion H; subst d. unfold reported_rules.
    rewrite get_set_other by reflexivity.
    rewrite (ChatFacts.chat_match_keeps _ _ _ _ Hp). reflexivity.
Qed.

(** The first-match theorem at a registry with two rules that match the
    connect command. *)
Lemma parse_returns_first_matching_rule_witness :
  exists g,
    first_match (WorkflowCommandServer.command_patterns Permissive.workflow)
      (strip ("/connect " ++ dq "A" ++ " " ++ dq "B"))
    = Some ("flowline-create", g)
    /\ WorkflowCommandServer.parse_workflow_command_body Permissive.workflow
         ("/connect " ++ dq "A" ++ " " ++ dq "B")
       = (parsed_command <-
            WorkflowCommandServer._parse_workflow_match "flowline-create" (groups_tuple g)
              (strip ("/connect " ++ dq "A" ++ " " ++ dq "B")) ;;
          Ok (set parsed_command "original_input"
                (VStr (strip ("/connect " ++ dq "A" ++ " " ++ dq "B")))))
    /\ forall d,
         WorkflowCommandServer.parse_workflow_command_body Permissive.workflow
           ("/connect " ++ dq "A" ++ " " ++ dq "B") = Ok d ->
         reported_rules d = ["flowline-create"].
Proof.
  apply (proj1 parse_returns_first_matching_rule Permissive.workflow
           ("/connect " ++ dq "A" ++ " " ++ dq "B") "flowline-create" ["catch-all"]);
    vm_compute; reflexivity.
Defined.

(** C1 as stated fails: with a permissive rule in the registry two rules
    match the command, and the result of either parser is the single-match
    result of the first one; the second rule appears nowhere in it. *)
Lemma ambiguity_not_reported_counterexample :
  all_matches (WorkflowCommandServer.command_patterns Permissive.workflow)
    ("/connect " ++ dq "A" ++ " " ++ dq "B")
  = ["flowline-create"; "catch-all"]
  /\ WorkflowCommandServer.parse_workflow_command Permissive.workflow
       ("/connect " ++ dq "A" ++ " " ++ dq "B")
     = [("is_workflow_command", VBool true);
        ("command_type", VStr "flowline-create");
        ("parameters",
         VDict [("source", VStr "A"); ("target", VStr "B"); ("type", VStr "sequence")]);
        ("raw_params", VTuple [VStr "A"; VStr "B"; VNone]);
        ("action", VStr "create_flowline");
        ("original_input", VStr ("/connect " ++ dq "A" ++ " " ++ dq "B"))]
  /\ reported_rules
       (WorkflowCommandServer.parse_workflow_command Permissive.workflow
          ("/connect " ++ dq "A" ++ " " ++ dq "B"))
     = ["flowline-create"]
  /\ all_matches (ChatCommandServer.command_patterns Permissive.chat) "/note-create buy milk"
     = ["note-create"; "catch-all"]
  /\ reported_rules (ChatCommandServer.parse_chat_input Permissive.chat "/note-create buy milk")
     = ["note-create"].
Proof. repeat split; vm_compute; reflexivity. Qed.

(** C2.  Neither parser lets an exception escape.  The body of the
    workflow parser returns a dictionary on every input.  The body of the
    chat parser returns one on every input but those resolved to
    [note-list] or [opp-list] whose filter text has more digits after
    [limit:] than [int] converts; there the [ValueError] of [int] is turned
    by the [except] clause into the [error] result with
    [should_process_with_llm] true, as for a limit of 4301 digits.  An input
    that starts with the prefix and matches no chat rule gives the
    [unknown_command] result, whose suggestion is [None] for the bare prefix;
    and for any server, an exception raised in the body is turned by the
    [except] clause into the [error] result. *)
Theorem parse_never_raises :
  (forall input,
      (exists d,
          ChatCommandServer.parse_chat_input_body ChatCommandServer.__init__ input = Ok d
          /\ ChatCommandServer.parse_chat_input ChatCommandServer.__init__ input = d)
      \/ (exists name g digits,
            first_match (ChatCommandServer.command_patterns ChatCommandServer.__init__)
              (strip input) = Some (name, g)
            /\ In name ["note-list"; "opp-list"]
            /\ (max_str_digits < digits)%N
            /\ ChatCommandServer.parse_chat_input_body ChatCommandServer.__init__ input
               = Raise (ValueError (int_limit_message digits))
            /\ ChatCommandServer.parse_chat_input ChatCommandServer.__init__ input
               = [("is_command", VBool false);
                  ("type", VStr "error");
                  ("error", VStr (int_limit_message digits));
                  ("should_process_with_llm", VBool true)]))
  /\ (forall input,
        exists d,
          WorkflowCommandServer.parse_workflow_command_body WorkflowCommandServer.__init__
            input = Ok d
          /\ WorkflowCommandServer.parse_workflow_command WorkflowCommandServer.__init__ input
             = d)
  /\ (forall input,
        startswith "/" (strip input) = true ->
        first_match (ChatCommandServer.command_patterns ChatCommandServer.__init__)
          (strip input) = None ->
        exists command toks suggestion,
          split (strip input) = command :: toks
          /\ ChatCommandServer.parse_chat_input ChatCommandServer.__init__ input
             = [("is_command", VBool true);
                ("type", VStr "unknown_command");
                ("command", VStr command);
                ("error", VStr ("Unknown command: " ++ command));
                ("suggestion", Suggest.suggestion_value suggestion);
                ("should_process_with_llm", VBool false)])
  /\ ChatCommandServer.parse_chat_input ChatCommandServer.__init__ "/"
     = [("is_command", VBool true);
        ("type", VStr "unknown_command");
        ("command", VStr "/");
        ("error", VStr "Unknown command: /");
        ("suggestion", VNone);
        ("should_process_with_llm", VBool false)]
  /\ ChatCommandServer.parse_chat_input ChatCommandServer.__init__
       ("/note-list limit:" ++ copies 4301 "1")
     = [("is_command", VBool false);
        ("type", VStr "error");
        ("error",
         VStr ("Exceeds the limit (4300 digits) for integer string conversion: "
               ++ "value has 4301 digits; "
               ++ "use sys.set_int_max_str_digits() to increase the limit"));
        ("should_process_with_llm", VBool true)]
  /\ (forall (self : ChatCommandServer.t) input e,
        ChatCommandServer.parse_chat_input_body self input = Raise e ->
        ChatCommandServer.parse_chat_input self input
        = [("is_command", VBool false);
           ("type", VStr "error");
           ("error", VStr (exn_str e));
           ("should_process_with_llm", VBool true)])
  /\ (forall (self : WorkflowCommandServer.t) input e,
        WorkflowCommandServer.parse_workflow_command_body self input = Raise e ->
        WorkflowCommandServer.parse_workflow_command self input
        = [("is_workflow_command", VBool false);
           ("type", VStr "error");
           ("error", VStr (exn_str e));
           ("should_process_with_llm", VBool true)]).
Proof.
  split; [ | split; [ | split; [ | split; [ | split; [ | split ] ] ] ] ].
  - intros input.
    destruct (ChatFacts.chat_body_cases input)
      as [[d Hd] | (name & g & digits & Hf & Hname & Hdigits & Hd)].
    + left. exists d. split; [ exact Hd | ].
      unfold ChatCommandServer.parse_chat_input. rewrite Hd. reflexivity.
    + right. exists name, g, digits. repeat (split; [ assumption | ]).
      unfold ChatCommandServer.parse_chat_input. rewrite Hd. reflexivity.
  - intros input. destruct (WorkflowFacts.workflow_body_total input) as [d Hd]. exists d.
    split; [ exact Hd | ]. unfold WorkflowCommandServer.parse_workflow_command.
    rewrite Hd. reflexivity.
  - intros input Hs Hnone.
    destruct (split_first _ Hs) as (command & toks & Hsplit).
    destruct (SuggestFacts.chat_suggest_total command) as [suggestion Hsug].
    exists command, toks, suggestion. split; [ exact Hsplit | ].
    unfold ChatCommandServer.parse_chat_input, ChatCommandServer.parse_chat_input_body.
    rewrite Hs, Hnone, Hsplit. cbn [negb first bind]. rewrite Hsug. reflexivity.
  - vm_compute. reflexivity.
  - vm_compute. reflexivity.
  - intros self input e H. unfold ChatCommandServer.parse_chat_input. rewrite H. reflexivity.
  - intros self input e H. unfold WorkflowCommandServer.parse_workflow_command.
    rewrite H. reflexivity.
Qed.

(** The [except] clause at work: with the bare prefix in the vocabulary the
    similarity score divides by zero, and both parsers return the [error]
    result. *)
Lemma parse_never_raises_witness :
  ChatCommandServer.parse_chat_input BareVocabulary.chat "/"
  = [("is_command", VBool false);
     ("type", VStr "error");
     ("error", VStr "division by zero");
     ("should_process_with_llm", VBool true)]
  /\ WorkflowCommandServer.parse_workflow_command BareVocabulary.workflow "/ node"
     = [("is_workflow_command", VBool false);
        ("type", VStr "error");
        ("error", VStr "division by zero");
        ("should_process_with_llm", VBool true)].
Proof.
  destruct parse_never_raises as (_ & _ & _ & _ & _ & Hchat & Hworkflow).
  split.
  - apply (Hchat BareVocabulary.chat "/" (ZeroDivisionError "division by zero")).
    vm_compute. reflexivity.
  - apply (Hworkflow BareVocabulary.workflow "/ node" (ZeroDivisionError "division by zero")).
    vm_compute. reflexivity.
Defined.

(** C3, as the code has it.  The score of a candidate is the number of
    distinct characters it shares with the unknown token over the larger of
    the two lengths, both in lower case without leading slashes, the
    candidate being the whole key of [command_descriptions], usage text
    included.  On a vocabulary without an empty candidate the loop returns;
    what it returns is the first candidate of the highest score among those
    strictly above 0.3, or [None].  For the token nod-create the one-entry
    vocabulary of /node-create gives that command; in the vocabulary of the
    workflow server the node-create entry scores 9/31, below 0.3, and the
    suggestion is /select-none. *)
Theorem suggest_similar_selects_first_best
  (vocabulary : list string) (unknown_command : string) :
  (Forall (fun cmd => is_empty (Suggest.clean cmd) = false) vocabulary ->
   exists r, Suggest.suggest_similar vocabulary unknown_command = Ok r)
  /\ (forall r,
        Suggest.suggest_similar vocabulary unknown_command = Ok r ->
        SuggestSpec.selected (lstrip "/" (lower unknown_command)) vocabulary r)
  /\ (forall unknown cmd,
        Suggest.similarity unknown cmd
        = (Suggest.float_of_nat (common_chars unknown (lstrip "/" (lower cmd)))
           / Suggest.float_of_nat (Nat.max (len unknown) (len (lstrip "/" (lower cmd)))))%float)
  /\ Suggest.suggest_similar ["/node-create"] "nod-create" = Ok (Some "/node-create")
  /\ Suggest.similarity "nod-create" "/node-create <type> [name] [x,y]"
     = (Suggest.float_of_nat 9 / Suggest.float_of_nat 31)%float
  /\ (Suggest.similarity "nod-create" "/node-create <type> [name] [x,y]" <? 0.3)%float = true
  /\ WorkflowCommandServer._suggest_similar_workflow_command
       WorkflowCommandServer.__init__ "nod-create" = Ok (Some "/select-none").
Proof.
  split; [ | split; [ | split ] ].
  - intros H. apply SuggestFacts.scan_total. exact H.
  - intros r H.
    apply (SuggestFacts.scan_selected _ vocabulary [] None 0%float r); [ | exact H ].
    split; [ | reflexivity ]. intros c [].
  - reflexivity.
  - repeat split; vm_compute; reflexivity.
Qed.

(** The selection theorem at the vocabulary of the workflow server. *)
Lemma suggest_similar_selects_first_best_witness :
  SuggestSpec.selected "nod-create"
    (WorkflowCommandServer.vocabulary WorkflowCommandServer.__init__) (Some "/select-none").
Proof.
  apply (proj1 (proj2 (suggest_similar_selects_first_best
                         (WorkflowCommandServer.vocabulary WorkflowCommandServer.__init__)
                         "nod-create"))).
  vm_compute. reflexivity.
Defined.

(** C3 as stated fails on its example: the vocabulary of each server holds
    the node-create command, and the suggestion for nod-create is
    /select-none; a vocabulary that holds /node-create itself after a
    candidate of the same score returns that earlier candidate. *)
Lemma nod_create_suggestion_counterexample :
  existsb (String.eqb "/node-create <type> [name] [x,y]")
    (WorkflowCommandServer.vocabulary WorkflowCommandServer.__init__) = true
  /\ WorkflowCommandServer._suggest_similar_workflow_command
       WorkflowCommandServer.__init__ "nod-create" = Ok (Some "/select-none")
  /\ ChatCommandServer._suggest_similar_command ChatCommandServer.__init__ "nod-create"
     = Ok (Some "/select-none")
  /\ Suggest.suggest_similar ["/create-node"; "/node-create"] "nod-create"
     = Ok (Some "/create-node").
Proof. repeat split; vm_compute; reflexivity. Qed.

(** *** Claims about the workflow server *)

Module WorkflowClaims.
Import WorkflowCommandServer WorkflowFacts.

(** C4, at the code.  For command data of type [workflow-clear] whose
    [confirmed] parameter is not set, the validator returns [valid] true and
    the warning, and an empty list of suggestions: the string
    [Use: /workflow-clear yes] it appended is replaced when the result is
    valid. *)
Theorem workflow_clear_suggestion_overwritten (command_data parameters : dict) :
  truthy (get command_data "is_workflow_command") = true ->
  get command_data "command_type" = VStr "workflow-clear" ->
  lookup "parameters" command_data = Some (VDict parameters) ->
  truthy (get parameters "confirmed") = false ->
  validate_workflow_command __init__ command_data
  = [("valid", VBool true);
     ("errors", VList []);
     ("warnings", VList [VStr "Destructive operation. Add 'yes' or 'confirm' to proceed"]);
     ("suggestions", VList [])].
Proof.
  intros Hw Hc Hp Hconf. enter_validator Hw Hp Hc. rewrite Hconf. reflexivity.
Qed.

(** The validator on the parse of [/workflow-clear]. *)
Lemma workflow_clear_suggestion_overwritten_witness :
  validate_workflow_command __init__ (parse_workflow_command __init__ "/workflow-clear")
  = [("valid", VBool true);
     ("errors", VList []);
     ("warnings", VList [VStr "Destructive operation. Add 'yes' or 'confirm' to proceed"]);
     ("suggestions", VList [])].
Proof.
  apply (workflow_clear_suggestion_overwritten
           (parse_workflow_command __init__ "/workflow-clear")
           [("confirmed", VBool false)]); vm_compute; reflexivity.
Defined.

(** C5.  Parsing [/node-create process] gives the type [process], no name
    and no coordinates; a connect command without a type gives the type
    [sequence] and a task-create command without a priority gives the
    priority [normal]; in general, whenever an input parses as
    flowline-create (task-create) and the third capture group took no part
    in the match, the type is [sequence] (the priority is [normal]). *)
Theorem absent_captures_get_defaults :
  get (parse_workflow_command __init__ "/node-create process") "parameters"
  = VDict [("type", VStr "process"); ("name", VNone); ("x", VNone); ("y", VNone)]
  /\ get (parse_workflow_command __init__ ("/connect " ++ dq "A" ++ " " ++ dq "B")) "parameters"
     = VDict [("source", VStr "A"); ("target", VStr "B"); ("type", VStr "sequence")]
  /\ get (parse_workflow_command __init__ ("/task-create " ++ dq "Review")) "parameters"
     = VDict [("name", VStr "Review"); ("node", VNone); ("priority", VStr "normal")]
  /\ (forall input source target,
        get (parse_workflow_command __init__ input) "command_type" = VStr "flowline-create" ->
        get (parse_workflow_command __init__ input) "raw_params"
        = VTuple [source; target; VNone] ->
        get (parse_workflow_command __init__ input) "parameters"
        = VDict [("source", source); ("target", target); ("type", VStr "sequence")])
  /\ (forall input name node,
        get (parse_workflow_command __init__ input) "command_type" = VStr "task-create" ->
        get (parse_workflow_command __init__ input) "raw_params"
        = VTuple [name; node; VNone] ->
        get (parse_workflow_command __init__ input) "parameters"
        = VDict [("name", name); ("node", or_else node VNone); ("priority", VStr "normal")]).
Proof.
  split; [ vm_compute; reflexivity | ].
  split; [ vm_compute; reflexivity | ].
  split; [ vm_compute; reflexivity | ].
  split.
  - intros input source target Hc Hr.
    apply parse_workflow_command_inv in Hc. destruct Hc as (g & res & _ & Hp & E).
    rewrite E in *. rewrite get_set_other in * by reflexivity.
    destruct (workflow_match_keeps _ _ _ _ Hp) as [_ Hraw].
    rewrite Hraw in Hr. inversion Hr as [Hg]. rewrite Hg in Hp.
    simpl in Hp. inversion Hp. reflexivity.
  - intros input name node Hc Hr.
    apply parse_workflow_command_inv in Hc. destruct Hc as (g & res & _ & Hp & E).
    rewrite E in *. rewrite get_set_other in * by reflexivity.
    destruct (workflow_match_keeps _ _ _ _ Hp) as [_ Hraw].
    rewrite Hraw in Hr. inversion Hr as [Hg]. rewrite Hg in Hp.
    simpl in Hp. inversion Hp. reflexivity.
Qed.

(** The default-filling theorem at the aliases of the two commands. *)
Lemma absent_captures_get_defaults_witness :
  get (parse_workflow_command __init__ ("/flowline-create " ++ dq "Start" ++ " " ++ dq "End"))
    "parameters"
  = VDict [("source", VStr "Start"); ("target", VStr "End"); ("type", VStr "sequence")]
  /\ get (parse_workflow_command __init__ ("/add-task " ++ dq "Review" ++ " " ++ dq "Start"))
       "parameters"
     = VDict [("name", VStr "Review"); ("node", or_else (VStr "Start") VNone);
              ("priority", VStr "normal")].
Proof.
  destruct absent_captures_get_defaults as (_ & _ & _ & Hflow & Htask).
  split.
  - apply Hflow; vm_compute; reflexivity.
  - apply Htask; vm_compute; reflexivity.
Defined.

(** C7, as the code has it.  Validating the parse of
    [/task-priority task1 extreme] gives [valid] false and one error that
    lists low, normal, high, urgent.  The validator checks four fields
    against their allowed sets: the priority of task-priority, the quadrant
    of matrix-move, the type of flowline-create and the type of node-create;
    for each of them a non-empty value outside the set gives [valid] false,
    the error that lists the set, and no warning. *)
Theorem enumerated_values_are_errors :
  validate_workflow_command __init__
    (parse_workflow_command __init__ "/task-priority task1 extreme")
  = [("valid", VBool false);
     ("errors",
      VList [VStr "Invalid priority 'extreme'. Valid priorities: low, normal, high, urgent"]);
     ("warnings", VList []); ("suggestions", VList [])]
  /\ forall (command_data parameters : dict) (v : string),
       truthy (get command_data "is_workflow_command") = true ->
       lookup "parameters" command_data = Some (VDict parameters) ->
       v <> EmptyString ->
       (get command_data "command_type" = VStr "task-priority" ->
        lookup "priority" parameters = Some (VStr v) ->
        ~ In v ["low"; "normal"; "high"; "urgent"] ->
        validate_workflow_command __init__ command_data
        = [("valid", VBool false);
           ("errors",
            VList [VStr ("Invalid priority '" ++ v
                         ++ "'. Valid priorities: low, normal, high, urgent")]);
           ("warnings", VList []); ("suggestions", VList [])])
       /\ (get command_data "command_type" = VStr "matrix-move" ->
           lookup "quadrant" parameters = Some (VStr v) ->
           ~ In v ["urgent-important"; "urgent-not-important";
                   "not-urgent-important"; "not-urgent-not-important"] ->
           validate_workflow_command __init__ command_data
           = [("valid", VBool false);
              ("errors",
               VList [VStr ("Invalid matrix quadrant '" ++ v
                            ++ "'. Valid quadrants: urgent-important, urgent-not-important, not-urgent-important, not-urgent-not-important")]);
              ("warnings", VList []); ("suggestions", VList [])])
       /\ (get command_data "command_type" = VStr "flowline-create" ->
           lookup "type" parameters = Some (VStr v) ->
           ~ In v ["sequence"; "conditional"; "error"; "parallel"] ->
           validate_workflow_command __init__ command_data
           = [("valid", VBool false);
              ("errors",
               VList [VStr ("Invalid flowline type '" ++ v
                            ++ "'. Valid types: sequence, conditional, error, parallel")]);
              ("warnings", VList []); ("suggestions", VList [])])
       /\ (get command_data "command_type" = VStr "node-create" ->
           lookup "type" parameters = Some (VStr v) ->
           ~ In v ["process"; "decision"; "terminal"; "start"] ->
           get (validate_workflow_command __init__ command_data) "valid" = VBool false
           /\ (get parameters "x" = VNone ->
               validate_workflow_command __init__ command_data
               = [("valid", VBool false);
                  ("errors",
                   VList [VStr ("Invalid node type '" ++ v
                                ++ "'. Valid types: process, decision, terminal, start")]);
                  ("warnings", VList []); ("suggestions", VList [])])).
Proof.
  split; [ vm_compute; reflexivity | ].
  intros command_data parameters v Hw Hp Hv.
  split; [ | split; [ | split ] ]; intros Hc Hl Hin.
  - enter_validator Hw Hp Hc. unfold get. rewrite Hl.
    rewrite (check_enum_invalid true v "task_priorities" "priority" "priorities" _ eq_refl Hv Hin).
    reflexivity.
  - enter_validator Hw Hp Hc. unfold get. rewrite Hl.
    rewrite (check_enum_invalid true v "matrix_quadrants" "matrix quadrant" "quadrants"
               _ eq_refl Hv Hin).
    reflexivity.
  - enter_validator Hw Hp Hc. rewrite Hl.
    change [("valid", VBool true); ("errors", VList []);
            ("warnings", VList []); ("suggestions", VList [])] with fresh_result.
    rewrite (check_enum_invalid false v "flowline_types" "flowline type" "types"
               _ eq_refl Hv Hin).
    reflexivity.
  - assert (Ht : get parameters "type" = VStr v) by (unfold get; rewrite Hl; reflexivity).
    split; [ | intros Hx ]; enter_validator Hw Hp Hc; rewrite Ht;
      rewrite (check_enum_invalid true v "node_types" "node type" "types" _ eq_refl Hv Hin);
      simpl.
    + destruct (negb (is_none (get parameters "x")) && negb (is_none (get parameters "y")));
        [ | reflexivity ].
      destruct (py_int (get parameters "x")) as [ix | e]; simpl; [ | reflexivity ].
      destruct ((0 <=? ix)%Z && (ix <=? 2000)%Z); simpl.
      * destruct (py_int (get parameters "y")) as [iy | e]; simpl; [ | reflexivity ].
        destruct (negb ((0 <=? iy)%Z && (iy <=? 2000)%Z)); reflexivity.
      * reflexivity.
    + rewrite Hx. reflexivity.
Qed.

(** The validation theorem at the parse of a matrix-move command whose
    quadrant is outside the allowed set. *)
Lemma enumerated_values_are_errors_witness :
  validate_workflow_command __init__
    (parse_workflow_command __init__ "/matrix-move task1 top-left")
  = [("valid", VBool false);
     ("errors",
      VList [VStr ("Invalid matrix quadrant '" ++ "top-left"
                   ++ "'. Valid quadrants: urgent-important, urgent-not-important, not-urgent-important, not-urgent-not-important")]);
     ("warnings", VList []); ("suggestions", VList [])].
Proof.
  refine (proj1 (proj2 (proj2 enumerated_values_are_errors
                          (parse_workflow_command __init__ "/matrix-move task1 top-left")
                          [("task", VStr "task1"); ("quadrant", VStr "top-left")]
                          "top-left" _ _ _)) _ _ _);
    try (vm_compute; reflexivity); try discriminate.
  simpl. intuition discriminate.
Defined.

(** C7 as stated fails for the enumerated parameters of the commands the
    validator has no check for: the priority of task-create and the level
    of view-zoom may lie outside [task_priorities] and [view_zoom], and
    validation gives [valid] true without any error. *)
Lemma unchecked_enumerated_value_counterexample :
  get (parse_workflow_command __init__
         ("/task-create " ++ dq "Review" ++ " " ++ dq "Start" ++ " extreme")) "parameters"
  = VDict [("name", VStr "Review"); ("node", VStr "Start"); ("priority", VStr "extreme")]
  /\ values_of (valid_values __init__) "task_priorities"
     = Ok ["low"; "normal"; "high"; "urgent"]
  /\ validate_workflow_command __init__
       (parse_workflow_command __init__
          ("/task-create " ++ dq "Review" ++ " " ++ dq "Start" ++ " extreme"))
     = [("valid", VBool true); ("errors", VList []);
        ("warnings", VList []); ("suggestions", VList [])]
  /\ get (parse_workflow_command __init__ "/view-zoom sideways") "parameters"
     = VDict [("level", VStr "sideways")]
  /\ values_of (valid_values __init__) "view_zoom" = Ok ["in"; "out"; "fit"; "reset"]
  /\ validate_workflow_command __init__ (parse_workflow_command __init__ "/view-zoom sideways")
     = [("valid", VBool true); ("errors", VList []);
        ("warnings", VList []); ("suggestions", VList [])].
Proof. repeat split; vm_compute; reflexivity. Qed.

(** C9.  For an input that starts with the prefix and, once stripped,
    matches no rule of the workflow registry: when the lower-cased input
    contains one of the fourteen keywords node, task, flow, tag, workflow,
    matrix, select, view, create, delete, move, connect, save and load, the
    result is the
    [unknown_workflow_command] dictionary, with the first token as the
    command, the error message and the suggestion; when it contains none the
    result is the [non_workflow_command] dictionary; and the first case
    holds only with a keyword. *)
Theorem unknown_workflow_command_iff_keyword (input : string) :
  startswith "/" input = true ->
  first_match (command_patterns __init__) (strip input) = None ->
  (existsb (fun keyword => contains keyword (lower input)) fixed_keywords = true ->
   exists command toks suggestion,
     split (strip input) = command :: toks
     /\ _suggest_similar_workflow_command __init__ command = Ok suggestion
     /\ parse_workflow_command __init__ input
        = [("is_workflow_command", VBool true);
           ("type", VStr "unknown_workflow_command");
           ("command", VStr command);
           ("error", VStr ("Unknown workflow command: " ++ command));
           ("suggestion", Suggest.suggestion_value suggestion);
           ("should_process_with_llm", VBool false)])
  /\ (existsb (fun keyword => contains keyword (lower input)) fixed_keywords = false ->
      parse_workflow_command __init__ input
      = [("is_workflow_command", VBool false);
         ("type", VStr "non_workflow_command");
         ("should_process_with_llm", VBool false)])
  /\ (get (parse_workflow_command __init__ input) "type" = VStr "unknown_workflow_command"
      <-> existsb (fun keyword => contains keyword (lower input)) fixed_keywords = true).
Proof.
  intros Hslash Hnone.
  change fixed_keywords with workflow_keywords.
  pose proof (strip_startswith _ Hslash) as Hs.
  destruct (split_first _ Hs) as (command & toks & Hsplit).
  destruct (SuggestFacts.workflow_suggest_total command) as (suggestion & Hsug).
  assert (Hyes :
    existsb (fun keyword => contains keyword (lower input)) workflow_keywords = true ->
    parse_workflow_command __init__ input
    = [("is_workflow_command", VBool true);
       ("type", VStr "unknown_workflow_command");
       ("command", VStr command);
       ("error", VStr ("Unknown workflow command: " ++ command));
       ("suggestion", Suggest.suggestion_value suggestion);
       ("should_process_with_llm", VBool false)]).
  { intros Hk. unfold parse_workflow_command, parse_workflow_command_body.
    rewrite Hs, Hnone, keyword_test_strip, Hk, Hsplit. simpl. rewrite Hsug. reflexivity. }
  assert (Hno :
    existsb (fun keyword => contains keyword (lower input)) workflow_keywords = false ->
    parse_workflow_command __init__ input
    = [("is_workflow_command", VBool false);
       ("type", VStr "non_workflow_command");
       ("should_process_with_llm", VBool false)]).
  { intros Hk. unfold parse_workflow_command, parse_workflow_command_body.
    rewrite Hs, Hnone, keyword_test_strip, Hk. reflexivity. }
  split; [ | split ].
  - intros Hk. exists command, toks, suggestion. auto.
  - exact Hno.
  - destruct (existsb _ workflow_keywords) eqn:Hk.
    + rewrite Hyes by reflexivity. split; reflexivity.
    + rewrite Hno by reflexivity. split; discriminate.
Qed.

(** The theorem at an input with the first keyword, at an input with the
    last one and at an input without any. *)
Lemma unknown_workflow_command_iff_keyword_witness :
  get (parse_workflow_command __init__ "/nod-create process") "type"
  = VStr "unknown_workflow_command"
  /\ get (parse_workflow_command __init__ "/reload") "type"
     = VStr "unknown_workflow_command"
  /\ parse_workflow_command __init__ "/foo bar"
     = [("is_workflow_command", VBool false);
        ("type", VStr "non_workflow_command");
        ("should_process_with_llm", VBool false)].
Proof.
  split; [ | split ].
  - apply (unknown_workflow_command_iff_keyword "/nod-create process");
      vm_compute; reflexivity.
  - apply (unknown_workflow_command_iff_keyword "/reload"); vm_compute; reflexivity.
  - apply (unknown_workflow_command_iff_keyword "/foo bar"); vm_compute; reflexivity.
Defined.

(** C10.  Whenever an input parses as a matrix-move command, the quadrant
    parameter is a non-empty run of word characters, one hyphen or
    underscore, and a non-empty run of word characters; hence it is neither
    [not-urgent-important] nor [not-urgent-not-important], two members of
    the allowed set of the validator. *)
Theorem matrix_move_quadrant_shape (input : string) :
  get (parse_workflow_command __init__ input) "command_type" = VStr "matrix-move" ->
  exists task a sep b,
    get (parse_workflow_command __init__ input) "parameters"
      = VDict [("task", VStr task); ("quadrant", VStr (a ++ String sep b))]
    /\ is_empty a = false /\ all isword a = true
    /\ is_empty b = false /\ all isword b = true
    /\ (sep = "-"%char \/ sep = "_"%char)
    /\ a ++ String sep b <> "not-urgent-important"
    /\ a ++ String sep b <> "not-urgent-not-important"
    /\ exists allowed,
         values_of (valid_values __init__) "matrix_quadrants" = Ok allowed
         /\ In "not-urgent-important" allowed
         /\ In "not-urgent-not-important" allowed.
Proof.
  intros H. apply parse_workflow_command_inv in H.
  destruct H as (g & res & Hf & Hp & ->).
  apply first_match_some in Hf. destruct Hf as (pat & Hin & Hm).
  apply matrix_move_rule in Hin. subst pat.
  apply matrix_move_groups in Hm.
  destruct Hm as (task & a & sep & b & -> & Ha & Hb & Wa & Wb & Hsep).
  simpl in Hp. inversion Hp; subst res; clear Hp.
  exists task, a, sep, b.
  pose proof (quadrant_hyphens a sep b Wa Wb) as Hc.
  split; [ reflexivity | ].
  repeat (split; [ solve [ auto using separator_cases ] | ]).
  split; [ intros E; rewrite E in Hc; vm_compute in Hc; lia | ].
  split; [ intros E; rewrite E in Hc; vm_compute in Hc; lia | ].
  eexists. split; [ reflexivity | ]. simpl. tauto.
Qed.

(** The theorem at a matrix-move command. *)
Lemma matrix_move_quadrant_shape_witness :
  exists task a sep b,
    get (parse_workflow_command __init__ "/matrix-move task1 urgent-important") "parameters"
      = VDict [("task", VStr task); ("quadrant", VStr (a ++ String sep b))]
    /\ is_empty a = false /\ all isword a = true
    /\ is_empty b = false /\ all isword b = true
    /\ (sep = "-"%char \/ sep = "_"%char)
    /\ a ++ String sep b <> "not-urgent-important"
    /\ a ++ String sep b <> "not-urgent-not-important"
    /\ exists allowed,
         values_of (valid_values __init__) "matrix_quadrants" = Ok allowed
         /\ In "not-urgent-important" allowed
         /\ In "not-urgent-not-important" allowed.
Proof.
  apply (matrix_move_quadrant_shape "/matrix-move task1 urgent-important").
  vm_compute. reflexivity.
Defined.

End WorkflowClaims.

(** *** Claims about the chat server *)

Module ChatClaims.
Import ChatCommandServer Scan FilterFacts ChatFacts NoteSpec.





(** C8.  When the topics of the context are a list, the assessment returns;
    its score is the capped sum, in tenths, of 3 for a text longer than 50
    characters, 4 for an action keyword (todo, need to, should, must,
    action, task), 2 for extracted entities, 3 for the topic deadline and 3
    for a decision keyword (decided, agreed, concluded, result), up to the
    rounding of the additions; it is at most 1.0; the reasons name the
    increments that were made, in that order; the text is worthy exactly
    when the sum exceeds 5 tenths, which is when the score exceeds 0.5; a
    text of 60 characters that contains [need to] has a score of at least
    0.7 and is worthy; and a text with a decision keyword, in any case, has a
    score of at least 0.3 with the reason [contains_decisions]. *)
Theorem note_worthiness_is_capped_sum (text : string) (context : dict) (topics : list value) :
  get_default context "topics" (VList []) = VList topics ->
  exists r,
    _assess_note_worthiness text context = Ok r
    /\ is_tenths (score r) (Nat.min (tenths text context topics) 10) = true
    /\ (score r <=? 1.0)%float = true
    /\ worthy r = Nat.ltb 5 (tenths text context topics)
    /\ worthy r = (0.5 <? score r)%float
    /\ reasons r = labels text context topics
    /\ (len text = 60 -> contains "need to" text = true ->
        (0.7 <=? score r)%float = true /\ worthy r = true)
    /\ (forall keyword,
          In keyword ["decided"; "agreed"; "concluded"; "result"] ->
          contains keyword (lower text) = true ->
          (0.3 <=? score r)%float = true /\ In "contains_decisions" (reasons r)).
Proof.
  intros Ht.
  assert (Hlong : len text = 60 -> long text = true)
    by (intros E; unfold long; rewrite E; reflexivity).
  pose proof (need_to_is_actionable text) as Hact.
  assert (Hdec : forall keyword,
             In keyword ["decided"; "agreed"; "concluded"; "result"] ->
             contains keyword (lower text) = true -> decisive text = true).
  { intros keyword Hin Hc. unfold decisive, decision_keywords.
    apply existsb_exists. exists keyword. split; assumption. }
  unfold _assess_note_worthiness, tenths, labels, long, actionable, has_entities,
    has_deadline, decisive in *.
  change action_keywords with action_words in *.
  change decision_keywords with decision_words in *.
  rewrite Ht. unfold str_in, bind.
  destruct (Nat.ltb 50 (len text)), (existsb _ action_words),
    (truthy (get context "entities")), (existsb _ topics), (existsb _ decision_words);
    eexists; (split; [ reflexivity | ]); cbn [score worthy reasons];
    repeat split; try (vm_compute; reflexivity);
    intros;
    try (specialize (Hlong ltac:(assumption)));
    try (specialize (Hact ltac:(assumption)));
    try match goal with
        | H1 : In ?k _, H2 : contains ?k _ = true |- _ => specialize (Hdec k H1 H2)
        end;
    try discriminate; try (vm_compute; reflexivity); simpl; auto 10.
Qed.

(** The theorem at a text of 60 characters that contains [need to], and at
    a short text that reports a decision. *)
Lemma note_worthiness_is_capped_sum_witness :
  (exists r,
      _assess_note_worthiness
        "We need to finish the quarterly report before Friday at noon" [] = Ok r
      /\ (0.7 <=? score r)%float = true
      /\ worthy r = true)
  /\ (exists r,
        _assess_note_worthiness "We AGREED" [] = Ok r
        /\ (0.3 <=? score r)%float = true
        /\ In "contains_decisions" (reasons r)).
Proof.
  split.
  - destruct (note_worthiness_is_capped_sum
                "We need to finish the quarterly report before Friday at noon" [] []
                eq_refl) as (r & Hr & _ & _ & _ & _ & _ & H & _).
    exists r. split; [ exact Hr | ]. apply H; reflexivity.
  - destruct (note_worthiness_is_capped_sum "We AGREED" [] [] eq_refl)
      as (r & Hr & _ & _ & _ & _ & _ & _ & H).
    exists r. split; [ exact Hr | ]. apply (H "agreed"); [ simpl; auto | reflexivity ].
Defined.

End ChatClaims.

(** * Properties of the other tools *)

(** ** Parse results of the chat server *)

Module ChatParseFacts.
Import ChatCommandServer ChatFacts.

(** A result that names a rule comes from the dispatch loop stopping at
    that rule and from its extractor. *)
Lemma parse_chat_input_inv self input name :
  get (parse_chat_input self input) "command_type" = VStr name ->
  exists g res,
    first_match (command_patterns self) (strip input) = Some (name, g)
    /\ _parse_command_match name (groups_tuple g) (strip input) = Ok res
    /\ parse_chat_input self input = set res "original_input" (VStr (strip input)).
Proof.
  unfold parse_chat_input, parse_chat_input_body.
  destruct (negb (startswith "/" (strip input))); [ discriminate | ].
  destruct (first_match (command_patterns self) (strip input)) as [[n g] | ].
  - destruct (_parse_command_match n (groups_tuple g) (strip input)) as [res | e] eqn:Hp;
      simpl; [ | discriminate ].
    rewrite get_set_other by reflexivity.
    rewrite (chat_match_keeps _ _ _ _ Hp).
    intros H. inversion H; subst. eauto.
  - destruct (first (split (strip input))); simpl; [ | discriminate ].
    destruct (_suggest_similar_command self a); simpl; discriminate.
Qed.

Lemma chat_action_set name g s res :
  In name ["note"; "note-create"; "note-search"; "note-find"; "note-tag"; "note-list";
           "note-link"; "opp-create"; "opp-list"; "opp-search"; "task-note"; "analyze";
           "help"; "commands"; "status"] ->
  _parse_command_match name g s = Ok res ->
  exists action, get res "action" = VStr action.
Proof.
  intros Hin. simpl in Hin.
  repeat (destruct Hin as [<- | Hin];
          [ unfold _parse_command_match, or_else; simpl; repeat step_chat;
            intros H; inversion H; subst; eexists; reflexivity | ]).
  contradiction.
Qed.

End ChatParseFacts.

Module ChatParseExtras.
Import ChatCommandServer ChatFacts ChatParseFacts.

(** X1.  Seven rules of the chat registry have no branch in the extractor:
    for an input resolved to [opp], [opp-link], [task-link], [suggest],
    [associate], [sql] or [db-query] the result holds the rule name and the
    raw groups only, with empty parameters and no action; every other rule
    of the registry sets an action. *)
Theorem chat_rules_without_extraction :
  (forall (self : t) (input name : string),
      get (parse_chat_input self input) "command_type" = VStr name ->
      In name ["opp"; "opp-link"; "task-link"; "suggest"; "associate"; "sql"; "db-query"] ->
      exists raw_params,
        parse_chat_input self input
        = [("is_command", VBool true);
           ("command_type", VStr name);
           ("parameters", VDict []);
           ("raw_params", VTuple raw_params);
           ("original_input", VStr (strip input))])
  /\ (forall (input name : string),
        get (parse_chat_input __init__ input) "command_type" = VStr name ->
        existsb (String.eqb name)
          ["opp"; "opp-link"; "task-link"; "suggest"; "associate"; "sql"; "db-query"] = false ->
        exists action, get (parse_chat_input __init__ input) "action" = VStr action).
Proof.
  split.
  - intros self input name Hc Hin.
    destruct (parse_chat_input_inv _ _ _ Hc) as (g & res & _ & Hp & ->).
    exists (groups_tuple g).
    simpl in Hin.
    repeat (destruct Hin as [<- | Hin];
            [ vm_compute in Hp; inversion Hp; subst; reflexivity | ]).
    contradiction.
  - intros input name Hc Hout.
    destruct (parse_chat_input_inv _ _ _ Hc) as (g & res & Hf & Hp & ->).
    rewrite get_set_other by reflexivity.
    apply first_match_some in Hf. destruct Hf as (pat & Hin & _).
    apply (chat_action_set name (groups_tuple g) (strip input)); [ | exact Hp ].
    pick_rule Hin; try discriminate Hout; simpl; tauto.
Qed.

(** The two parts at the commands [/sql SELECT 1] and [/note buy milk]. *)
Lemma chat_rules_without_extraction_witness :
  (exists raw_params,
      parse_chat_input __init__ "/sql SELECT 1"
      = [("is_command", VBool true);
         ("command_type", VStr "sql");
         ("parameters", VDict []);
         ("raw_params", VTuple raw_params);
         ("original_input", VStr (strip "/sql SELECT 1"))])
  /\ (exists action, get (parse_chat_input __init__ "/note buy milk") "action" = VStr action).
Proof.
  split.
  - apply (proj1 chat_rules_without_extraction __init__ "/sql SELECT 1" "sql").
    + vm_compute. reflexivity.
    + simpl. tauto.
  - apply (proj2 chat_rules_without_extraction "/note buy milk" "note");
      vm_compute; reflexivity.
Defined.

End ChatParseExtras.

(** ** Rules of the workflow parser without an extraction branch *)

Module WorkflowParseExtras.
Import WorkflowCommandServer WorkflowFacts.

(** X2.  The rules [node-type] and [matrix-show] have no branch in the
    extractor of the workflow server: an input resolved to one of them goes
    through the default case, so the node, the type and the quadrant it
    names stay in the raw groups, the parameters are empty and the action is
    the rule name after [handle_]. *)
Theorem workflow_rules_without_extraction (self : t) (input name : string) :
  get (parse_workflow_command self input) "command_type" = VStr name ->
  In name ["node-type"; "matrix-show"] ->
  exists raw_params,
    parse_workflow_command self input
    = [("is_workflow_command", VBool true);
       ("command_type", VStr name);
       ("parameters", VDict []);
       ("raw_params", VTuple raw_params);
       ("action", VStr ("handle_" ++ replace "-" "_" name));
       ("original_input", VStr (strip input))].
Proof.
  intros Hc Hin.
  destruct (parse_workflow_command_inv _ _ _ Hc) as (g & res & _ & Hp & ->).
  exists (groups_tuple g).
  simpl in Hin.
  repeat (destruct Hin as [<- | Hin];
          [ vm_compute in Hp; inversion Hp; subst; reflexivity | ]).
  contradiction.
Qed.

(** The command that changes the type of the node Start. *)
Lemma workflow_rules_without_extraction_witness :
  exists raw_params,
    parse_workflow_command __init__ "/node-type Start decision"
    = [("is_workflow_command", VBool true);
       ("command_type", VStr "node-type");
       ("parameters", VDict []);
       ("raw_params", VTuple raw_params);
       ("action", VStr ("handle_" ++ replace "-" "_" "node-type"));
       ("original_input", VStr (strip "/node-type Start decision"))].
Proof.
  apply (workflow_rules_without_extraction __init__ "/node-type Start decision" "node-type").
  - vm_compute. reflexivity.
  - simpl. tauto.
Defined.

End WorkflowParseExtras.

(** ** The chat validator on parsed commands *)

Module ChatValidateExtras.
Import ChatCommandServer ChatFacts ChatParseFacts ChatTools.

(** X3.  The validator looks for the identifiers of a link under the keys
    [id1] or [source_id] and [id2] or [target_id]; the extractor files them
    under [note_id] and [target_id] for [note-link] and files nothing for
    [opp-link], [task-link] and [associate].  So every input resolved to one
    of the four link rules fails validation with the error that both
    identifiers are required. *)
Theorem parsed_link_commands_fail_validation (self : t) (input name : string) :
  get (parse_chat_input self input) "command_type" = VStr name ->
  In name ["note-link"; "opp-link"; "task-link"; "associate"] ->
  validate_command (parse_chat_input self input)
  = [("valid", VBool false);
     ("errors", VList [VStr "Both IDs required for linking"]);
     ("warnings", VList []);
     ("suggestions", VList [])].
Proof.
  intros Hc Hin.
  destruct (parse_chat_input_inv _ _ _ Hc) as (g & res & _ & Hp & ->).
  simpl in Hin.
  destruct Hin as [<- | Hin].
  - revert Hp. unfold _parse_command_match, idx_or; simpl.
    repeat match goal with
           | |- context [idx ?t ?i] => destruct (idx t i) eqn:?; simpl
           | |- context [Nat.ltb ?a ?b] => destruct (Nat.ltb a b) eqn:?; simpl
           end;
      intros H; inversion H; subst; reflexivity.
  - repeat (destruct Hin as [<- | Hin];
            [ vm_compute in Hp; inversion Hp; subst; reflexivity | ]).
    contradiction.
Qed.

(** The link of the note n1 to the opportunity opp-7. *)
Lemma parsed_link_commands_fail_validation_witness :
  validate_command (parse_chat_input __init__ "/note-link n1 opp-7")
  = [("valid", VBool false);
     ("errors", VList [VStr "Both IDs required for linking"]);
     ("warnings", VList []);
     ("suggestions", VList [])].
Proof.
  apply (parsed_link_commands_fail_validation __init__ "/note-link n1 opp-7" "note-link").
  - vm_compute. reflexivity.
  - simpl. tauto.
Defined.

(** X4.  On command data of a note command whose parameters hold no
    [content], the length test on [None] raises after the error for a short
    content was recorded; the [except] clause returns the text of the
    [TypeError] as the only error, and the result has no [warnings] and no
    [suggestions]. *)
Theorem note_without_content_reports_type_error (command_data parameters : dict) :
  truthy (get command_data "is_command") = true ->
  in_strs (get command_data "command_type") ["note-create"; "note"] = true ->
  get_default command_data "parameters" (VDict []) = VDict parameters ->
  get parameters "content" = VNone ->
  validate_command command_data
  = [("valid", VBool false);
     ("errors", VList [VStr "object of type 'NoneType' has no len()"])].
Proof.
  intros Hw Hc Hp Hcontent.
  unfold validate_command, validate_command_body.
  rewrite Hw, Hc, Hp. unfold WorkflowCommandServer.pget. simpl.
  rewrite Hcontent. reflexivity.
Qed.

(** Command data of a note command built without parameters. *)
Lemma note_without_content_reports_type_error_witness :
  validate_command [("is_command", VBool true); ("command_type", VStr "note")]
  = [("valid", VBool false);
     ("errors", VList [VStr "object of type 'NoneType' has no len()"])].
Proof.
  apply (note_without_content_reports_type_error
           [("is_command", VBool true); ("command_type", VStr "note")] []);
    reflexivity.
Defined.

End ChatValidateExtras.

(** ** The chat validator on notes *)

Module ChatValidateFacts.
Import ChatCommandServer ChatFacts ChatParseFacts ChatTools.

(** An entry of [match.groups()] is a [str] or [None]. *)
Lemma idx_groups_tuple g i v :
  idx (groups_tuple g) i = Ok v -> v = VNone \/ exists s, v = VStr s.
Proof.
  unfold idx, groups_tuple. rewrite nth_error_map.
  destruct (nth_error g i) as [[s | ] | ]; simpl; intros H; inversion H; eauto.
Qed.

(** [x if x else ''] on such an entry is a [str]. *)
Lemma or_else_str g i v :
  idx (groups_tuple g) i = Ok v -> exists s, or_else v (VStr "") = VStr s.
Proof.
  intros H. apply idx_groups_tuple in H. destruct H as [-> | [s ->]].
  - exists "". reflexivity.
  - unfold or_else. destruct (truthy (VStr s)); eauto.
Qed.

End ChatValidateFacts.

Module ChatNoteExtras.
Import ChatCommandServer ChatFacts ChatParseFacts ChatTools ChatValidateFacts.

(** X5.  An input resolved to [note] or [note-create] has one parameter,
    the [str] [content] (empty for the bare [/note]); the validator raises
    nothing on it and accepts it exactly when the content, stripped, has at
    least three characters.  The bare [/note], which the grammar accepts, is
    thus rejected by the validator. *)
Theorem parsed_note_is_valid_from_three_characters (self : t) (input name : string) :
  get (parse_chat_input self input) "command_type" = VStr name ->
  In name ["note"; "note-create"] ->
  exists content,
    get (parse_chat_input self input) "parameters" = VDict [("content", VStr content)]
    /\ get (validate_command (parse_chat_input self input)) "valid"
       = VBool (Nat.leb 3 (len (strip content)))
    /\ get (validate_command (parse_chat_input self input)) "errors"
       = VList (if Nat.leb 3 (len (strip content)) then []
                else [VStr "Note content too short (minimum 3 characters)"]).
Proof.
  intros Hc Hin.
  destruct (parse_chat_input_inv _ _ _ Hc) as (g & res & _ & Hp & ->).
  assert (Hres : exists content,
             res = [("is_command", VBool true); ("command_type", VStr name);
                    ("parameters", VDict [("content", VStr content)]);
                    ("raw_params", VTuple (groups_tuple g));
                    ("action", VStr "create_note")]).
  { revert Hp. simpl in Hin.
    destruct Hin as [<- | [<- | []]];
      unfold _parse_command_match; simpl;
      (destruct (idx (groups_tuple g) 0) as [g0 | e] eqn:Hg; simpl; [ | discriminate ]);
      destruct (or_else_str _ _ _ Hg) as [content ->];
      intros H; inversion H; subst; eauto. }
  destruct Hres as [content ->]. exists content.
  split; [ reflexivity | ].
  simpl in Hin.
  destruct Hin as [<- | [<- | []]];
    (unfold validate_command, validate_command_body, WorkflowCommandServer.pget,
       _generate_command_suggestions, too_short;
     simpl get; simpl get_default; simpl truthy at 1; simpl in_strs;
     cbv [negb orb as_dict bind];
     simpl get; simpl get_default).
  all: rewrite Nat.ltb_antisym;
    destruct (is_empty content) eqn:He;
    [ apply is_empty_true in He; subst content; split; reflexivity | ];
    destruct (Nat.leb 3 (len (strip content)));
    destruct (N.ltb 10000 (N.of_nat (len content)));
    destruct (Nat.ltb (len content) 20);
    destruct (contains "." content); destruct (contains "!" content);
    destruct (contains "?" content); split; reflexivity.
Qed.

(** The bare command. *)
Lemma parsed_note_is_valid_from_three_characters_witness :
  exists content,
    get (parse_chat_input __init__ "/note") "parameters" = VDict [("content", VStr content)]
    /\ get (validate_command (parse_chat_input __init__ "/note")) "valid"
       = VBool (Nat.leb 3 (len (strip content)))
    /\ get (validate_command (parse_chat_input __init__ "/note")) "errors"
       = VList (if Nat.leb 3 (len (strip content)) then []
                else [VStr "Note content too short (minimum 3 characters)"]).
Proof.
  apply (parsed_note_is_valid_from_three_characters __init__ "/note" "note").
  - vm_compute. reflexivity.
  - simpl. tauto.
Defined.

End ChatNoteExtras.

(** ** The executor on unknown commands *)

Module WorkflowExecuteFacts.
Import WorkflowCommandServer WorkflowFacts WorkflowTools.

(** The extractor sets no [type]: the key belongs to the results that name
    no rule. *)
Lemma workflow_match_has_no_type command_name groups original_input res :
  _parse_workflow_match command_name groups original_input = Ok res ->
  get res "type" = VNone.
Proof.
  unfold _parse_workflow_match.
  repeat match goal with
         | |- context [is_cmd command_name ?c] =>
             destruct (is_cmd command_name c);
             [ unfold or_else; simpl; repeat step_match;
               intros H; inversion H; subst; reflexivity | ]
         end.
  intros H; inversion H; subst; reflexivity.
Qed.

End WorkflowExecuteFacts.

Module WorkflowExecuteExtras.
Import WorkflowCommandServer WorkflowFacts WorkflowTools WorkflowExecuteFacts.

(** X6.  The result for an unknown workflow command has
    [is_workflow_command] true and no [command_type], [parameters] or
    [action]; the validator has nothing to check on it, so executing it
    gives [ready_for_execution] with a [None] action, a [None] command type
    and an empty original input. *)
Theorem unknown_workflow_command_is_ready_for_execution (self : t) (input : string) :
  get (parse_workflow_command self input) "type" = VStr "unknown_workflow_command" ->
  execute_workflow_command self (parse_workflow_command self input)
  = [("status", VStr "ready_for_execution");
     ("command_data",
      VDict [("action", VNone);
             ("parameters", VDict []);
             ("command_type", VNone);
             ("original_input", VStr "")]);
     ("validation",
      VDict [("valid", VBool true); ("errors", VList []);
             ("warnings", VList []); ("suggestions", VList [])]);
     ("message", VStr "Executing workflow command...")].
Proof.
  unfold parse_workflow_command, parse_workflow_command_body.
  destruct (negb (startswith "/" (strip input))); [ discriminate | ].
  destruct (first_match (command_patterns self) (strip input)) as [[n g] | ].
  - destruct (_parse_workflow_match n (groups_tuple g) (strip input)) as [res | e] eqn:Hp;
      simpl; [ | discriminate ].
    rewrite get_set_other by reflexivity.
    rewrite (workflow_match_has_no_type _ _ _ _ Hp). discriminate.
  - destruct (existsb _ workflow_keywords); [ | discriminate ].
    destruct (first (split (strip input))) as [command | e]; simpl; [ | discriminate ].
    destruct (_suggest_similar_workflow_command self command) as [suggestion | e];
      simpl; [ | discriminate ].
    intros _. reflexivity.
Qed.

(** The misspelt command [/nod-create process]. *)
Lemma unknown_workflow_command_is_ready_for_execution_witness :
  execute_workflow_command __init__ (parse_workflow_command __init__ "/nod-create process")
  = [("status", VStr "ready_for_execution");
     ("command_data",
      VDict [("action", VNone);
             ("parameters", VDict []);
             ("command_type", VNone);
             ("original_input", VStr "")]);
     ("validation",
      VDict [("valid", VBool true); ("errors", VList []);
             ("warnings", VList []); ("suggestions", VList [])]);
     ("message", VStr "Executing workflow command...")].
Proof.
  apply (unknown_workflow_command_is_ready_for_execution __init__ "/nod-create process").
  vm_compute. reflexivity.
Defined.

End WorkflowExecuteExtras.

(** ** The validator and the executor on [node-create] *)

Module NodeCreateFacts.
Import WorkflowCommandServer WorkflowFacts WorkflowTools.

(** The groups of a match of the rule [node-create]: a type, the two names,
    and the two coordinates, which take part in the match together or not
    at all. *)
Lemma node_create_groups pat s g :
  In ("node-create", pat) (command_patterns __init__) ->
  re_match true pat s = Some g ->
  exists ty quoted_name name x y,
    g = [Some ty; quoted_name; name; x; y]
    /\ is_empty ty = false
    /\ ((x = None /\ y = None)
        \/ exists xs ys,
             x = Some xs /\ y = Some ys
             /\ is_empty xs = false /\ all isdecimal xs = true
             /\ is_empty ys = false /\ all isdecimal ys = true).
Proof.
  intros Hin Hm. pick_rule Hin.
  apply re_match_sound in Hm. destruct Hm as (w & s' & _ & M).
  cbv [Cat Str hy ws word quoted digits ngroups Nat.max repeat] in M.
  inv_matches; simpl;
    do 5 eexists; (split; [ reflexivity | ]); (split; [ assumption | ]);
    first [ left; split; reflexivity
          | right; do 2 eexists; repeat split; eassumption ].
Qed.

Lemma int_digits_nonneg s : forall acc, (0 <= acc)%Z -> (0 <= int_digits acc s)%Z.
Proof.
  induction s as [ | c s IH]; cbn [int_digits]; intros acc H; [ exact H | ].
  apply IH. unfold digit_value. pose proof (N2Z.is_nonneg (code c - 48)). lia.
Qed.

(** [int] of a coordinate captured by [(\d+)], within the limit and beyond. *)
Lemma py_int_short xs :
  is_empty xs = false -> all isdecimal xs = true ->
  (max_str_digits <? N.of_nat (len xs))%N = false ->
  py_int (VStr xs) = Ok (int_digits 0 xs) /\ (0 <=? int_digits 0 xs)%Z = true.
Proof.
  intros Hne Hd Hlen. rewrite (py_int_digits xs Hne Hd), Hlen.
  split; [ reflexivity | ]. apply Z.leb_le. apply int_digits_nonneg. lia.
Qed.

Lemma py_int_long xs :
  is_empty xs = false -> all isdecimal xs = true ->
  (max_str_digits <? N.of_nat (len xs))%N = true ->
  py_int (VStr xs) = Raise (ValueError (int_limit_message (N.of_nat (len xs)))).
Proof. intros Hne Hd Hlen. rewrite (py_int_digits xs Hne Hd), Hlen. reflexivity. Qed.

(** Running the validator up to the tests that depend on the command. *)
Ltac run_validator :=
  cbn [validate_workflow_command_body get get_default lookup set item append_to
       String.eqb Ascii.eqb Bool.eqb pget as_dict bind check_enum negb orb andb is_none
       values_of valid_values __init__ _generate_workflow_suggestions eq_str strs map
       app try_except truthy].

End NodeCreateFacts.

Module NodeCreateExtras.
Import WorkflowCommandServer WorkflowFacts WorkflowTools NodeCreateFacts.

(** X7.  For an input resolved to [node-create] the coordinates are both
    absent or both runs of decimal digits.  The position check raises in
    one case only: when [int] meets a coordinate of more than 4300 digits
    (the y coordinate is converted only when x is on the canvas); the
    validator then returns the text of the [ValueError] as its only error
    and the executor reports an error.  Otherwise validity depends on the
    node type alone, a coordinate above 2000 adds the canvas warning and
    nothing else, and the command is ready for execution when its type is an
    allowed one. *)
Theorem node_create_position_warns_or_overflows (input : string) :
  get (parse_workflow_command __init__ input) "command_type" = VStr "node-create" ->
  exists ty name x y,
    get (parse_workflow_command __init__ input) "parameters"
    = VDict [("type", VStr ty); ("name", name); ("x", x); ("y", y)]
    /\ ((x = VNone /\ y = VNone
         /\ get (validate_workflow_command __init__ (parse_workflow_command __init__ input))
              "valid"
            = VBool (in_strs (VStr ty) ["process"; "decision"; "terminal"; "start"])
         /\ get (validate_workflow_command __init__ (parse_workflow_command __init__ input))
              "warnings" = VList []
         /\ get (execute_workflow_command __init__ (parse_workflow_command __init__ input))
              "status"
            = VStr (if in_strs (VStr ty) ["process"; "decision"; "terminal"; "start"]
                    then "ready_for_execution" else "error"))
        \/ exists xs ys,
             x = VStr xs /\ y = VStr ys
             /\ match position_overflow xs ys with
                | Some digits =>
                    validate_workflow_command __init__ (parse_workflow_command __init__ input)
                    = [("valid", VBool false);
                       ("errors", VList [VStr (int_limit_message digits)])]
                    /\ get (execute_workflow_command __init__
                              (parse_workflow_command __init__ input)) "status"
                       = VStr "error"
                | None =>
                    get (validate_workflow_command __init__
                           (parse_workflow_command __init__ input)) "valid"
                    = VBool (in_strs (VStr ty) ["process"; "decision"; "terminal"; "start"])
                    /\ get (validate_workflow_command __init__
                              (parse_workflow_command __init__ input)) "warnings"
                       = VList (if ((int_digits 0 xs <=? 2000)
                                    && (int_digits 0 ys <=? 2000))%Z
                                then []
                                else [VStr "Position outside typical canvas bounds"])
                    /\ get (execute_workflow_command __init__
                              (parse_workflow_command __init__ input)) "status"
                       = VStr (if in_strs (VStr ty)
                                    ["process"; "decision"; "terminal"; "start"]
                               then "ready_for_execution" else "error")
                end).
Proof.
  intros H. apply parse_workflow_command_inv in H.
  destruct H as (g & res & Hf & Hp & ->).
  apply first_match_some in Hf. destruct Hf as (pat & Hin & Hm).
  destruct (node_create_groups _ _ _ Hin Hm)
    as (ty & quoted_name & name & x & y & -> & Hty & Hxy).
  assert (Hres : exists name',
             res = [("is_workflow_command", VBool true);
                    ("command_type", VStr "node-create");
                    ("parameters",
                     VDict [("type", VStr ty); ("name", name');
                            ("x", match x with Some xs => VStr xs | None => VNone end);
                            ("y", match y with Some ys => VStr ys | None => VNone end)]);
                    ("raw_params", VTuple (groups_tuple [Some ty; quoted_name; name; x; y]));
                    ("action", VStr "create_node")]).
  { revert Hp. unfold _parse_workflow_match, or_else. simpl. rewrite Hty. simpl.
    destruct Hxy as [[-> ->] | (xs & ys & -> & -> & Hx & _ & Hy & _)];
      simpl; try rewrite Hx; try rewrite Hy; simpl;
      destruct quoted_name as [q | ]; simpl;
      try destruct (is_empty q); simpl;
      destruct name as [n | ]; simpl;
      try destruct (is_empty n); simpl;
      intros H; inversion H; subst; eexists; reflexivity. }
  destruct Hres as [name' ->]. clear Hp.
  exists ty, name'.
  exists (match x with Some xs => VStr xs | None => VNone end).
  exists (match y with Some ys => VStr ys | None => VNone end).
  split; [ reflexivity | ].
  assert (Tty : truthy (VStr ty) = true) by (simpl; rewrite Hty; reflexivity).
  unfold execute_workflow_command, validate_workflow_command,
    validate_workflow_command_body.
  destruct Hxy as [[-> ->] | (xs & ys & -> & -> & Hx & Hdx & Hy & Hdy)].
  - left. run_validator. unfold check_enum. rewrite Tty. run_validator.
    destruct (in_strs (VStr ty) ["process"; "decision"; "terminal"; "start"]);
      run_validator; destruct (truthy name'); run_validator;
      repeat split; reflexivity.
  - right. exists xs, ys. split; [ reflexivity | ]. split; [ reflexivity | ].
    unfold position_overflow.
    destruct (max_str_digits <? N.of_nat (len xs))%N eqn:Ox.
    + pose proof (py_int_long xs Hx Hdx Ox) as Ex.
      run_validator. unfold check_enum. rewrite Tty, Ex. run_validator.
      destruct (in_strs (VStr ty) ["process"; "decision"; "terminal"; "start"]);
        run_validator; split; reflexivity.
    + destruct (py_int_short xs Hx Hdx Ox) as [Ex Px].
      destruct (int_digits 0 xs <=? 2000)%Z eqn:Lx; cbn [andb].
      * destruct (max_str_digits <? N.of_nat (len ys))%N eqn:Oy.
        -- pose proof (py_int_long ys Hy Hdy Oy) as Ey.
           run_validator. unfold check_enum. rewrite Tty, Ex. run_validator.
           rewrite Px, Lx. run_validator.
           destruct (in_strs (VStr ty) ["process"; "decision"; "terminal"; "start"]);
             run_validator; rewrite ?Ey; run_validator; split; reflexivity.
        -- destruct (py_int_short ys Hy Hdy Oy) as [Ey Py].
           run_validator. unfold check_enum. rewrite Tty, Ex. run_validator.
           rewrite Px, Lx. run_validator.
           destruct (in_strs (VStr ty) ["process"; "decision"; "terminal"; "start"]);
             run_validator; rewrite ?Ey; run_validator; rewrite ?Py; run_validator;
             destruct (int_digits 0 ys <=? 2000)%Z eqn:Ly;
             run_validator; destruct (truthy name'); run_validator;
             rewrite ?Hx; run_validator; rewrite ?Hy; run_validator;
             repeat split; reflexivity.
      * run_validator. unfold check_enum. rewrite Tty, Ex. run_validator.
        rewrite Px, Lx. run_validator.
        destruct (in_strs (VStr ty) ["process"; "decision"; "terminal"; "start"]);
          run_validator; destruct (truthy name'); run_validator;
          rewrite ?Hx; run_validator; rewrite ?Hy; run_validator;
          repeat split; reflexivity.
Qed.

(** A node placed beyond the canvas, and a node whose x coordinate has 4301
    digits. *)
Lemma node_create_position_warns_or_overflows_witness :
  (
  exists ty name x y,
    get (parse_workflow_command __init__ "/node-create process Start 2500,100") "parameters"
    = VDict [("type", VStr ty); ("name", name); ("x", x); ("y", y)]
    /\ ((x = VNone /\ y = VNone
         /\ get (validate_workflow_command __init__
               (parse_workflow_command __init__ "/node-create process Start 2500,100"))
              "valid"
            = VBool (in_strs (VStr ty) ["process"; "decision"; "terminal"; "start"])
         /\ get (validate_workflow_command __init__
               (parse_workflow_command __init__ "/node-create process Start 2500,100"))
              "warnings" = VList []
         /\ get (execute_workflow_command __init__
               (parse_workflow_command __init__ "/node-create process Start 2500,100"))
              "status"
            = VStr (if in_strs (VStr ty) ["process"; "decision"; "terminal"; "start"]
                    then "ready_for_execution" else "error"))
        \/ exists xs ys,
             x = VStr xs /\ y = VStr ys
             /\ match position_overflow xs ys with
                | Some digits =>
                    validate_workflow_command __init__
                          (parse_workflow_command __init__ "/node-create process Start 2500,100")
                    = [("valid", VBool false);
                       ("errors", VList [VStr (int_limit_message digits)])]
                    /\ get (execute_workflow_command __init__

                                    (parse_workflow_command __init__ "/node-create process Start 2500,100")) "status"
                       = VStr "error"
                | None =>
                    get (validate_workflow_command __init__

                                 (parse_workflow_command __init__ "/node-create process Start 2500,100")) "valid"
                    = VBool (in_strs (VStr ty) ["process"; "decision"; "terminal"; "start"])
                    /\ get (validate_workflow_command __init__

                                    (parse_workflow_command __init__ "/node-create process Start 2500,100")) "warnings"
                       = VList (if ((int_digits 0 xs <=? 2000)
                                    && (int_digits 0 ys <=? 2000))%Z
                                then []
                                else [VStr "Position outside typical canvas bounds"])
                    /\ get (execute_workflow_command __init__

                                    (parse_workflow_command __init__ "/node-create process Start 2500,100")) "status"
                       = VStr (if in_strs (VStr ty)
                                    ["process"; "decision"; "terminal"; "start"]
                               then "ready_for_execution" else "error")
                end))
  /\ (
  exists ty name x y,
    get
          (parse_workflow_command __init__ ("/node-create process Start " ++ copies 4301 "9" ++ ",5")) "parameters"
    = VDict [("type", VStr ty); ("name", name); ("x", x); ("y", y)]
    /\ ((x = VNone /\ y = VNone
         /\ get (validate_workflow_command __init__
               (parse_workflow_command __init__ ("/node-create process Start " ++ copies 4301 "9" ++ ",5")))
              "valid"
            = VBool (in_strs (VStr ty) ["process"; "decision"; "terminal"; "start"])
         /\ get (validate_workflow_command __init__
               (parse_workflow_command __init__ ("/node-create process Start " ++ copies 4301 "9" ++ ",5")))
              "warnings" = VList []
         /\ get (execute_workflow_command __init__
               (parse_workflow_command __init__ ("/node-create process Start " ++ copies 4301 "9" ++ ",5")))
              "status"
            = VStr (if in_strs (VStr ty) ["process"; "decision"; "terminal"; "start"]
                    then "ready_for_execution" else "error"))
        \/ exists xs ys,
             x = VStr xs /\ y = VStr ys
             /\ match position_overflow xs ys with
                | Some digits =>
                    validate_workflow_command __init__
                          (parse_workflow_command __init__ ("/node-create process Start " ++ copies 4301 "9" ++ ",5"))
                    = [("valid", VBool false);
                       ("errors", VList [VStr (int_limit_message digits)])]
                    /\ get (execute_workflow_command __init__

                                    (parse_workflow_command __init__ ("/node-create process Start " ++ copies 4301 "9" ++ ",5"))) "status"
                       = VStr "error"
                | None =>
                    get (validate_workflow_command __init__

                                 (parse_workflow_command __init__ ("/node-create process Start " ++ copies 4301 "9" ++ ",5"))) "valid"
                    = VBool (in_strs (VStr ty) ["process"; "decision"; "terminal"; "start"])
                    /\ get (validate_workflow_command __init__

                                    (parse_workflow_command __init__ ("/node-create process Start " ++ copies 4301 "9" ++ ",5"))) "warnings"
                       = VList (if ((int_digits 0 xs <=? 2000)
                                    && (int_digits 0 ys <=? 2000))%Z
                                then []
                                else [VStr "Position outside typical canvas bounds"])
                    /\ get (execute_workflow_command __init__

                                    (parse_workflow_command __init__ ("/node-create process Start " ++ copies 4301 "9" ++ ",5"))) "status"
                       = VStr (if in_strs (VStr ty)
                                    ["process"; "decision"; "terminal"; "start"]
                               then "ready_for_execution" else "error")
                end)).
Proof.
  split.
  - apply (node_create_position_warns_or_overflows "/node-create process Start 2500,100").
    vm_compute. reflexivity.
  - apply (node_create_position_warns_or_overflows
             ("/node-create process Start " ++ copies 4301 "9" ++ ",5")).
    vm_compute. reflexivity.
Defined.

End NodeCreateExtras.

(** ** The help of the two servers *)

Module HelpFacts.
Import Suggest SuggestFacts.

(** With a non-empty unknown token no score divides by zero. *)
Lemma score_ok_nonempty unknown cmd :
  is_empty unknown = false -> score unknown cmd = Ok (similarity unknown cmd).
Proof.
  intros H. unfold score, total.
  destruct unknown as [ | c s]; [ discriminate | ].
  replace (Nat.eqb _ 0) with false; [ reflexivity | ].
  symmetry. apply Nat.eqb_neq.
  pose proof (Nat.le_max_l (len (String c s)) (len (clean cmd))) as Hle.
  unfold len in *. cbn [String.length] in *. lia.
Qed.

Lemma scan_total_nonempty unknown cmds :
  is_empty unknown = false ->
  forall best_match best_score, exists r, scan unknown cmds best_match best_score = Ok r.
Proof.
  intros H. induction cmds as [ | cmd cmds IH]; intros best_match best_score; simpl.
  - eauto.
  - rewrite score_ok_nonempty by assumption. simpl.
    destruct ((best_score <? similarity unknown cmd)%float
              && (0.3 <? similarity unknown cmd)%float); apply IH.
Qed.

(** The empty text occurs in every text. *)
Lemma contains_empty s : contains "" s = true.
Proof. destruct s; reflexivity. Qed.

Lemma mem_slash c : mem c "/" = Ascii.eqb c "/".
Proof. unfold mem. rewrite orb_false_r. apply Ascii.eqb_sym. Qed.

Lemma lower_char_slash c : Ascii.eqb c "/" = false -> Ascii.eqb (lower_char c) "/" = false.
Proof. destruct c as [[] [] [] [] [] [] [] []]; vm_compute; congruence. Qed.

(** The token scored for a query that has a character other than the
    slash is not empty. *)
Lemma query_token_nonempty s :
  is_empty (lstrip "/" s) = false ->
  is_empty (lstrip "/" (lower ("/" ++ lstrip "/" s))) = false.
Proof.
  unfold lstrip. induction s as [ | c s IH]; [ discriminate | ].
  cbn [lstrip_by]. rewrite mem_slash. destruct (Ascii.eqb c "/") eqn:E.
  - exact IH.
  - intros _.
    change (lower ("/" ++ String c s)) with (String "/" (String (lower_char c) (lower s))).
    cbn [lstrip_by]. rewrite !mem_slash.
    change (Ascii.eqb "/" "/") with true. cbv iota.
    rewrite (lower_char_slash c E). reflexivity.
Qed.

(** No match for a query: the vocabulary is empty or the query has a
    character other than the slash. *)
Lemma no_match_cases (descriptions : list (string * string)) command :
  filter (fun cd => contains (lower command) (lower (fst cd))) descriptions = [] ->
  descriptions = [] \/ is_empty command = false.
Proof.
  destruct descriptions as [ | cd l]; [ auto | ].
  destruct command; [ | auto ].
  simpl. rewrite contains_empty. discriminate.
Qed.

Lemma filter_all {A : Type} (p : A -> bool) (l : list A) :
  (forall x, p x = true) -> filter p l = l.
Proof.
  intros H. induction l as [ | x l IH]; simpl; [ reflexivity | ].
  rewrite H, IH. reflexivity.
Qed.

End HelpFacts.

Module HelpExtras.
Import HelpFacts.

(** X8.  Neither help tool ever returns its [error] result, whatever the
    registry and the query: the only statement that can raise is the
    division in the similarity score, and the suggestion is computed for a
    query with no match only, which has a character other than the slash
    unless the vocabulary is empty. *)
Theorem help_never_takes_the_except_clause :
  (forall (self : WorkflowCommandServer.t) (command : option string),
      In (get (WorkflowTools.generate_workflow_help self command) "type")
         [VStr "specific_workflow_help"; VStr "workflow_command_not_found";
          VStr "general_workflow_help"])
  /\ (forall (self : ChatCommandServer.t) (command : option string),
        In (get (ChatTools.generate_command_help self command) "type")
           [VStr "specific_help"; VStr "command_not_found"; VStr "general_help"]).
Proof.
  split; intros self [[ | c command] | ]; try (simpl; tauto).
  - unfold WorkflowTools.generate_workflow_help, WorkflowTools.generate_workflow_help_body.
    destruct (WorkflowTools.help_matches self (lstrip "/" (String c command)))
      as [ | m ms] eqn:Hm; [ | simpl; tauto ].
    unfold WorkflowCommandServer._suggest_similar_workflow_command, Suggest.suggest_similar,
      WorkflowCommandServer.vocabulary.
    destruct (no_match_cases _ _ Hm) as [-> | Hne].
    + simpl. tauto.
    + destruct (scan_total_nonempty _ (map fst (WorkflowCommandServer.command_descriptions self))
                  (query_token_nonempty _ Hne) None 0%float) as [r ->].
      simpl. tauto.
  - unfold ChatTools.generate_command_help, ChatTools.generate_command_help_body.
    destruct (ChatTools.help_matches self (lstrip "/" (String c command)))
      as [ | m ms] eqn:Hm; [ | simpl; tauto ].
    unfold ChatCommandServer._suggest_similar_command, Suggest.suggest_similar,
      ChatCommandServer.vocabulary.
    destruct (no_match_cases _ _ Hm) as [-> | Hne].
    + simpl. tauto.
    + destruct (scan_total_nonempty _ (map fst (ChatCommandServer.command_descriptions self))
                  (query_token_nonempty _ Hne) None 0%float) as [r ->].
      simpl. tauto.
Qed.

(** X9.  A query made of slashes only is not taken for a missing argument:
    once the slashes are stripped it is the empty text, which occurs in
    every command, so the help for it lists every entry of
    [command_descriptions], with no example. *)
Theorem slash_query_lists_every_command :
  (forall (self : WorkflowCommandServer.t) (command : string),
      is_empty command = false -> lstrip "/" command = "" ->
      WorkflowCommandServer.command_descriptions self <> [] ->
      WorkflowTools.generate_workflow_help self (Some command)
      = [("type", VStr "specific_workflow_help");
         ("query", VStr "");
         ("matches", VList (map help_match (WorkflowCommandServer.command_descriptions self)));
         ("examples", VList [])])
  /\ (forall (self : ChatCommandServer.t) (command : string),
        is_empty command = false -> lstrip "/" command = "" ->
        ChatCommandServer.command_descriptions self <> [] ->
        ChatTools.generate_command_help self (Some command)
        = [("type", VStr "specific_help");
           ("query", VStr "");
           ("matches", VList (map help_match (ChatCommandServer.command_descriptions self)));
           ("examples", VList [])]).
Proof.
  split; intros self command Hne Hs Hv;
    (destruct command as [ | c command]; [ discriminate | ]).
  - unfold WorkflowTools.generate_workflow_help, WorkflowTools.generate_workflow_help_body,
      WorkflowTools.help_matches.
    rewrite Hs. simpl lower.
    rewrite (filter_all _ _ (fun cd => contains_empty _)).
    destruct (WorkflowCommandServer.command_descriptions self); [ congruence | reflexivity ].
  - unfold ChatTools.generate_command_help, ChatTools.generate_command_help_body,
      ChatTools.help_matches.
    rewrite Hs. simpl lower.
    rewrite (filter_all _ _ (fun cd => contains_empty _)).
    destruct (ChatCommandServer.command_descriptions self); [ congruence | reflexivity ].
Qed.

(** The help for the bare prefix, at the registries of the two servers. *)
Lemma slash_query_lists_every_command_witness :
  WorkflowTools.generate_workflow_help WorkflowCommandServer.__init__ (Some "/")
  = [("type", VStr "specific_workflow_help");
     ("query", VStr "");
     ("matches",
      VList (map help_match
               (WorkflowCommandServer.command_descriptions WorkflowCommandServer.__init__)));
     ("examples", VList [])]
  /\ ChatTools.generate_command_help ChatCommandServer.__init__ (Some "//")
     = [("type", VStr "specific_help");
        ("query", VStr "");
        ("matches",
         VList (map help_match
                  (ChatCommandServer.command_descriptions ChatCommandServer.__init__)));
        ("examples", VList [])].
Proof.
  split.
  - apply (proj1 slash_query_lists_every_command WorkflowCommandServer.__init__ "/");
      try reflexivity; discriminate.
  - apply (proj2 slash_query_lists_every_command ChatCommandServer.__init__ "//");
      try reflexivity; discriminate.
Defined.

End HelpExtras.

(** ** Prefixes and occurrences *)

Module OccurFacts.

Lemma startswith_app_l a b s : startswith (a ++ b) s = true -> startswith a s = true.
Proof.
  revert s. induction a as [ | c a IH]; intros s H; [ reflexivity | ].
  destruct s as [ | x s]; simpl in *; [ discriminate | ].
  apply andb_true_iff in H. destruct H as [E H].
  rewrite E. simpl. apply IH. exact H.
Qed.

(** A text that holds [a ++ b] holds [a]. *)
Lemma contains_app_l a b s : contains (a ++ b) s = true -> contains a s = true.
Proof.
  induction s as [ | x s IH]; simpl; intros H.
  - rewrite orb_false_r in *. apply (startswith_app_l a b ""). exact H.
  - apply orb_true_iff in H. destruct H as [H | H].
    + apply (startswith_app_l a b (String x s)) in H. simpl in H. rewrite H. reflexivity.
    + rewrite (IH H). apply orb_true_r.
Qed.

(** Two prefixes of one text: one is a prefix of the other. *)
Lemma prefixes_comparable p q s :
  startswith p s = true -> startswith q s = true ->
  startswith p q || startswith q p = true.
Proof.
  revert q s. induction p as [ | a p IH]; intros q s Hp Hq; [ reflexivity | ].
  destruct q as [ | b q]; [ reflexivity | ].
  destruct s as [ | x s]; simpl in *; [ discriminate | ].
  apply andb_true_iff in Hp. destruct Hp as [Ea Hp].
  apply andb_true_iff in Hq. destruct Hq as [Eb Hq].
  apply Ascii.eqb_eq in Ea. apply Ascii.eqb_eq in Eb. subst a b.
  rewrite Ascii.eqb_refl. simpl. eapply IH; eassumption.
Qed.

End OccurFacts.

Module ChatHelpFacts.
Import ChatCommandServer ChatTools OccurFacts.

Lemma filter_map_length {A B : Type} (f : A -> B) (p : B -> bool) (l : list A) :
  List.length (filter p (map f l)) = List.length (filter (fun a => p (f a)) l).
Proof.
  induction l as [ | a l IH]; simpl; [ reflexivity | ].
  destruct (p (f a)); simpl; congruence.
Qed.

(** In a list without repetition, a property that two entries cannot share
    holds of one entry at most. *)
Lemma at_most_one {A : Type} (p : A -> bool) (l : list A) :
  (forall a b, In a l -> In b l -> p a = true -> p b = true -> a = b) ->
  NoDup l -> List.length (filter p l) <= 1.
Proof.
  intros Huniq Hnd. induction Hnd as [ | a l Hnotin Hnd IH]; simpl; [ lia | ].
  assert (IH' : List.length (filter p l) <= 1).
  { apply IH. intros x y Hx Hy. apply Huniq; right; assumption. }
  destruct (p a) eqn:Ha; [ | exact IH' ].
  assert (Hnone : filter p l = []).
  { destruct (filter p l) as [ | b l'] eqn:E; [ reflexivity | ].
    assert (Hb : In b (filter p l)) by (rewrite E; left; reflexivity).
    apply filter_In in Hb. destruct Hb as [Hb Pb].
    assert (a = b) by (apply Huniq; [ left; reflexivity | right; exact Hb | exact Ha | exact Pb ]).
    subst b. contradiction. }
  rewrite Hnone. simpl. lia.
Qed.

Lemma headings_distinct : NoDup headings.
Proof.
  unfold headings.
  repeat (constructor; [ simpl; intuition discriminate | ]). constructor.
Qed.

(** A command listed under two headings: they are the same heading. *)
Lemma one_heading (self : t) (cmd : string) (a b : string * list string) :
  In a headings -> In b headings ->
  existsb (String.eqb cmd) (commands_from self (snd a)) = true ->
  existsb (String.eqb cmd) (commands_from self (snd b)) = true ->
  a = b.
Proof.
  intros Ha Hb La Lb.
  apply existsb_exists in La. destruct La as (x & Hx & Ex).
  apply String.eqb_eq in Ex. subst x.
  apply existsb_exists in Lb. destruct Lb as (y & Hy & Ey).
  apply String.eqb_eq in Ey. subst y.
  unfold commands_from in Hx, Hy.
  apply filter_In in Hx. destruct Hx as [_ Hp1].
  apply filter_In in Hy. destruct Hy as [_ Hp2].
  apply existsb_exists in Hp1. destruct Hp1 as (p & Hp & Sp).
  apply existsb_exists in Hp2. destruct Hp2 as (q & Hq & Sq).
  pose proof (prefixes_comparable p q cmd Sp Sq) as Hpq.
  assert (Htable :
    forallb (fun a =>
      forallb (fun b =>
        (if list_eq_dec string_dec (fst a :: snd a) (fst b :: snd b) then true else false)
        || forallb (fun p => forallb (fun q => negb (startswith p q || startswith q p))
                                     (snd b)) (snd a))
        headings) headings = true) by (vm_compute; reflexivity).
  rewrite forallb_forall in Htable. specialize (Htable _ Ha).
  rewrite forallb_forall in Htable. specialize (Htable _ Hb).
  cbv beta in Htable. apply orb_true_iff in Htable. destruct Htable as [E | Hno].
  - destruct (list_eq_dec string_dec (fst a :: snd a) (fst b :: snd b)) as [E' | ];
      [ | discriminate ].
    destruct a, b. simpl in E'. inversion E'. reflexivity.
  - rewrite forallb_forall in Hno. specialize (Hno _ Hp).
    rewrite forallb_forall in Hno. specialize (Hno _ Hq).
    rewrite Hpq in Hno. discriminate.
Qed.

End ChatHelpFacts.

Module ChatHelpExtras.
Import ChatCommandServer ChatTools OccurFacts ChatHelpFacts.

(** X10.  The table of examples is searched in its order for the first key
    that occurs in the command, and the key [note] stands before the key
    [note-search], which holds it: the examples filed under [note-search]
    are returned for no command, and the table without that entry gives the
    same examples for every command. *)
Theorem note_search_examples_are_shadowed (command : string) :
  _get_command_examples command
  = first_examples
      (filter (fun entry => negb (String.eqb (fst entry) "note-search")) examples)
      command.
Proof.
  unfold _get_command_examples, examples. cbn [filter fst String.eqb Ascii.eqb Bool.eqb negb].
  cbn [first_examples].
  destruct (contains "note" (lower command)) eqn:Hnote; [ reflexivity | ].
  destruct (contains "note-search" (lower command)) eqn:Hsearch; [ | reflexivity ].
  apply (contains_app_l "note" "-search") in Hsearch. congruence.
Qed.

(** X11.  The headings of the general help of the chat server select
    commands by prefix, and no prefix of one heading is comparable with a
    prefix of another: whatever the vocabulary, a command is listed under at
    most one heading; at the vocabulary of the server every command is
    listed under exactly one. *)
Theorem chat_help_headings_are_disjoint :
  (forall (self : t) (cmd : string),
      List.length (filter (fun category => existsb (String.eqb cmd) (snd category))
                          (categories self)) <= 1)
  /\ forallb (fun cmd =>
                Nat.eqb (List.length
                           (filter (fun category => existsb (String.eqb cmd) (snd category))
                                   (categories __init__))) 1)
             (vocabulary __init__) = true.
Proof.
  split; [ | vm_compute; reflexivity ].
  intros self cmd. unfold categories. rewrite filter_map_length.
  apply at_most_one; [ | exact headings_distinct ].
  intros a b Ha Hb La Lb. eapply one_heading; eassumption.
Qed.

End ChatHelpExtras.

(** ** Command completion *)

Module CompletionFacts.
Import ChatCommandServer ChatTools.

Lemma len_lower s : len (lower s) = len s.
Proof. unfold len. induction s; simpl; congruence. Qed.

Lemma lower_app a b : lower (a ++ b) = lower a ++ lower b.
Proof. induction a; simpl; congruence. Qed.

Lemma take_drop n s : take n s ++ drop n s = s.
Proof.
  revert n. induction s as [ | c s IH]; intros [ | n]; simpl; try reflexivity.
  rewrite IH. reflexivity.
Qed.

Lemma lower_take n s : lower (take n s) = take n (lower s).
Proof.
  revert n. induction s as [ | c s IH]; intros [ | n]; simpl; try reflexivity.
  rewrite IH. reflexivity.
Qed.

Lemma startswith_take p s : startswith p s = true -> take (len p) s = p.
Proof.
  intros H. apply startswith_inv in H. destruct H as [b ->]. apply take_app.
Qed.

Lemma startswith_len p s : startswith p s = true -> len p <= len s.
Proof.
  intros H. apply startswith_inv in H. destruct H as [b ->]. rewrite len_app. lia.
Qed.

Lemma startswith_whole p s : startswith p s = true -> len s <= len p -> p = s.
Proof.
  intros H Hlen. apply startswith_inv in H. destruct H as [b ->].
  rewrite len_app in Hlen. destruct b; [ | unfold len in Hlen; simpl in Hlen; lia ].
  rewrite app_nil_r. reflexivity.
Qed.

(** The entry built for a command that starts with the input completes it. *)
Lemma complete_completes partial_input cd :
  startswith (lower partial_input) (lower (fst cd)) = true ->
  lower (partial_input ++ completion (complete partial_input cd)) = lower (fst cd).
Proof.
  intros H. unfold complete. cbn [completion].
  destruct (Nat.ltb (len partial_input) (len (fst cd))) eqn:Hlt.
  - rewrite lower_app.
    rewrite <- (take_drop (len partial_input) (fst cd)) at 2.
    rewrite lower_app, lower_take.
    rewrite <- (len_lower partial_input), (startswith_take _ _ H). reflexivity.
  - apply Nat.ltb_ge in Hlt. rewrite app_nil_r.
    apply startswith_whole; [ exact H | ]. rewrite !len_lower. exact Hlt.
Qed.

(** *** The sort *)

Lemma insert_by_in {A : Type} (key : A -> bool * string) (x y : A) (l : list A) :
  In y (insert_by key x l) <-> y = x \/ In y l.
Proof.
  induction l as [ | z l IH]; simpl.
  - intuition.
  - destruct (key_lt (key z) (key x)); simpl; rewrite ?IH; intuition.
Qed.

Lemma sort_by_in {A : Type} (key : A -> bool * string) (y : A) (l : list A) :
  In y (sort_by key l) <-> In y l.
Proof.
  unfold sort_by. induction l as [ | x l IH]; simpl; [ tauto | ].
  rewrite insert_by_in, IH. intuition.
Qed.

Lemma insert_by_length {A : Type} (key : A -> bool * string) (x : A) (l : list A) :
  List.length (insert_by key x l) = S (List.length l).
Proof.
  induction l as [ | z l IH]; simpl; [ reflexivity | ].
  destruct (key_lt (key z) (key x)); simpl; congruence.
Qed.

Lemma sort_by_length {A : Type} (key : A -> bool * string) (l : list A) :
  List.length (sort_by key l) = List.length l.
Proof.
  unfold sort_by. induction l as [ | x l IH]; simpl; [ reflexivity | ].
  rewrite insert_by_length, IH. reflexivity.
Qed.

Lemma in_firstn {A : Type} (n : nat) (x : A) (l : list A) : In x (firstn n l) -> In x l.
Proof.
  revert l. induction n as [ | n IH]; intros [ | y l]; simpl; try tauto.
  intros [-> | H]; auto.
Qed.

(** [a < b] excludes [b < a]. *)
Lemma ltb_asym a b : String.ltb a b = true -> String.ltb b a = false.
Proof.
  unfold String.ltb. rewrite (String.compare_antisym a b).
  destruct (String.compare b a); simpl; intros H; solve [ discriminate H | reflexivity ].
Qed.

Lemma not_ltb_leb a b : String.ltb b a = false -> String.leb a b = true.
Proof.
  unfold String.ltb, String.leb. rewrite (String.compare_antisym a b).
  destruct (String.compare b a); simpl; intros H; solve [ discriminate H | reflexivity ].
Qed.

Lemma str_ltb_leb a b : String.ltb a b = true -> String.leb a b = true.
Proof.
  unfold String.ltb, String.leb.
  destruct (String.compare a b); simpl; intros H; solve [ discriminate H | reflexivity ].
Qed.

Lemma ascending_cons a b l :
  ascending (a :: b :: l) = String.leb a b && ascending (b :: l).
Proof. reflexivity. Qed.

Lemma ascending_tail a l : ascending (a :: l) = true -> ascending l = true.
Proof.
  destruct l as [ | b l]; [ reflexivity | ].
  rewrite ascending_cons. intros H. apply andb_true_iff in H. apply H.
Qed.

Section SameRelevance.

Variable key : suggestion -> bool * string.
Hypothesis key_command : forall x, key x = (false, command x).

(** With one relevance for all, the sort orders the entries by command. *)
Lemma insert_ascending x l :
  ascending (map command l) = true ->
  ascending (map command (insert_by key x l)) = true.
Proof.
  induction l as [ | y l IH]; [ reflexivity | ].
  intros H. cbn [insert_by]. rewrite !key_command. unfold key_lt. cbn [fst snd].
  destruct (String.ltb (command y) (command x)) eqn:Hyx.
  - cbn [map] in H. specialize (IH (ascending_tail _ _ H)).
    cbn [map]. destruct (insert_by key x l) as [ | z l'] eqn:E; [ reflexivity | ].
    cbn [map] in *. rewrite ascending_cons, IH, andb_true_r.
    destruct l as [ | y' l0].
    + cbn [insert_by] in E. inversion E; subst. apply str_ltb_leb. exact Hyx.
    + cbn [insert_by] in E. rewrite !key_command in E. unfold key_lt in E. cbn [fst snd] in E.
      destruct (String.ltb (command y') (command x)).
      * inversion E; subst. cbn [map] in H. rewrite ascending_cons in H.
        apply andb_true_iff in H. apply H.
      * inversion E; subst. apply str_ltb_leb. exact Hyx.
  - cbn [map] in *. rewrite ascending_cons, H, andb_true_r.
    apply not_ltb_leb. exact Hyx.
Qed.

Lemma sort_ascending l : ascending (map command (sort_by key l)) = true.
Proof.
  unfold sort_by. induction l as [ | x l IH]; [ reflexivity | ].
  cbn [fold_right]. apply insert_ascending. exact IH.
Qed.

End SameRelevance.

Lemma ascending_firstn n l : ascending l = true -> ascending (firstn n l) = true.
Proof.
  revert l. induction n as [ | n IH]; intros l H; [ reflexivity | ].
  destruct l as [ | a l]; [ reflexivity | ].
  destruct l as [ | b l]; [ destruct n; reflexivity | ].
  rewrite ascending_cons in H. apply andb_true_iff in H. destruct H as [H1 H2].
  specialize (IH _ H2). destruct n as [ | n]; [ reflexivity | ].
  cbn [firstn] in *. rewrite ascending_cons, H1. exact IH.
Qed.

(** The sort depends on the keys of the entries it is given only. *)
Lemma insert_by_ext {A : Type} (key key' : A -> bool * string) (x : A) (l : list A) :
  key x = key' x -> (forall y, In y l -> key y = key' y) ->
  insert_by key x l = insert_by key' x l.
Proof.
  intros Hx. induction l as [ | z l IH]; intros Hl; [ reflexivity | ].
  cbn [insert_by]. rewrite Hx, (Hl z) by (left; reflexivity).
  destruct (key_lt (key' z) (key' x)); [ | reflexivity ].
  rewrite IH; [ reflexivity | ]. intros y Hy. apply Hl. right. exact Hy.
Qed.

Lemma sort_by_ext {A : Type} (key key' : A -> bool * string) (l : list A) :
  (forall y, In y l -> key y = key' y) -> sort_by key l = sort_by key' l.
Proof.
  unfold sort_by. induction l as [ | x l IH]; intros Hl; [ reflexivity | ].
  cbn [fold_right]. rewrite IH by (intros y Hy; apply Hl; right; exact Hy).
  apply insert_by_ext; [ apply Hl; left; reflexivity | ].
  intros y Hy. apply Hl. right. apply (sort_by_in key' y l). exact Hy.
Qed.

(** The entries before the sort: each is built from a command that starts
    with the input. *)
Lemma candidate_inv (self : t) partial_input x :
  In x (map (complete partial_input)
          (filter (fun cd => startswith (lower partial_input) (lower (fst cd)))
                  (command_descriptions self))) ->
  exists cd,
    In cd (command_descriptions self)
    /\ startswith (lower partial_input) (lower (fst cd)) = true
    /\ x = complete partial_input cd.
Proof.
  intros H. apply in_map_iff in H. destruct H as (cd & <- & Hcd).
  apply filter_In in Hcd. destruct Hcd as [Hin Hs]. eauto.
Qed.

Lemma candidate_key (self : t) partial_input x :
  In x (map (complete partial_input)
          (filter (fun cd => startswith (lower partial_input) (lower (fst cd)))
                  (command_descriptions self))) ->
  sort_key (lower partial_input) x = (false, command x).
Proof.
  intros H. destruct (candidate_inv _ _ _ H) as (cd & _ & Hs & ->).
  unfold sort_key, complete. cbn [command]. rewrite Hs. reflexivity.
Qed.

Lemma map_firstn {A B : Type} (f : A -> B) n l : map f (firstn n l) = firstn n (map f l).
Proof.
  revert l. induction n as [ | n IH]; intros [ | x l]; simpl; try reflexivity.
  rewrite IH. reflexivity.
Qed.

(** The parts of a result with suggestions. *)
Lemma completions_inv (self : t) partial_input suggestions echoed has_suggestions :
  suggest_command_completion self partial_input
  = Completions suggestions echoed has_suggestions ->
  let sorted :=
    sort_by (sort_key (lower partial_input))
      (map (complete partial_input)
         (filter (fun cd => startswith (lower partial_input) (lower (fst cd)))
                 (command_descriptions self))) in
  suggestions = firstn 10 sorted
  /\ echoed = partial_input
  /\ has_suggestions = Nat.ltb 0 (List.length sorted).
Proof.
  unfold suggest_command_completion.
  destruct (negb (startswith "/" partial_input)); [ discriminate | ].
  intros H. injection H as H1 H2 H3. cbv zeta.
  split; [ symmetry; exact H1 | ]. split; symmetry; assumption.
Qed.

End CompletionFacts.

Module CompletionExtras.
Import ChatCommandServer ChatTools CompletionFacts.

(** X12.  Every suggestion completes the input: its command belongs to
    [command_descriptions] and starts with the input up to letter case, and
    the input followed by the completion is the command up to letter case;
    the completion is empty when the input is the whole command. *)
Theorem completion_completes_the_input
  (self : t) (partial_input : string) (suggestions : list suggestion)
  (echoed : string) (has_suggestions : bool) (x : suggestion) :
  suggest_command_completion self partial_input
  = Completions suggestions echoed has_suggestions ->
  In x suggestions ->
  In (command x, description x) (command_descriptions self)
  /\ startswith (lower partial_input) (lower (command x)) = true
  /\ lower (partial_input ++ completion x) = lower (command x)
  /\ (lower partial_input = lower (command x) -> completion x = "").
Proof.
  intros H Hx. apply completions_inv in H. cbv zeta in H. destruct H as (-> & -> & ->).
  apply in_firstn in Hx. apply sort_by_in in Hx.
  destruct (candidate_inv _ _ _ Hx) as ([cmd desc] & Hin & Hs & ->).
  cbn [complete command description fst snd].
  split; [ exact Hin | ]. split; [ exact Hs | ].
  split; [ apply (complete_completes partial_input (cmd, desc)); exact Hs | ].
  intros E. unfold complete. cbn [completion fst].
  replace (Nat.ltb (len partial_input) (len cmd)) with false; [ reflexivity | ].
  symmetry. apply Nat.ltb_ge.
  rewrite <- (len_lower partial_input), <- (len_lower cmd), E. lia.
Qed.

(** The completions of [/NOTE-C] at the server. *)
Lemma completion_completes_the_input_witness :
  In ("/note-create &lt;content&gt;", "Create a new note")
     (command_descriptions __init__)
  /\ startswith (lower "/NOTE-C") (lower "/note-create &lt;content&gt;") = true
  /\ lower ("/NOTE-C" ++ "reate &lt;content&gt;") = lower "/note-create &lt;content&gt;"
  /\ (lower "/NOTE-C" = lower "/note-create &lt;content&gt;" -> "reate &lt;content&gt;" = "").
Proof.
  apply (completion_completes_the_input __init__ "/NOTE-C"
           [{| command := "/note-create &lt;content&gt;";
               description := "Create a new note";
               completion := "reate &lt;content&gt;" |}]
           "/NOTE-C" true
           {| command := "/note-create &lt;content&gt;";
              description := "Create a new note";
              completion := "reate &lt;content&gt;" |}).
  - vm_compute. reflexivity.
  - simpl. tauto.
Defined.

(** X13.  The suggestions come in non-decreasing order of their command
    text and are ten at most.  The first component of the sort key, meant to
    put the commands that start with the input first, is [False] for every
    entry, since only such commands are entered.  [has_suggestions] tells
    whether some command of [command_descriptions] starts with the input up
    to letter case, also when more than ten do. *)
Theorem completions_are_sorted_and_capped
  (self : t) (partial_input : string) (suggestions : list suggestion)
  (echoed : string) (has_suggestions : bool) :
  suggest_command_completion self partial_input
  = Completions suggestions echoed has_suggestions ->
  ascending (map command suggestions) = true
  /\ List.length suggestions <= 10
  /\ echoed = partial_input
  /\ (forall x, In x suggestions -> sort_key (lower partial_input) x = (false, command x))
  /\ (has_suggestions = true <->
      exists cd, In cd (command_descriptions self)
                 /\ startswith (lower partial_input) (lower (fst cd)) = true).
Proof.
  intros H. apply completions_inv in H. cbv zeta in H. destruct H as (-> & -> & ->).
  set (candidates := map (complete partial_input)
                       (filter (fun cd => startswith (lower partial_input) (lower (fst cd)))
                               (command_descriptions self))).
  assert (Hkey : forall y, In y candidates ->
                   sort_key (lower partial_input) y = (fun x => (false, command x)) y).
  { intros y Hy. apply (candidate_key self). exact Hy. }
  split.
  { rewrite map_firstn. apply ascending_firstn. rewrite (sort_by_ext _ _ _ Hkey).
    apply sort_ascending. reflexivity. }
  split; [ apply firstn_le_length | ].
  split; [ reflexivity | ].
  split.
  { intros x Hx. apply in_firstn in Hx. apply sort_by_in in Hx. apply Hkey. exact Hx. }
  rewrite sort_by_length. unfold candidates. rewrite length_map.
  split.
  - intros Hlen. apply Nat.ltb_lt in Hlen.
    destruct (filter _ (command_descriptions self)) as [ | cd l] eqn:E;
      [ simpl in Hlen; lia | ].
    assert (Hcd : In cd (filter (fun cd => startswith (lower partial_input) (lower (fst cd)))
                           (command_descriptions self))) by (rewrite E; left; reflexivity).
    apply filter_In in Hcd. exists cd. exact Hcd.
  - intros (cd & Hin & Hs). apply Nat.ltb_lt.
    assert (Hcd : In cd (filter (fun cd => startswith (lower partial_input) (lower (fst cd)))
                           (command_descriptions self))) by (apply filter_In; auto).
    destruct (filter _ (command_descriptions self)); [ contradiction | simpl; lia ].
Qed.

(** The three completions of [/workflow-s] at the server. *)
Lemma completions_are_sorted_and_capped_witness :
  let suggestions :=
    [{| command := "/workflow-save [filename]";
        description := "Save current workflow";
        completion := "ave [filename]" |};
     {| command := "/workflow-stats";
        description := "Show detailed workflow stats";
        completion := "tats" |};
     {| command := "/workflow-status";
        description := "Show workflow statistics";
        completion := "tatus" |}] in
  ascending (map command suggestions) = true
  /\ List.length suggestions <= 10
  /\ "/workflow-s" = "/workflow-s"
  /\ (forall x, In x suggestions -> sort_key (lower "/workflow-s") x = (false, command x))
  /\ (true = true <->
      exists cd, In cd (command_descriptions __init__)
                 /\ startswith (lower "/workflow-s") (lower (fst cd)) = true).
Proof.
  apply (completions_are_sorted_and_capped __init__ "/workflow-s").
  vm_compute. reflexivity.
Defined.

End CompletionExtras.

(** ** Soundness of [findall] *)

Module FindFacts.
Import Find.

(** A successful attempt took a text that the pattern matches, at the front
    of what was left of the text. *)
Lemma attempt_sound ic n bounded r prev s w g :
  attempt ic n bounded r prev s = Some (w, g) ->
  exists s', s = w ++ s' /\ matches ic r w (repeat None (ngroups r)) g.
Proof.
  unfold attempt.
  destruct (negb bounded || boundary prev s); [ | discriminate ].
  destruct (exec ic n r s (repeat None (ngroups r)) _) as [res | ] eqn:He; [ | discriminate ].
  apply exec_sound in He. destruct He as (w0 & s' & g' & -> & M & Hk).
  rewrite consumed_app in Hk.
  destruct (negb bounded || boundary (last prev w0) s'); [ | discriminate ].
  inversion Hk; subst res. intros H. inversion H; subst. eauto.
Qed.

(** Every match reported is a part of the text that the pattern matches. *)
Lemma matches_from_sound ic n bounded r s :
  forall prev skip m,
    In m (matches_from ic n bounded r prev s skip) ->
    exists a b, s = a ++ fst m ++ b
                /\ matches ic r (fst m) (repeat None (ngroups r)) (snd m).
Proof.
  induction s as [ | c s IH]; intros prev skip m.
  - destruct skip as [ | skip]; cbn [matches_from]; [ | intros [] ].
    destruct (attempt ic n bounded r prev "") as [[w g] | ] eqn:Ha; [ | intros [] ].
    intros [<- | []]. apply attempt_sound in Ha. destruct Ha as (s' & E & M).
    exists "", s'. auto.
  - destruct skip as [ | skip]; cbn [matches_from].
    + destruct (attempt ic n bounded r prev (String c s)) as [[w g] | ] eqn:Ha.
      * intros [<- | Hin].
        -- apply attempt_sound in Ha. destruct Ha as (s' & E & M).
           exists "", s'. auto.
        -- destruct (IH _ _ _ Hin) as (a & b & -> & M).
           exists (String c a), b. auto.
      * intros Hin. destruct (IH _ _ _ Hin) as (a & b & -> & M).
        exists (String c a), b. auto.
    + intros Hin. destruct (IH _ _ _ Hin) as (a & b & -> & M).
      exists (String c a), b. auto.
Qed.

(** A part of a text occurs in it. *)
Lemma contains_middle a w b : contains w (a ++ w ++ b) = true.
Proof.
  induction a as [ | c a IH]; simpl.
  - destruct (w ++ b) eqn:E.
    + destruct w; [ reflexivity | discriminate ].
    + simpl. rewrite <- E, startswith_app. reflexivity.
  - rewrite IH. apply orb_true_r.
Qed.

End FindFacts.

(** ** The context extraction *)

Module ContextFacts.
Import Find FindFacts ChatContext.

(** A text matched by [[a-zA-Z]{3,}] has three characters at least. *)
Lemma long_word_length w g g' : matches false long_word w g g' -> 3 <= len w.
Proof.
  unfold long_word, Cat. intros M. inv_matches.
  match goal with H : is_empty ?v = false |- _ => destruct v; [ discriminate | ] end.
  unfold len. simpl. lia.
Qed.

Lemma topic_words_long text :
  forallb (fun w => Nat.leb 3 (len w)) (topic_words text) = true.
Proof.
  apply forallb_forall. intros w Hw. unfold topic_words, findall in Hw.
  apply in_map_iff in Hw. destruct Hw as (m & <- & Hm).
  apply matches_from_sound in Hm. destruct Hm as (a & b & _ & M).
  apply Nat.leb_le. eapply long_word_length. exact M.
Qed.

(** A keyword of fewer than three characters is no word of the text. *)
Lemma short_keyword_absent words keyword :
  forallb (fun w => Nat.leb 3 (len w)) words = true ->
  Nat.leb 3 (len keyword) = false -> is_in words keyword = false.
Proof.
  intros Hall Hshort. unfold is_in.
  destruct (existsb (String.eqb keyword) words) eqn:E; [ | reflexivity ].
  apply existsb_exists in E. destruct E as (w & Hw & Ew).
  apply String.eqb_eq in Ew. subst w.
  rewrite forallb_forall in Hall. rewrite (Hall _ Hw) in Hshort. discriminate.
Qed.

(** The group of a match of [@(\w+)] or [#(\w+)]. *)
Lemma marked_groups mark w g :
  matches false (marked mark) w (repeat None (ngroups (marked mark))) g ->
  exists v, w = mark ++ v /\ g = [Some v] /\ is_empty v = false /\ all isword v = true.
Proof.
  unfold marked, word. cbn [ngroups]. rewrite ngroups_Str. cbn [Nat.max repeat].
  intros M. inversion M as [ | | | | r1 r2 w1 w2 g0 g1 g2 M1 M2 | | | | | | | ]; subst.
  assert (H1 : w1 = mark /\ g1 = [None]).
  { clear M M2. revert w1 M1. induction mark as [ | c mark IH]; intros w1 M1; simpl in M1.
    - inversion M1; subst. auto.
    - inversion M1 as [ | | | | ? ? wa wb ? ga ? Ma Mb | | | | | | | ]; subst.
      inversion Ma as [ | | | ? x ? Hx | | | | | | | | ]; subst.
      simpl in Hx. apply Ascii.eqb_eq in Hx. subst x.
      destruct (IH _ Mb) as [-> ->]. auto. }
  destruct H1 as [-> ->].
  inversion M2 as [ | | | | | | | | | | | i r w0 ? g' Mg ]; subst.
  inversion Mg; subst. exists w2. auto.
Qed.

End ContextFacts.

Module ContextExtras.
Import Find FindFacts ChatContext ContextFacts.

(** X14.  The words of a text are found by a pattern that asks for three
    letters at least, and a topic is reported when one of its keywords is
    among the words.  So every word has three characters or more, and the
    keywords [ui], [ux] and [qa] never count: the topics are those given by
    the keywords of three letters or more. *)
Theorem short_topic_keywords_never_match (text : string) :
  forallb (fun w => Nat.leb 3 (len w)) (topic_words text) = true
  /\ existsb (String.eqb "ui") (topic_words text) = false
  /\ existsb (String.eqb "ux") (topic_words text) = false
  /\ existsb (String.eqb "qa") (topic_words text) = false
  /\ _extract_topics text
     = map fst
         (filter (fun tk =>
                    existsb (is_in (topic_words text))
                            (filter (fun keyword => Nat.leb 3 (len keyword)) (snd tk)))
                 topic_keywords).
Proof.
  pose proof (topic_words_long text) as Hlong.
  pose proof (short_keyword_absent _ "ui" Hlong eq_refl) as Hui.
  pose proof (short_keyword_absent _ "ux" Hlong eq_refl) as Hux.
  pose proof (short_keyword_absent _ "qa" Hlong eq_refl) as Hqa.
  repeat (split; [ assumption | ]).
  unfold _extract_topics, topic_keywords.
  cbn [filter snd existsb len String.length Nat.leb].
  rewrite Hui, Hux, Hqa. reflexivity.
Qed.

(** X15.  Every reference extracted from a text is a non-empty run of word
    characters that stands in the text right after an [@] or a [#]. *)
Theorem references_follow_a_mark (text reference : string) :
  In reference (_extract_references text) ->
  is_empty reference = false
  /\ all isword reference = true
  /\ (contains ("@" ++ reference) text = true \/ contains ("#" ++ reference) text = true).
Proof.
  unfold _extract_references, findall_group. intros H.
  apply in_app_or in H.
  destruct H as [H | H]; apply in_map_iff in H; destruct H as ([w g] & Eref & Hm);
    apply matches_from_sound in Hm; destruct Hm as (a & b & -> & M);
    apply marked_groups in M; destruct M as (v & E & Eg & Hne & Hw);
    cbn [fst snd] in *; subst w g reference;
    (split; [ exact Hne | ]); (split; [ exact Hw | ]).
  - left. apply contains_middle.
  - right. apply contains_middle.
Qed.

(** The mention and the tag of a short message. *)
Lemma references_follow_a_mark_witness :
  is_empty "ana" = false
  /\ all isword "ana" = true
  /\ (contains ("@" ++ "ana") "ask @ana about #q3 by mail" = true
      \/ contains ("#" ++ "ana") "ask @ana about #q3 by mail" = true).
Proof.
  apply (references_follow_a_mark "ask @ana about #q3 by mail" "ana").
  vm_compute. tauto.
Defined.

End ContextExtras.

(** ** Intent, sentiment and suggested commands *)

Module IntentFacts.
Import ChatTools ChatContext.

Lemma lower_char_idem c : lower_char (lower_char c) = lower_char c.
Proof. destruct c as [[] [] [] [] [] [] [] []]; reflexivity. Qed.

Lemma lower_idem s : lower (lower s) = lower s.
Proof. induction s as [ | c s IH]; simpl; [ reflexivity | ]. rewrite lower_char_idem, IH. reflexivity. Qed.

(** The loop over a table ends on [unknown] when no keyword of the table
    occurs, and only then if no intent of the table is called [unknown]. *)
Lemma first_intent_unknown table text_lower :
  forallb (fun ik => negb (String.eqb (fst ik) "unknown")) table = true ->
  (first_intent table text_lower = "unknown"
   <-> existsb (fun keyword => contains keyword text_lower) (concat (map snd table)) = false).
Proof.
  induction table as [ | [intent keywords] table IH]; intros Hnames.
  - simpl. tauto.
  - cbn [forallb fst] in Hnames. apply andb_true_iff in Hnames. destruct Hnames as [Hn Ht].
    apply negb_true_iff in Hn. apply String.eqb_neq in Hn.
    cbn [first_intent map snd concat]. rewrite existsb_app.
    destruct (existsb (fun keyword => contains keyword text_lower) keywords).
    + simpl. split; [ intros E; contradiction | discriminate ].
    + simpl. apply IH. exact Ht.
Qed.

End IntentFacts.

Module IntentExtras.
Import ChatTools ChatContext IntentFacts.

(** X16.  A text is classified [unknown] exactly when none of the keywords
    of the table occurs in it in lower case; a question mark is one of the
    keywords, so a text that holds one always has an intent.  The intent and
    the sentiment of a text are those of the text in lower case. *)
Theorem intent_is_unknown_without_keyword (text : string) :
  (_classify_intent text = "unknown"
   <-> existsb (fun keyword => contains keyword (lower text))
               (concat (map snd intent_keywords)) = false)
  /\ (if contains "?" text
      then negb (String.eqb (_classify_intent text) "unknown") else true) = true
  /\ _classify_intent (lower text) = _classify_intent text
  /\ _analyze_sentiment (lower text) = _analyze_sentiment text.
Proof.
  pose proof (first_intent_unknown intent_keywords (lower text) eq_refl) as Hu.
  split; [ exact Hu | ].
  split.
  - destruct (contains "?" text) eqn:Hq; [ | reflexivity ].
    apply contains_lower in Hq. change (lower "?") with "?" in Hq.
    apply negb_true_iff. apply String.eqb_neq. intros E.
    apply Hu in E. unfold intent_keywords in E. cbn [map snd concat app] in E.
    rewrite !existsb_app in E || idtac.
    cbn [existsb] in E. rewrite Hq in E.
    rewrite !orb_true_r in E. discriminate.
  - unfold _classify_intent, _analyze_sentiment. rewrite lower_idem. split; reflexivity.
Qed.

(** X17.  At most three commands are suggested, taken in the order
    note-create, opp-create, note-search, analyze: for a text that is worth
    a note, mentions a project and holds a question mark, the three first
    fill the list and [/analyze] is dropped, however long the text and
    whatever its entities. *)
Theorem analysis_suggestion_is_dropped :
  (forall (text : string) (context : dict) (suggestions : list (string * string)),
      _suggest_commands_for_input text context = Ok suggestions ->
      List.length suggestions <= 3)
  /\ (forall (text : string) (context note_worthy : dict) (in_topics : bool),
        get_default context "note_worthy" (VDict []) = VDict note_worthy ->
        truthy (get note_worthy "worthy") = true ->
        ChatCommandServer.str_in "project" (get_default context "topics" (VList [])) = Ok in_topics ->
        contains "project" (lower text) = true ->
        contains "?" text = true ->
        _suggest_commands_for_input text context
        = Ok [("/note-create", "Content appears worth saving as a note");
              ("/opp-create", "Content mentions projects or initiatives");
              ("/note-search", "Appears to be asking a question")]).
Proof.
  split.
  - intros text context suggestions. unfold _suggest_commands_for_input.
    destruct (WorkflowCommandServer.pget _ "worthy") as [worthy | e]; cbn [bind];
      [ | discriminate ].
    destruct (ChatCommandServer.str_in "project" _) as [in_topics | e]; cbn [bind];
      [ | discriminate ].
    match goal with |- Ok (firstn 3 ?l) = _ -> _ => generalize l end.
    intros l H. injection H as <-. exact (firstn_le_length 3 l).
  - intros text context note_worthy in_topics Hn Hw Ht Hp Hq.
    unfold _suggest_commands_for_input, WorkflowCommandServer.pget.
    rewrite Hn. cbn [as_dict bind]. rewrite Hw, Ht. cbn [bind].
    cbn [existsb]. rewrite Hp, Hq, orb_true_r, orb_true_r. cbn [app].
    destruct (Nat.ltb 100 (len text) && truthy (get context "entities")); reflexivity.
Qed.

(** A long question about a project, with an entity in its context. *)
Lemma analysis_suggestion_is_dropped_witness :
  _suggest_commands_for_input
    "We decided that the project plan for task-12 must be reviewed by the whole team before the next release, should we also tell the client?"
    [("entities", VList [VStr "task-12"]);
     ("intent", VStr "question");
     ("topics", VList [VStr "project"; VStr "client"]);
     ("note_worthy", VDict [("worthy", VBool true)])]
  = Ok [("/note-create", "Content appears worth saving as a note");
        ("/opp-create", "Content mentions projects or initiatives");
        ("/note-search", "Appears to be asking a question")].
Proof.
  apply (proj2 analysis_suggestion_is_dropped
           "We decided that the project plan for task-12 must be reviewed by the whole team before the next release, should we also tell the client?"
           [("entities", VList [VStr "task-12"]);
            ("intent", VStr "question");
            ("topics", VList [VStr "project"; VStr "client"]);
            ("note_worthy", VDict [("worthy", VBool true)])]
           [("worthy", VBool true)] true);
    vm_compute; reflexivity.
Defined.

End IntentExtras.

(** ** Stripping and splitting *)

Module StripFacts.

Lemma lstrip_by_idem p s : lstrip_by p (lstrip_by p s) = lstrip_by p s.
Proof.
  induction s as [ | c s IH]; [ reflexivity | ].
  cbn [lstrip_by]. destruct (p c) eqn:E; [ exact IH | ].
  cbn [lstrip_by]. rewrite E. reflexivity.
Qed.

Lemma rstrip_by_idem p s : rstrip_by p (rstrip_by p s) = rstrip_by p s.
Proof.
  induction s as [ | c s IH]; [ reflexivity | ].
  cbn [rstrip_by]. destruct (is_empty (rstrip_by p s) && p c) eqn:E; [ reflexivity | ].
  cbn [rstrip_by]. rewrite IH, E. reflexivity.
Qed.

(** What is left of a text stripped on the left stays so when it is
    stripped on the right. *)
Lemma lstrip_rstrip_lstrip p s :
  lstrip_by p (rstrip_by p (lstrip_by p s)) = rstrip_by p (lstrip_by p s).
Proof.
  induction s as [ | c s IH]; [ reflexivity | ].
  cbn [lstrip_by]. destruct (p c) eqn:E; [ exact IH | ].
  cbn [rstrip_by]. rewrite E, andb_false_r. cbn [lstrip_by]. rewrite E. reflexivity.
Qed.

(** [s.strip().strip()] is [s.strip()]. *)
Lemma strip_idem s : strip (strip s) = strip s.
Proof.
  unfold strip. rewrite lstrip_rstrip_lstrip. apply rstrip_by_idem.
Qed.

(** *** The first occurrence of a separator *)

Lemma partition_some sep s a b :
  partition sep s = Some (a, b) -> s = a ++ sep ++ b /\ contains sep a = startswith sep "".
Proof.
  revert a b. induction s as [ | c s IH]; intros a b; cbn [partition].
  - destruct (startswith sep "") eqn:E; [ | discriminate ].
    intros H. inversion H; subst.
    destruct sep; [ auto | discriminate ].
  - destruct (startswith sep (String c s)) eqn:E.
    + intros H. inversion H; subst.
      apply startswith_inv in E. destruct E as [rest E].
      split.
      * rewrite E, drop_app. reflexivity.
      * cbn [contains]. rewrite orb_false_r. reflexivity.
    + destruct (partition sep s) as [[a' b'] | ]; [ | discriminate ].
      intros H. injection H as <- <-.
      destruct (IH _ _ eq_refl) as [-> Hc]. split; [ reflexivity | ].
      change (contains sep (String c a'))
        with (startswith sep (String c a') || contains sep a').
      rewrite Hc.
      destruct (startswith sep (String c a')) eqn:E'; [ | destruct sep; reflexivity ].
      apply startswith_inv in E'. destruct E' as [rest E'].
      exfalso. revert E.
      change (String c (a' ++ sep ++ b')) with (String c a' ++ sep ++ b').
      rewrite E', app_assoc, startswith_app. discriminate.
Qed.

Lemma partition_none sep s : partition sep s = None -> contains sep s = false.
Proof.
  induction s as [ | c s IH]; cbn [partition contains].
  - destruct (startswith sep ""); [ discriminate | reflexivity ].
  - destruct (startswith sep (String c s)); [ discriminate | ].
    destruct (partition sep s) as [[a b] | ]; [ discriminate | ].
    intros _. rewrite (IH eq_refl). reflexivity.
Qed.

(** *** The tokens of a text *)

Lemma all_snoc p cur c : all p cur = true -> p c = true -> all p (snoc cur c) = true.
Proof.
  unfold snoc. induction cur as [ | x cur IH]; simpl; intros H Hc.
  - rewrite Hc. reflexivity.
  - apply andb_true_iff in H. destruct H as [Hx H]. rewrite Hx, IH by assumption. reflexivity.
Qed.

Lemma split_acc_tokens s : forall cur tok,
  all (fun c => negb (isspace c)) cur = true ->
  In tok (split_acc cur s) ->
  is_empty tok = false /\ all (fun c => negb (isspace c)) tok = true.
Proof.
  induction s as [ | c s IH]; intros cur tok Hcur; cbn [split_acc].
  - destruct (is_empty cur) eqn:E; [ intros [] | ].
    intros [<- | []]. auto.
  - destruct (isspace c) eqn:Hc.
    + destruct (is_empty cur) eqn:E.
      * apply IH. reflexivity.
      * intros [<- | Hin]; [ auto | ]. eapply IH; [ | exact Hin ]. reflexivity.
    + apply IH. apply all_snoc; [ exact Hcur | ]. rewrite Hc. reflexivity.
Qed.

(** A token of [s.split()] is not empty and holds no whitespace. *)
Lemma split_tokens s tok :
  In tok (split s) -> is_empty tok = false /\ all (fun c => negb (isspace c)) tok = true.
Proof. apply split_acc_tokens. reflexivity. Qed.

End StripFacts.

Module ParseShapeFacts.
Import WorkflowCommandServer WorkflowFacts.




(** The group of a match of the rule [opp-create]. *)
Lemma opp_create_groups pat s g :
  In ("opp-create", pat) (ChatCommandServer.command_patterns ChatCommandServer.__init__) ->
  re_match true pat s = Some g ->
  exists content, g = [Some content] /\ is_empty content = false.
Proof.
  intros Hin Hm. pick_rule Hin.
  apply re_match_sound in Hm. destruct Hm as (w & s' & _ & M).
  cbv [Cat Str hy ws rest token ngroups Nat.max repeat] in M.
  inv_matches; simpl; eexists; split; reflexivity || assumption.
Qed.

(** The groups of a match of the rule [note-tag]. *)
Lemma note_tag_groups pat s g :
  In ("note-tag", pat) (ChatCommandServer.command_patterns ChatCommandServer.__init__) ->
  re_match true pat s = Some g ->
  exists note_id tags,
    g = [Some note_id; Some tags]
    /\ is_empty note_id = false
    /\ all (fun c => negb (isspace c)) note_id = true.
Proof.
  intros Hin Hm. pick_rule Hin.
  apply re_match_sound in Hm. destruct Hm as (w & s' & _ & M).
  cbv [Cat Str hy ws rest token ngroups Nat.max repeat] in M.
  inv_matches; simpl; do 2 eexists; (split; [ reflexivity | ]); split; assumption.
Qed.

End ParseShapeFacts.

Module ParseShapeExtras.
Import StripFacts ChatParseFacts ParseShapeFacts.

(** X18.  Both parsers see their input through [strip] only: parsing a
    text and parsing the same text with the whitespace around it removed
    give the same result. *)
Theorem parse_ignores_surrounding_whitespace :
  (forall (self : WorkflowCommandServer.t) (input : string),
      WorkflowCommandServer.parse_workflow_command self (strip input)
      = WorkflowCommandServer.parse_workflow_command self input)
  /\ (forall (self : ChatCommandServer.t) (input : string),
        ChatCommandServer.parse_chat_input self (strip input)
        = ChatCommandServer.parse_chat_input self input).
Proof.
  split.
  - intros self input.
    unfold WorkflowCommandServer.parse_workflow_command,
      WorkflowCommandServer.parse_workflow_command_body.
    rewrite strip_idem. reflexivity.
  - intros self input.
    unfold ChatCommandServer.parse_chat_input, ChatCommandServer.parse_chat_input_body.
    rewrite strip_idem. reflexivity.
Qed.



(** X20.  The text of [/opp-create] is cut at its first [ - ]: what
    precedes it, with the quotes at its two ends removed, is the title, and
    what follows it is kept as it is for the description; without a [ - ]
    the whole text is the title and the description is empty. *)
Theorem opportunity_splits_at_first_dash (input : string) :
  get (ChatCommandServer.parse_chat_input ChatCommandServer.__init__ input) "command_type"
  = VStr "opp-create" ->
  exists content title description : string,
    get (ChatCommandServer.parse_chat_input ChatCommandServer.__init__ input) "raw_params"
    = VTuple [VStr content]
    /\ get (ChatCommandServer.parse_chat_input ChatCommandServer.__init__ input) "parameters"
       = VDict [("title", VStr (strip_chars (String Pat.dquote "'") title));
                ("description", VStr description)]
    /\ contains " - " title = false
    /\ (content = title ++ " - " ++ description
        \/ (content = title /\ description = "")).
Proof.
  intros H. apply parse_chat_input_inv in H.
  destruct H as (g & res & Hf & Hp & ->).
  apply first_match_some in Hf. destruct Hf as (pat & Hin & Hm).
  destruct (opp_create_groups _ _ _ Hin Hm) as (content & -> & Hne).
  exists content. revert Hp.
  unfold ChatCommandServer._parse_command_match, or_else, split_once. simpl.
  rewrite Hne. simpl.
  destruct (partition " - " content) as [[title description] | ] eqn:E; simpl;
    intros Hp; inversion Hp; subst.
  - exists title, description. apply partition_some in E. destruct E as [E1 E2].
    repeat split; auto.
  - exists content, "". apply partition_none in E. repeat split; auto.
Qed.

(** The quoted example of the command: the description keeps the closing
    quote. *)
Lemma opportunity_splits_at_first_dash_witness :
  exists content title description : string,
    get (ChatCommandServer.parse_chat_input ChatCommandServer.__init__
           ("/opp-create " ++ dq "Website Redesign Project - Complete overhaul of company site"))
        "raw_params"
    = VTuple [VStr content]
    /\ get (ChatCommandServer.parse_chat_input ChatCommandServer.__init__
              ("/opp-create "
               ++ dq "Website Redesign Project - Complete overhaul of company site"))
           "parameters"
       = VDict [("title", VStr (strip_chars (String Pat.dquote "'") title));
                ("description", VStr description)]
    /\ contains " - " title = false
    /\ (content = title ++ " - " ++ description
        \/ (content = title /\ description = "")).
Proof.
  apply (opportunity_splits_at_first_dash
           ("/opp-create "
            ++ dq "Website Redesign Project - Complete overhaul of company site")).
  vm_compute. reflexivity.
Defined.

(** X21.  The tags of [/note-tag] are the words of the text after the note
    id, cut at whitespace only: no tag is empty and none holds whitespace,
    and the note id is one such word as well. *)
Theorem note_tags_are_words (input : string) :
  get (ChatCommandServer.parse_chat_input ChatCommandServer.__init__ input) "command_type"
  = VStr "note-tag" ->
  exists (note_id : string) (tags : list string),
    get (ChatCommandServer.parse_chat_input ChatCommandServer.__init__ input) "parameters"
    = VDict [("note_id", VStr note_id); ("tags", strs tags)]
    /\ is_empty note_id = false
    /\ all (fun c => negb (isspace c)) note_id = true
    /\ forall tag, In tag tags ->
                   is_empty tag = false /\ all (fun c => negb (isspace c)) tag = true.
Proof.
  intros H. apply parse_chat_input_inv in H.
  destruct H as (g & res & Hf & Hp & ->).
  apply first_match_some in Hf. destruct Hf as (pat & Hin & Hm).
  destruct (note_tag_groups _ _ _ Hin Hm) as (note_id & tags & -> & Hne & Hid).
  exists note_id, (split tags). revert Hp.
  unfold ChatCommandServer._parse_command_match. simpl.
  intros Hp. inversion Hp; subst.
  repeat split; auto; apply (split_tokens tags tag); assumption.
Qed.

(** Tags separated by a comma and a blank: the comma stays in the tag. *)
Lemma note_tags_are_words_witness :
  exists (note_id : string) (tags : list string),
    get (ChatCommandServer.parse_chat_input ChatCommandServer.__init__
           "/note-tag 42 urgent, review") "parameters"
    = VDict [("note_id", VStr note_id); ("tags", strs tags)]
    /\ is_empty note_id = false
    /\ all (fun c => negb (isspace c)) note_id = true
    /\ forall tag, In tag tags ->
                   is_empty tag = false /\ all (fun c => negb (isspace c)) tag = true.
Proof.
  apply (note_tags_are_words "/note-tag 42 urgent, review").
  vm_compute. reflexivity.
Defined.

End ParseShapeExtras.
